(** * CultureBridge AI: the adaptation pipeline, embedded and verified

    A shallow embedding of the Python sources under [apps/api]:

    - [variant_store.py]                 ([Module VariantStore])
    - [cultural_data.py]                 ([Module CulturalDataLoader])
    - [agents/llm_client.py]             ([Module LLMClient])
    - [agents/cultural_intelligence.py]  ([Module CulturalIntelligenceAgent])
    - [agents/ux_adaptation.py]          ([Module UXAdaptationAgent])
    - [agents/copy_framing.py]           ([Module CopyFramingAgent])
    - [agents/compliance_auditor.py]     ([Module ComplianceAuditorAgent])
    - [agents/experimentation.py]        ([Module ExperimentationAgent])
    - [models.py], the request models    ([Module Models])
    - [orchestrator.py], what it assembles ([Module AgentOrchestrator])

    Python objects that travel between the agents as JSON-shaped [dict]s are
    values of the type [value]; a Python exception is the [Raise] outcome of
    the result type [res].  Python [float]s are IEEE binary64 numbers, here
    Rocq's primitive [float]s, so that the arithmetic of the impact
    prediction is computed bit for bit.  The prompts sent to the enrichment
    gateway are not modelled: the gateway's reply is an input of each stage. *)

From Stdlib Require Import ZArith String Ascii List Bool Lia Floats DecimalString.
From stdpp Require Import gmap strings list.

#[local] Set Warnings "-register-all,-inexact-float".
Local Open Scope Z_scope.

(** ** Python values *)

Module Py.

(** JSON-shaped Python objects.  A [dict] keeps its insertion order, which
    the loops over [.items()] observe, so it is an association list whose
    keys are kept distinct by [dict_set]. *)
Inductive value : Type :=
| VNone
| VBool (b : bool)
| VInt (z : Z)
| VFloat (f : float)
| VStr (s : string)
| VList (l : list value)
| VDict (d : list (string * value)).

(** The exceptions the modelled code can raise. *)
Inductive exn : Type :=
| KeyError (key : string)
| AttributeError (attr : string)
| TypeError (what : string)
| ValueError (what : string)
| ZeroDivisionError
| OverflowError.

Inductive res (A : Type) : Type :=
| Ok (a : A)
| Raise (e : exn).
Arguments Ok {A} a.
Arguments Raise {A} e.

Definition res_bind {A B : Type} (f : A → res B) (m : res A) : res B :=
  match m with
  | Ok a => f a
  | Raise e => Raise e
  end.

#[global] Instance res_mret : MRet res := @Ok.
#[global] Instance res_mbind : MBind res := @res_bind.

Definition is_ok {A : Type} (m : res A) : Prop := ∃ a, m = Ok a.

(** [for x in xs: st = body(st, x)], stopping at the first exception. *)
Fixpoint for_each {A S : Type} (xs : list A) (body : S → A → res S) (st : S) : res S :=
  match xs with
  | [] => Ok st
  | x :: xs' => st' ← body st x; for_each xs' body st'
  end.

(** *** Strings *)

Definition lower_ascii (c : ascii) : ascii :=
  let n := nat_of_ascii c in
  if ((65 <=? n) && (n <=? 90))%nat then ascii_of_nat (n + 32) else c.

(** [s.lower()], on the ASCII letters; other bytes are left as they are. *)
Fixpoint lower (s : string) : string :=
  match s with
  | EmptyString => EmptyString
  | String c s' => String (lower_ascii c) (lower s')
  end.

(** [pat in s] for two strings. *)
Fixpoint contains (pat s : string) : bool :=
  String.prefix pat s ||
  match s with
  | EmptyString => false
  | String _ s' => contains pat s'
  end.

(** [s[n:]] *)
Fixpoint drop_chars (n : nat) (s : string) : string :=
  match n, s with
  | O, _ => s
  | S _, EmptyString => EmptyString
  | S n', String _ s' => drop_chars n' s'
  end.

Fixpoint join (sep : string) (parts : list string) : string :=
  match parts with
  | [] => ""
  | [p] => p
  | p :: ps => p +:+ sep +:+ join sep ps
  end.

Fixpoint repeat_char (c : ascii) (n : nat) : string :=
  match n with
  | O => ""
  | S n' => String c (repeat_char c n')
  end.

(** [str(z)] for an [int]. *)
Definition str_of_Z (z : Z) : string := NilZero.string_of_int (Z.to_int z).

(** [f"{n:03d}"] for a non-negative counter. *)
Definition pad3 (n : nat) : string :=
  let s := str_of_Z (Z.of_nat n) in
  repeat_char "0"%char (3 - String.length s) +:+ s.

(** *** Dictionaries *)

Fixpoint assoc_get (d : list (string * value)) (k : string) : option value :=
  match d with
  | [] => None
  | (k', v) :: d' => if String.eqb k' k then Some v else assoc_get d' k
  end.

(** [d[k] = v]: an existing key keeps its place, a new key goes last. *)
Fixpoint dict_set (d : list (string * value)) (k : string) (v : value) : list (string * value) :=
  match d with
  | [] => [(k, v)]
  | (k', v') :: d' => if String.eqb k' k then (k', v) :: d' else (k', v') :: dict_set d' k v
  end.

(** [del d[k]]: the entry of the key goes, the other entries keep their
    order. *)
Fixpoint dict_del (d : list (string * value)) (k : string) : list (string * value) :=
  match d with
  | [] => []
  | (k', v) :: d' => if String.eqb k' k then dict_del d' k else (k', v) :: dict_del d' k
  end.

(** [o.get(k, dflt)]: only a [dict] has the method. *)
Definition get (o : value) (k : string) (dflt : value) : res value :=
  match o with
  | VDict d => Ok (default dflt (assoc_get d k))
  | _ => Raise (AttributeError "get")
  end.

(** [o[k]] with a string key. *)
Definition subscript (o : value) (k : string) : res value :=
  match o with
  | VDict d =>
      match assoc_get d k with
      | Some v => Ok v
      | None => Raise (KeyError k)
      end
  | _ => Raise (TypeError "subscript")
  end.

(** [k in o] with a string key, for a [dict]. *)
Definition has_key (d : list (string * value)) (k : string) : bool :=
  match assoc_get d k with
  | Some _ => true
  | None => false
  end.

(** [o.items()] *)
Definition items (o : value) : res (list (string * value)) :=
  match o with
  | VDict d => Ok d
  | _ => Raise (AttributeError "items")
  end.

Fixpoint chars (s : string) : list value :=
  match s with
  | EmptyString => []
  | String c s' => VStr (String c EmptyString) :: chars s'
  end.

(** [for x in o]: the elements of a list, the keys of a dict, the
    characters of a string. *)
Definition iter (o : value) : res (list value) :=
  match o with
  | VList l => Ok l
  | VDict d => Ok (map (λ kv, VStr kv.1) d)
  | VStr s => Ok (chars s)
  | _ => Raise (TypeError "not iterable")
  end.

(** [o.lower()] *)
Definition str_lower (o : value) : res string :=
  match o with
  | VStr s => Ok (lower s)
  | _ => Raise (AttributeError "lower")
  end.

Definition isinstance_dict (o : value) : bool :=
  match o with
  | VDict _ => true
  | _ => false
  end.

(** [bool(o)] *)
Definition truthy (o : value) : bool :=
  match o with
  | VNone => false
  | VBool b => b
  | VInt z => negb (z =? 0)%Z
  | VFloat f => negb (f =? 0)%float
  | VStr s => negb (String.eqb s "")
  | VList l => match l with [] => false | _ => true end
  | VDict d => match d with [] => false | _ => true end
  end.

(** [o == s] for a string literal [s]. *)
Definition eq_str (o : value) (s : string) : bool :=
  match o with
  | VStr s' => String.eqb s' s
  | _ => false
  end.

(** *** Floats

    A Python [float] is a binary64 number.  The conversions between floats
    and decimals that Python performs with correct rounding ([float(s)],
    [round], [repr], the format [.1f], [int / int]) are computed here on
    exact integers. *)

(** The binary64 number nearest to [p / q], ties to even. *)
Definition nearest_float (p : Z) (q : positive) : float :=
  match p with
  | 0 => 0%float
  | _ =>
      let a := Z.abs p in
      let t := Z.max 0 (66 + Z.log2 (Z.pos q) - Z.log2 a) in
      let n := a * 2 ^ t in
      let m := 2 * (n / Z.pos q) + (if n mod Z.pos q =? 0 then 0 else 1) in
      SF2Prim (binary_normalize prec emax (if p <? 0 then - m else m) (- t - 1) false)
  end.

(** [m * 10 ^ e] as a fraction *)
Definition nearest_float_dec (m e : Z) : float :=
  if 0 <=? e then nearest_float (m * 10 ^ e) 1 else nearest_float m (Z.to_pos (10 ^ (- e))).

(** [float(z)] *)
Definition float_of_Z (z : Z) : float := nearest_float z 1.

(** A finite float is [m * 2 ^ e]. *)
Definition exact (f : float) : option (Z * Z) :=
  match Prim2SF f with
  | S754_zero _ => Some (0, 0)
  | S754_finite s m e => Some (if s then Z.neg m else Z.pos m, e)
  | _ => None
  end.

(** The integer nearest to [n / d], ties to even, for [0 < d]. *)
Definition round_half_even (n d : Z) : Z :=
  let q := n / d in
  let r := n mod d in
  match 2 * r ?= d with
  | Lt => q
  | Gt => q + 1
  | Eq => if Z.even q then q else q + 1
  end.

(** The integer nearest to [f * 10 ^ digits], ties to even. *)
Definition scaled_round (m e : Z) (digits : Z) : Z :=
  round_half_even (m * 2 ^ Z.max e 0 * 10 ^ Z.max digits 0) (2 ^ Z.max (- e) 0 * 10 ^ Z.max (- digits) 0).

(** [round(f, ndigits)] *)
Definition py_round (f : float) (ndigits : Z) : float :=
  match exact f with
  | None => f
  | Some (m, e) =>
      let k := scaled_round m e ndigits in
      if k =? 0 then (if get_sign f then (-0)%float else 0%float)
      else nearest_float_dec k (- ndigits)
  end.

(** [f"{f:.1f}"] *)
Definition format_1f (f : float) : string :=
  match exact f with
  | None => if is_nan f then "nan" else if get_sign f then "-inf" else "inf"
  | Some (m, e) =>
      let k := Z.abs (scaled_round m e 1) in
      (if get_sign f then "-" else "") +:+ str_of_Z (k / 10) +:+ "." +:+ str_of_Z (k mod 10)
  end.

(** *** [repr] of a float: the shortest digits that read back as the same float *)

(** [10 ^ n <= m * 2 ^ e], for [0 < m] *)
Definition ge_pow10 (m e n : Z) : bool :=
  10 ^ Z.max n 0 * 2 ^ Z.max (- e) 0 <=? m * 2 ^ Z.max e 0 * 10 ^ Z.max (- n) 0.

(** the [n] with [10 ^ n <= m * 2 ^ e < 10 ^ (n + 1)] *)
Definition floor_log10 (m e : Z) : Z :=
  let n0 := (Z.log2 m + e) * 30103 / 100000 in
  default (n0 - 3) (find (ge_pow10 m e) [n0 + 2; n0 + 1; n0; n0 - 1; n0 - 2]).

(** The [k]-digit decimals next to [m * 2 ^ e] that read back as [f]. *)
Definition candidate (f : float) (m e n : Z) (k : Z) : option (Z * Z) :=
  let p := n - k + 1 in
  let num := m * 2 ^ Z.max e 0 * 10 ^ Z.max (- p) 0 in
  let den := 2 ^ Z.max (- e) 0 * 10 ^ Z.max p 0 in
  let lo := num / den in
  let r := num mod den in
  let ok d := (nearest_float_dec d p =? f)%float in
  let pick d := Some (d, p) in
  match ok lo, ok (lo + 1) with
  | true, true =>
      match 2 * r ?= den with
      | Lt => pick lo
      | Gt => pick (lo + 1)
      | Eq => pick (if Z.even lo then lo else lo + 1)
      end
  | true, false => pick lo
  | false, true => if r =? 0 then None else pick (lo + 1)
  | false, false => None
  end.

(** The first [k], from 1 up, with such a decimal; 17 digits always do. *)
Fixpoint shortest (f : float) (m e n : Z) (k : Z) (fuel : nat) : Z * Z :=
  match fuel with
  | O => (m, e)
  | S fuel' =>
      match candidate f m e n k with
      | Some dp => dp
      | None => shortest f m e n (k + 1) fuel'
      end
  end.

(** [d * 10 ^ p] without trailing zeros in [d] *)
Fixpoint strip_zeros (d p : Z) (fuel : nat) : Z * Z :=
  match fuel with
  | O => (d, p)
  | S fuel' => if (d mod 10 =? 0) && negb (d =? 0) then strip_zeros (d / 10) (p + 1) fuel' else (d, p)
  end.

(** [s[:n]] *)
Definition take_chars (n : nat) (s : string) : string := String.substring 0 n s.

(** [repr(f)]: the digits, in exponent notation below [1e-4] and from
    [1e16] on, with a [.0] after an integer. *)
Definition float_repr (f : float) : string :=
  match Prim2SF f with
  | S754_nan => "nan"
  | S754_infinity s => if s then "-inf" else "inf"
  | S754_zero s => if s then "-0.0" else "0.0"
  | S754_finite s m e =>
      let n := floor_log10 (Z.pos m) e in
      let '(d, p) := shortest (abs f) (Z.pos m) e n 1 17 in
      let '(d, p) := strip_zeros d p 400 in
      let ds := str_of_Z d in
      let len := Z.of_nat (String.length ds) in
      let decpt := len + p in
      let body :=
        if (decpt <? -3) || (16 <? decpt) then
          let ex := decpt - 1 in
          String.substring 0 1 ds +:+ (if 1 <? len then "." +:+ drop_chars 1 ds else "")
          +:+ "e" +:+ (if ex <? 0 then "-" else "+")
          +:+ (if Z.abs ex <? 10 then "0" else "") +:+ str_of_Z (Z.abs ex)
        else if decpt <=? 0 then "0." +:+ repeat_char "0"%char (Z.to_nat (- decpt)) +:+ ds
        else if len <=? decpt then ds +:+ repeat_char "0"%char (Z.to_nat (decpt - len)) +:+ ".0"
        else take_chars (Z.to_nat decpt) ds +:+ "." +:+ drop_chars (Z.to_nat decpt) ds
      in (if s then "-" else "") +:+ body
  end.

(** *** [float(s)] for a string

    The grammar of Python's float literals: spaces around, a sign, [inf],
    [infinity] or [nan] in any case, or digits with single underscores
    between them, a point and an exponent.  In a string that is not ASCII,
    [float] first reads every space of Unicode as an ASCII space and every
    decimal digit of any script as its ASCII digit. *)

Definition is_ws (c : ascii) : bool :=
  let n := nat_of_ascii c in ((9 <=? n) && (n <=? 13) || (n =? 32))%nat.

Fixpoint lstrip (s : string) : string :=
  match s with
  | String c s' => if is_ws c then lstrip s' else s
  | EmptyString => EmptyString
  end.

Fixpoint rstrip (s : string) : string :=
  match s with
  | EmptyString => EmptyString
  | String c s' =>
      match rstrip s' with
      | EmptyString => if is_ws c then EmptyString else String c EmptyString
      | r => String c r
      end
  end.

Definition digit_of (c : ascii) : option Z :=
  let n := nat_of_ascii c in
  if ((48 <=? n) && (n <=? 57))%nat then Some (Z.of_nat n - 48) else None.

(** [digit (["_"] digit)*]: the digits read, their number, and the rest;
    [after_digit] tells whether an underscore may come next. *)
Fixpoint digitpart (s : string) (acc : Z) (count : Z) (after_digit : bool) : option (Z * Z * string) :=
  match s with
  | EmptyString => if after_digit then Some (acc, count, s) else None
  | String c s' =>
      match digit_of c with
      | Some d => digitpart s' (10 * acc + d) (count + 1) true
      | None =>
          if Ascii.eqb c "_" then
            (if after_digit then
               match s' with
               | String c' _ => if digit_of c' is Some _ then digitpart s' acc count false else None
               | EmptyString => None
               end
             else None)
          else if after_digit then Some (acc, count, s) else None
      end
  end.

Definition starts_digit (s : string) : bool :=
  match s with
  | String c _ => if digit_of c is Some _ then true else false
  | EmptyString => false
  end.

(** the optional exponent and the end of the literal *)
Definition exponent (s : string) : option Z :=
  match s with
  | EmptyString => Some 0
  | String c s' =>
      if Ascii.eqb c "e" || Ascii.eqb c "E" then
        let '(neg, s'') :=
          match s' with
          | String "-" r => (true, r)
          | String "+" r => (false, r)
          | _ => (false, s')
          end in
        match digitpart s'' 0 0 false with
        | Some (x, _, EmptyString) => Some (if neg : bool then - x else x)
        | _ => None
        end
      else None
  end.

(** an unsigned decimal literal as [mantissa * 10 ^ exponent] *)
Definition decimal_literal (s : string) : option (Z * Z) :=
  let after_point (ip : Z) (s1 : string) (need_digits : bool) :=
    if starts_digit s1 then
      match digitpart s1 ip 0 false with
      | Some (m, n, s2) =>
          match exponent s2 with Some x => Some (m, x - n) | None => None end
      | None => None
      end
    else if need_digits then None
    else match exponent s1 with Some x => Some (ip, x) | None => None end in
  match s with
  | String "." s1 => after_point 0 s1 true
  | _ =>
      match digitpart s 0 0 false with
      | Some (ip, _, String "." s1) => after_point ip s1 false
      | Some (ip, _, s1) => match exponent s1 with Some x => Some (ip, x) | None => None end
      | None => None
      end
  end.

(** The number of a float literal in ASCII. *)
Definition float_literal (s : string) : option float :=
  let s := rstrip (lstrip s) in
  let '(neg, body) :=
    match s with
    | String "-" r => (true, r)
    | String "+" r => (false, r)
    | _ => (false, s)
    end in
  let signed (f : float) := if neg : bool then (- f)%float else f in
  let word := lower body in
  if String.eqb word "inf" || String.eqb word "infinity" then Some (signed infinity)
  else if String.eqb word "nan" then Some nan
  else
    match decimal_literal body with
    | Some (m, e) => Some (signed (if m =? 0 then 0%float else nearest_float_dec m e))
    | None => None
    end.

(** The code points above 127 for which [str.isspace] holds. *)
Definition unicode_spaces : list Z :=
  [133; 160; 5760; 8192; 8193; 8194; 8195; 8196; 8197; 8198; 8199; 8200; 8201; 8202; 8232;
   8233; 8239; 8287; 12288].

(** The digit zero of every script with decimal digits, above 127 (Unicode
    14.0.0, the table of Python 3.11); the digits one to nine of a script follow
    its zero. *)
Definition unicode_zeros : list Z :=
  [1632; 1776; 1984; 2406; 2534; 2662; 2790; 2918; 3046; 3174; 3302; 3430; 3558; 3664; 3792;
   3872; 4160; 4240; 6112; 6160; 6470; 6608; 6784; 6800; 6992; 7088; 7232; 7248; 42528; 43216;
   43264; 43472; 43504; 43600; 44016; 65296; 66720; 68912; 69734; 69872; 69942; 70096; 70384;
   70736; 70864; 71248; 71360; 71472; 71904; 72016; 72784; 73040; 73120; 92768; 92864; 93008;
   120782; 120792; 120802; 120812; 120822; 123200; 123632; 125264; 130032].

(** The ASCII character that [float] reads in the place of a code point. *)
Definition float_char (cp : Z) : option ascii :=
  if cp <? 128 then Some (ascii_of_N (Z.to_N cp))
  else if existsb (Z.eqb cp) unicode_spaces then Some " "%char
  else
    match find (λ zero, (zero <=? cp) && (cp <=? zero + 9)) unicode_zeros with
    | Some zero => Some (ascii_of_N (Z.to_N (48 + cp - zero)))
    | None => None
    end.

(** What [float] reads in the place of a string, whose text is held in
    UTF-8: [more] bytes of the code point begun with [cp] are still to
    come.  A character that is neither ASCII nor a space nor a decimal digit
    makes the string unreadable. *)
Fixpoint float_text (s : string) (more : nat) (cp : Z) : option string :=
  match s with
  | EmptyString => if more is O then Some EmptyString else None
  | String c s' =>
      let b := Z.of_N (N_of_ascii c) in
      match more with
      | O =>
          if b <? 128 then String c <$> float_text s' 0 0
          else if (192 <=? b) && (b <? 224) then float_text s' 1 (b - 192)
          else if (224 <=? b) && (b <? 240) then float_text s' 2 (b - 224)
          else if (240 <=? b) && (b <? 248) then float_text s' 3 (b - 240)
          else None
      | S more' =>
          if (128 <=? b) && (b <? 192) then
            let cp' := 64 * cp + (b - 128) in
            match more' with
            | O =>
                match float_char cp' with
                | Some a => String a <$> float_text s' 0 0
                | None => None
                end
            | S _ => float_text s' more' cp'
            end
          else None
      end
  end.

(** [float(s)]: [None] is Python's [ValueError]. *)
Definition py_float (s : string) : option float :=
  match float_text s 0 0 with
  | Some text => float_literal text
  | None => None
  end.

(** *** Numbers: [int] and [float] *)

Inductive num : Type :=
| NInt (z : Z)
| NFloat (f : float).

Definition value_of_num (n : num) : value :=
  match n with
  | NInt z => VInt z
  | NFloat f => VFloat f
  end.

(** Python compares an [int] with a [float] by their exact values. *)
Definition compare_Z_float (z : Z) (f : float) : option comparison :=
  match Prim2SF f with
  | S754_nan => None
  | S754_infinity s => Some (if s then Gt else Lt)
  | S754_zero _ => Some (z ?= 0)
  | S754_finite s m e =>
      let v := if s then Z.neg m else Z.pos m in
      Some (z * 2 ^ Z.max (- e) 0 ?= v * 2 ^ Z.max e 0)
  end.

(** [a <= b] *)
Definition num_le (a b : num) : bool :=
  match a, b with
  | NInt x, NInt y => x <=? y
  | NFloat x, NFloat y => (x <=? y)%float
  | NInt x, NFloat y =>
      match compare_Z_float x y with Some Lt | Some Eq => true | _ => false end
  | NFloat x, NInt y =>
      match compare_Z_float y x with Some Gt | Some Eq => true | _ => false end
  end.

(** [a < b] *)
Definition num_lt (a b : num) : bool :=
  match a, b with
  | NInt x, NInt y => x <? y
  | NFloat x, NFloat y => (x <? y)%float
  | NInt x, NFloat y =>
      match compare_Z_float x y with Some Lt => true | _ => false end
  | NFloat x, NInt y =>
      match compare_Z_float y x with Some Gt => true | _ => false end
  end.

(** [a >= b] and [a > b] *)
Definition num_ge (a b : num) : bool := num_le b a.
Definition num_gt (a b : num) : bool := num_lt b a.

(** [a / b] for two [int]s: the float nearest to the quotient, and
    [OverflowError] when the quotient is too large for a float. *)
Definition int_truediv (a b : Z) : res float :=
  let quotient (p : Z) (q : positive) :=
    let f := nearest_float p q in
    if is_infinity f then Raise OverflowError else Ok f in
  match b with
  | 0 => Raise ZeroDivisionError
  | Z.pos q => quotient a q
  | Z.neg q => quotient (- a) q
  end.

(** *** [str] and [repr] *)

Definition quote_char : ascii := ascii_of_nat 34.

Definition hex_digit (n : nat) : ascii :=
  ascii_of_nat (if (n <? 10)%nat then 48 + n else 87 + n).

(** [repr] of a string: single quotes unless the string has a single quote
    and no double quote.  Bytes above 127 are copied. *)
Definition str_repr (s : string) : string :=
  let q : ascii :=
    if contains "'" s && negb (contains (String quote_char "") s)
    then quote_char else "'"%char in
  let esc (c : ascii) : string :=
    let n := nat_of_ascii c in
    if Ascii.eqb c "\" then "\\"
    else if Ascii.eqb c q then String "\" (String c "")
    else if (n =? 9)%nat then "\t"
    else if (n =? 10)%nat then "\n"
    else if (n =? 13)%nat then "\r"
    else if ((n <? 32) || (n =? 127))%nat
         then "\x" +:+ String (hex_digit (n / 16)) (String (hex_digit (n mod 16)) "")
    else String c "" in
  String q "" +:+ String.concat "" (map esc (list_ascii_of_string s)) +:+ String q "".

Fixpoint py_repr (o : value) : string :=
  match o with
  | VNone => "None"
  | VBool b => if b then "True" else "False"
  | VInt z => str_of_Z z
  | VFloat f => float_repr f
  | VStr s => str_repr s
  | VList l => "[" +:+ join ", " (map py_repr l) +:+ "]"
  | VDict d =>
      "{" +:+ join ", " (map (λ kv, str_repr kv.1 +:+ ": " +:+ py_repr kv.2) d) +:+ "}"
  end.

(** [str(o)], which an f-string applies to each interpolated value. *)
Definition py_str (o : value) : string :=
  match o with
  | VStr s => s
  | _ => py_repr o
  end.

(** [len(l)] as a Python [int] *)
Definition len {A : Type} (l : list A) : value := VInt (Z.of_nat (length l)).

(** [k in o] for a string [k] *)
Definition py_in (k : string) (o : value) : res bool :=
  match o with
  | VDict d => Ok (has_key d k)
  | VList l => Ok (existsb (λ x, eq_str x k) l)
  | VStr s => Ok (contains k s)
  | _ => Raise (TypeError "not a container")
  end.

(** [len(o)] *)
Definition py_len (o : value) : res Z :=
  match o with
  | VList l => Ok (Z.of_nat (length l))
  | VDict d => Ok (Z.of_nat (length d))
  | VStr s => Ok (Z.of_nat (String.length s))
  | _ => Raise (TypeError "no len")
  end.

(** [{**o, k: v}] *)
Definition dict_with (o : value) (k : string) (v : value) : res value :=
  match o with
  | VDict d => Ok (VDict (dict_set d k v))
  | _ => Raise (TypeError "not a mapping")
  end.

End Py.
Export Py.

(** ** variant_store.py *)

Module VariantStore.

(** [self._store], a [dict] from ids to variants, which keeps the order
    in which the ids were inserted; the lock makes every method atomic, so
    a method is a function of the store. *)
Record t : Type := { _store : list (string * value) }.

(** [__init__] *)
Definition init : t := {| _store := [] |}.

(** [store(variant_id, variant)]: [self._store[variant_id] = variant] *)
Definition store (self : t) (variant_id : string) (variant : value) : t :=
  {| _store := dict_set (_store self) variant_id variant |}.

(** [get(variant_id)]: [self._store.get(variant_id)] *)
Definition get (self : t) (variant_id : string) : option value :=
  assoc_get (_store self) variant_id.

(** [list_all()]: [list(self._store.keys())] *)
Definition list_all (self : t) : list string := (_store self).*1.

(** [delete(variant_id)] *)
Definition delete (self : t) (variant_id : string) : t * bool :=
  if has_key (_store self) variant_id
  then ({| _store := dict_del (_store self) variant_id |}, true)
  else (self, false).

End VariantStore.

(** ** cultural_data.py *)

Module CulturalDataLoader.

(** One entry of ["cultural_priors"] in the data file.  The file itself is
    not part of the sources: its content is the parameter [t] below.  An
    entry has the keys the loader subscripts ([dimensions], [evidence],
    [notes]) and may have a [country_name]. *)
Record prior : Type := {
  country_name : option string;
  dimensions : gmap string num;
  evidence : value;
  notes : string;
}.

(** One entry of ["dimension_ux_mapping"]["rules"]. *)
Record rule : Type := {
  rule_id : string;
  dimension : string;
  condition : string;
  more : list (string * value);
}.

(** [self._data] *)
Record t : Type := {
  cultural_priors : gmap string prior;
  product_baselines : gmap string value;
  rules : list rule;
}.

(** A Python name for a dimensions dict.  [get_cultural_prior] puts the
    stored dict itself, not a copy, under ["dimensions"]: [Stored c] is the
    dict object held by the loader for the country [c], and whoever writes
    through it writes into the loader. *)
Inductive dims_obj : Type :=
| Stored (country_code : string)
| Owned (d : gmap string num)
| FromGateway (v : value).

(** The dict a name stands for, in a given state of the loader. *)
Definition deref (self : t) (o : dims_obj) : option (gmap string num) :=
  match o with
  | Stored c => dimensions <$> cultural_priors self !! c
  | Owned d => Some d
  | FromGateway _ => None
  end.

(** The dict [get_cultural_prior] returns. *)
Record prior_view : Type := {
  pv_country_code : string;
  pv_country_name : string;
  pv_dimensions : dims_obj;
  pv_evidence : value;
  pv_notes : string;
}.

(** [get_cultural_prior(country_code)].  A stored entry is a dict with keys,
    hence true in [if prior:]. *)
Definition get_cultural_prior (self : t) (country_code : string) : option prior_view :=
  match cultural_priors self !! country_code with
  | Some prior =>
      Some {| pv_country_code := country_code;
              pv_country_name := default country_code (country_name prior);
              pv_dimensions := Stored country_code;
              pv_evidence := evidence prior;
              pv_notes := notes prior |}
  | None => None
  end.

(** The loop
    [for dim_key, dim_value in overrides.items():
       if dim_key in prior["dimensions"]: prior["dimensions"][dim_key] = dim_value]
    on the dict that [prior["dimensions"]] names. *)
Definition apply_overrides (dims overrides : gmap string num) : gmap string num :=
  map_fold (λ dim_key dim_value d,
              if decide (is_Some (d !! dim_key)) then <[dim_key := dim_value]> d else d)
           dims overrides.

(** [prior["dimensions"][...] = ...] through the name [Stored c] *)
Definition write_dims (self : t) (c : string) (f : gmap string num → gmap string num) : t :=
  {| cultural_priors :=
       alter (λ p, {| country_name := country_name p;
                      dimensions := f (dimensions p);
                      evidence := evidence p;
                      notes := notes p |}) c (cultural_priors self);
     product_baselines := product_baselines self;
     rules := rules self |}.

(** [get_cultural_prior_with_overrides(country_code, overrides)]: the loader
    after the call, and the returned dict. *)
Definition get_cultural_prior_with_overrides
    (self : t) (country_code : string) (overrides : gmap string num) : t * option prior_view :=
  match get_cultural_prior self country_code with
  | Some prior =>
      if decide (overrides = ∅) then (self, Some prior)
      else
        (write_dims self country_code (λ d, apply_overrides d overrides),
         Some {| pv_country_code := pv_country_code prior;
                 pv_country_name := pv_country_name prior;
                 pv_dimensions := pv_dimensions prior;
                 pv_evidence := pv_evidence prior;
                 pv_notes := pv_notes prior +:+ " [Manual overrides applied to some dimensions]" |})
  | None => (self, None)
  end.

(** [get_mapping_rules()] *)
Definition get_mapping_rules (self : t) : list rule := rules self.

Definition to_float (s : string) : res float :=
  match py_float s with
  | Some f => Ok f
  | None => Raise (ValueError "could not convert string to float")
  end.

(** One turn of the loop of [get_applicable_rules]. *)
Definition applicable_step (dimensions : gmap string num) (applicable : list rule) (r : rule)
  : res (list rule) :=
  match dimensions !! dimension r with
  | None => Ok applicable
  | Some value =>
      let condition := condition r in
      if String.prefix ">=" condition then
        threshold ← to_float (drop_chars 2 condition);
        Ok (if num_ge value (NFloat threshold) then applicable ++ [r] else applicable)
      else if String.prefix "<=" condition then
        threshold ← to_float (drop_chars 2 condition);
        Ok (if num_le value (NFloat threshold) then applicable ++ [r] else applicable)
      else if String.prefix ">" condition then
        threshold ← to_float (drop_chars 1 condition);
        Ok (if num_gt value (NFloat threshold) then applicable ++ [r] else applicable)
      else if String.prefix "<" condition then
        threshold ← to_float (drop_chars 1 condition);
        Ok (if num_lt value (NFloat threshold) then applicable ++ [r] else applicable)
      else Ok applicable
  end.

(** [get_applicable_rules(dimensions)] *)
Definition get_applicable_rules (self : t) (dimensions : gmap string num) : res (list rule) :=
  for_each (get_mapping_rules self) (applicable_step dimensions) [].

(** [get_product_baseline(product_category)] *)
Definition get_product_baseline (self : t) (product_category : string) : option value :=
  product_baselines self !! product_category.

(** [get_all_country_codes()], as a set *)
Definition get_all_country_codes (self : t) : gset string := dom (cultural_priors self).

(** [_load()]: [self._data] is the content of the data file, or the empty
    tables when there is no file at [data_path].  [file] is the parsed
    content of the file, if it exists. *)
Definition load (file : option t) : t :=
  match file with
  | Some data => data
  | None => {| cultural_priors := ∅; product_baselines := ∅; rules := [] |}
  end.

End CulturalDataLoader.

(** ** agents/llm_client.py *)

Module LLMClient.

(** What one call of [self.client.chat.completions.create] and the
    [json.loads] after it come to. *)
Inductive outcome : Type :=
| EmptyContent
| JsonContent (result : value)
| JsonDecodeError (msg : string)
| CallFailed (msg : string).

(** [self.client] is [None] without credentials; with a client, the
    outcome of the call at hand. *)
Definition t : Type := option outcome.

(** [_fallback_response] *)
Definition fallback_response : value :=
  VDict [("rationale", VStr "Generated using fallback mode (Azure OpenAI not configured). Configure AZURE_OPENAI_ENDPOINT and AZURE_OPENAI_API_KEY for full functionality.");
         ("fallback", VBool true)].

(** [generate_structured] *)
Definition generate_structured (self : t) : value :=
  match self with
  | None => fallback_response
  | Some (JsonContent result) => result
  | Some EmptyContent =>
      VDict [("error", VStr "Empty response from LLM");
             ("rationale", VStr "Fallback due to empty response")]
  | Some (JsonDecodeError msg) =>
      VDict [("error", VStr msg);
             ("rationale", VStr "Failed to parse LLM response as JSON")]
  | Some (CallFailed msg) =>
      VDict [("error", VStr msg);
             ("rationale", VStr ("LLM call failed: " +:+ msg))]
  end.

(** [__init__]: a client is made when the endpoint and the key are both
    set; [reply] is what a call of that client comes to. *)
Definition init (azure_openai_endpoint azure_openai_api_key : string) (reply : outcome) : t :=
  if truthy (VStr azure_openai_endpoint) && truthy (VStr azure_openai_api_key)
  then Some reply else None.

End LLMClient.

(** ** agents/cultural_intelligence.py *)

Module CulturalIntelligenceAgent.
Import CulturalDataLoader.

(** The profile dict that [analyze] returns. *)
Record profile : Type := {
  country_code : string;
  p_dimensions : dims_obj;
  p_evidence : value;
  p_notes : value;
  p_rationale : value;
  p_dimension_rationales : value;
}.

Definition neutral_dimensions : gmap string num :=
  list_to_map [("uncertainty_avoidance", NInt 50); ("collectivism", NInt 50);
               ("authority_distance", NInt 50); ("context_level", NInt 50);
               ("price_sensitivity", NInt 50); ("trust_need", NInt 50);
               ("friction_tolerance", NInt 50)].

(** [_default_profile(country_code)] *)
Definition default_profile (country_code : string) : profile :=
  {| country_code := country_code;
     p_dimensions := Owned neutral_dimensions;
     p_evidence :=
       VList [VDict [("source", VStr "Default baseline");
                     ("description", VStr "No specific cultural data available; using neutral midpoint values.")]];
     p_notes := VStr ("No cultural priors available for " +:+ country_code +:+ ". Using default neutral values.");
     p_rationale := VStr "Default neutral profile applied due to missing cultural data.";
     p_dimension_rationales := VDict [] |}.

(** [analyze(country_code, product_category, override_dimensions)]: the
    loader after the call and the profile.  [llm] is the gateway at the
    moment of the call. *)
Definition analyze (data : t) (llm : LLMClient.t)
    (country_code product_category : string) (override_dimensions : option (gmap string num))
  : t * res profile :=
  let '(data', base_prior) :=
    get_cultural_prior_with_overrides data country_code (default ∅ override_dimensions) in
  match base_prior with
  | None => (data', Ok (default_profile country_code))
  | Some base_prior =>
      let result := LLMClient.generate_structured llm in
      (data',
       has_dimensions ← py_in "dimensions" result;
       enriched ←
         (if has_dimensions : bool
          then fb ← get result "fallback" VNone; Ok (negb (truthy fb))
          else Ok false);
       if enriched : bool then
         dims ← get result "dimensions" VNone;
         ev ← get result "evidence" (pv_evidence base_prior);
         nt ← get result "notes" (VStr (pv_notes base_prior));
         ra ← get result "rationale" (VStr "");
         dr ← get result "dimension_rationales" (VDict []);
         Ok {| country_code := country_code;
               p_dimensions := FromGateway dims;
               p_evidence := ev;
               p_notes := nt;
               p_rationale := ra;
               p_dimension_rationales := dr |}
       else
         Ok {| country_code := country_code;
               p_dimensions := pv_dimensions base_prior;
               p_evidence := pv_evidence base_prior;
               p_notes := VStr (pv_notes base_prior);
               p_rationale :=
                 VStr ("Base cultural priors for " +:+ country_code +:+ " in " +:+ product_category
                       +:+ " context. LLM enrichment not available.");
               p_dimension_rationales := VDict [] |})
  end.

End CulturalIntelligenceAgent.

(** ** agents/ux_adaptation.py *)

Module UXAdaptationAgent.
Import CulturalDataLoader.

(** [_default_base_spec()] *)
Definition default_base_spec : value :=
  VDict [("product_category", VStr "general");
         ("baseline_flow",
          VList [VDict [("step_id", VStr "browse"); ("name", VStr "Browse"); ("description", VStr "Product browsing")];
                 VDict [("step_id", VStr "detail"); ("name", VStr "Product Detail"); ("description", VStr "Product detail page")];
                 VDict [("step_id", VStr "cart"); ("name", VStr "Cart"); ("description", VStr "Shopping cart")];
                 VDict [("step_id", VStr "checkout"); ("name", VStr "Checkout"); ("description", VStr "Checkout process")];
                 VDict [("step_id", VStr "confirm"); ("name", VStr "Confirmation"); ("description", VStr "Order confirmation")]]);
         ("baseline_modules", VDict [])].

(** [dimensions.get(k, 50)] *)
Definition dim (dimensions : gmap string num) (k : string) : num :=
  default (NInt 50) (dimensions !! k).

(** [f"{dimensions.get(k, 50)}"] *)
Definition fmt (n : num) : string := py_str (value_of_num n).

(** The combined step that replaces a ["shipping"] step. *)
Definition express_checkout (dimensions : gmap string num) : value :=
  VDict [("step_id", VStr "express_checkout");
         ("name", VStr "Express Checkout");
         ("description", VStr "Combined shipping and payment in a single streamlined step");
         ("adaptations",
          VList [VDict [("change", VStr "Combined shipping and payment steps");
                        ("dimension_driver", VStr ("friction_tolerance=" +:+ fmt (dim dimensions "friction_tolerance")));
                        ("rationale", VStr "Low friction tolerance requires streamlined flow to prevent cart abandonment")]]);
         ("required_fields", VList [VStr "full_name"; VStr "address"; VStr "payment_method"]);
         ("validations", VList [VStr "address_format"])].

(** One turn of the loop over [base_flow] when friction tolerance is low. *)
Definition streamline_step (dimensions : gmap string num) (flow : list value) (step : value)
  : res (list value) :=
  step_id ← subscript step "step_id";
  if eq_str step_id "shipping" then Ok (flow ++ [express_checkout dimensions])
  else if negb (eq_str step_id "payment") then
    step' ← dict_with step "adaptations" (VList []);
    Ok (flow ++ [step'])
  else Ok flow.

(** One turn of [[{**step, "adaptations": []} for step in base_flow]]. *)
Definition plain_step (flow : list value) (step : value) : res (list value) :=
  step' ← dict_with step "adaptations" (VList []);
  Ok (flow ++ [step']).

Definition strs (l : list string) : value := VList (VStr <$> l).

(** The ["modules"] of the fallback. *)
Definition fallback_modules (dimensions : gmap string num) : value :=
  let d := dim dimensions in
  let collectivism := num_ge (d "collectivism") (NInt 65) in
  let trust := num_ge (d "trust_need") (NInt 75) in
  let ua := num_ge (d "uncertainty_avoidance") (NInt 70) in
  let low_context := num_le (d "context_level") (NInt 35) in
  let price := num_ge (d "price_sensitivity") (NInt 70) in
  VDict [
    ("reviews", VDict [
       ("enabled", VBool true);
       ("placement", VStr (if collectivism then "above_fold" else "below_fold"));
       ("style", VStr (if collectivism then "community" else "stars"));
       ("adaptation_rationale",
        VStr ("Collectivism=" +:+ fmt (d "collectivism") +:+ ": "
              +:+ (if collectivism then "Strong social proof emphasis" else "Standard review display")))]);
    ("guarantees", VDict [
       ("enabled", VBool true);
       ("types", strs (if trust
                       then ["money-back guarantee"; "authenticity guarantee"; "secure payment"; "official warranty"]
                       else ["30-day returns"; "manufacturer warranty"]));
       ("prominence", VStr (if trust then "high" else "medium"));
       ("adaptation_rationale",
        VStr ("Trust need=" +:+ fmt (d "trust_need") +:+ ": "
              +:+ (if trust then "Enhanced guarantee prominence" else "Standard guarantees")))]);
    ("shipping_info", VDict [
       ("enabled", VBool true);
       ("placement", VStr (if ua then "above_fold" else "product_detail"));
       ("detail_level", VStr (if low_context then "detailed" else "standard"));
       ("adaptation_rationale",
        VStr ("UA=" +:+ fmt (d "uncertainty_avoidance") +:+ ", CL=" +:+ fmt (d "context_level") +:+ ": "
              +:+ (if ua then "Detailed upfront shipping info" else "Standard shipping display")))]);
    ("returns", VDict [
       ("enabled", VBool true);
       ("prominence", VStr (if ua then "high" else "medium"));
       ("adaptation_rationale",
        VStr ("UA=" +:+ fmt (d "uncertainty_avoidance") +:+ ": "
              +:+ (if ua then "High prominence returns policy" else "Standard returns")))]);
    ("payment_options", VDict [
       ("enabled", VBool true);
       ("show_installments", VBool price);
       ("show_local_methods", VBool true);
       ("emphasized_methods", strs (if price
                                    then ["installments"; "BNPL"; "mobile_payment"]
                                    else ["credit_card"; "debit_card"]));
       ("adaptation_rationale",
        VStr ("Price sensitivity=" +:+ fmt (d "price_sensitivity") +:+ ": "
              +:+ (if price then "Installment and flexible payment emphasis" else "Standard payment options")))]);
    ("social_proof", VDict [
       ("enabled", VBool collectivism);
       ("type", VStr (if collectivism then "community" else "individual"));
       ("placement", VStr (if collectivism then "above_fold" else "sidebar"));
       ("adaptation_rationale",
        VStr ("Collectivism=" +:+ fmt (d "collectivism") +:+ ": "
              +:+ (if collectivism then "Community-driven social proof" else "Individual testimonials")))])].

(** The list [themes] of the fallback. *)
Definition fallback_themes (dimensions : gmap string num) : list string :=
  let d := dim dimensions in
  (if num_ge (d "trust_need") (NInt 75) then ["trust-first"] else [])
  ++ (if num_le (d "friction_tolerance") (NInt 40) then ["efficiency-driven"] else [])
  ++ (if num_ge (d "collectivism") (NInt 65) then ["community-validated"] else [])
  ++ (if num_le (d "context_level") (NInt 35) then ["information-rich"] else [])
  ++ (if num_ge (d "price_sensitivity") (NInt 70) then ["value-oriented"] else []).

(** [_rule_based_adaptation(dimensions, rules, base_spec, price_band)].
    [base_modules] is read and not used. *)
Definition rule_based_adaptation (dimensions : gmap string num) (rules : list rule)
    (base_spec : value) (price_band : string) : res value :=
  base_flow ← get base_spec "baseline_flow" (VList []);
  let low_friction := num_le (dim dimensions "friction_tolerance") (NInt 40) in
  steps ← iter base_flow;
  flow ← (if low_friction
          then for_each steps (streamline_step dimensions) []
          else for_each steps plain_step []);
  let modules := fallback_modules dimensions in
  let themes := fallback_themes dimensions in
  let theme := match themes with [] => "balanced" | _ => join ", " themes end in
  Ok (VDict [("theme_emphasis", VStr theme);
             ("rationale",
              VStr ("Adaptation driven by " +:+ py_str (len rules) +:+ " applicable mapping rules for "
                    +:+ py_str (len themes)
                    +:+ " identified behavioral patterns. Generated using rule-based fallback."));
             ("flow", VList flow);
             ("modules", modules)]).

(** [adapt(cultural_profile, base_spec, price_band, audience)], where
    [dimensions] is [cultural_profile.get("dimensions", {})].  The prompt
    reads [base_spec] with [.get]; the log line takes the length of the
    result's flow. *)
Definition adapt (data : t) (llm : LLMClient.t) (dimensions : gmap string num)
    (base_spec : option value) (price_band audience : string) : res value :=
  applicable_rules ← get_applicable_rules data dimensions;
  let base_spec :=
    match base_spec with
    | Some b => if truthy b then b else default_base_spec
    | None => default_base_spec
    end in
  _ ← get base_spec "product_category" (VStr "general");
  let result := LLMClient.generate_structured llm in
  fb ← get result "fallback" VNone;
  result ← (if truthy fb
            then rule_based_adaptation dimensions applicable_rules base_spec price_band
            else Ok result);
  flow ← get result "flow" (VList []);
  _ ← py_len flow;
  Ok result.

End UXAdaptationAgent.

(** ** agents/copy_framing.py *)

Module CopyFramingAgent.

(** [f"{dimensions.get(k)}"]: an absent key prints as [None]. *)
Definition fmt_opt (dimensions : gmap string num) (k : string) : string :=
  py_str (default VNone (value_of_num <$> dimensions !! k)).

Definition field (text : value) (rationale : string) : value :=
  VDict [("text", text); ("rationale", VStr rationale)].

Definition micro (location text rationale : string) : value :=
  VDict [("location", VStr location); ("text", VStr text); ("rationale", VStr rationale)].

(** [_rule_based_copy(dimensions, base_copy)] *)
Definition rule_based_copy (dimensions : gmap string num) (base_copy : value) : res value :=
  let d k := default (NInt 50) (dimensions !! k) in
  let f := fmt_opt dimensions in
  let high_collectivism := num_ge (d "collectivism") (NInt 65) in
  let high_ua := num_ge (d "uncertainty_avoidance") (NInt 70) in
  let high_price_sens := num_ge (d "price_sensitivity") (NInt 70) in
  let low_context := num_le (d "context_level") (NInt 35) in
  let high_trust := num_ge (d "trust_need") (NInt 75) in
  cta_primary ←
    (if high_collectivism then
       Ok (field (VStr "Join thousands who chose this â€” Add to Cart")
                 ("Collectivism=" +:+ f "collectivism" +:+ ": Group validation framing emphasizes community consensus."))
     else if low_context then
       Ok (field (VStr "Add to Cart â€” Free shipping, 30-day returns")
                 ("Context level=" +:+ f "context_level" +:+ ": Low-context preference requires explicit benefit information in CTA."))
     else
       t ← get base_copy "cta_primary" (VStr "Add to Cart");
       Ok (field t "Baseline CTA maintained â€” no strong dimension-driven change indicated."));
  let cta_secondary :=
    if high_collectivism then
      field (VStr "Share with friends") ("Collectivism=" +:+ f "collectivism" +:+ ": Social sharing supports group-oriented decision making.")
    else
      field (VStr "Save to your wishlist") ("Collectivism=" +:+ f "collectivism" +:+ ": Individual-oriented save action.") in
  value_prop ←
    (if high_trust && high_ua then
       Ok (field (VStr "Trusted by experts. Backed by our guarantee. Quality you can count on.")
                 ("Trust need=" +:+ f "trust_need" +:+ ", UA=" +:+ f "uncertainty_avoidance" +:+ ": Trust and reliability framing for risk-averse audience."))
     else if high_price_sens then
       Ok (field (VStr "Exceptional value â€” premium quality at the best price. Compare and save.")
                 ("Price sensitivity=" +:+ f "price_sensitivity" +:+ ": Value-first framing with comparison invitation."))
     else
       t ← get base_copy "value_proposition" (VStr "Quality products for you");
       Ok (field t "Baseline value proposition â€” balanced approach."));
  urgency ←
    (if high_collectivism then
       Ok (field (VStr "Popular choice â€” 500+ customers bought this today")
                 ("Collectivism=" +:+ f "collectivism" +:+ ": Social proof urgency leverages group behavior."))
     else if high_ua then
       Ok (field (VStr "Secure your order now â€” our guarantee covers every purchase")
                 ("UA=" +:+ f "uncertainty_avoidance" +:+ ": Reassurance-based urgency reduces perceived risk."))
     else
       t ← get base_copy "urgency_text" (VStr "Limited availability");
       Ok (field t "Standard scarcity-based urgency."));
  let social :=
    if high_collectivism then
      field (VStr "Rated 4.8/5 by our community of 25,000+ verified buyers") ("Collectivism=" +:+ f "collectivism" +:+ ": Community-scale social proof with verification emphasis.")
    else
      field (VStr "Independently reviewed and rated 4.8/5 stars") ("Collectivism=" +:+ f "collectivism" +:+ ": Individual-oriented review framing with independence emphasis.") in
  let microcopy :=
    (if high_trust then
       [micro "checkout_button" "ðŸ”’ Secure checkout â€” your information is protected"
              ("Trust need=" +:+ f "trust_need" +:+ ": Security reassurance at point of commitment.")]
     else [])
    ++ (if high_ua then
          [micro "trust_badge" "âœ“ 100% money-back guarantee â€¢ âœ“ Verified seller â€¢ âœ“ Secure payment"
                 ("UA=" +:+ f "uncertainty_avoidance" +:+ ": Multiple trust signals reduce uncertainty at decision point.")]
        else [])
    ++ (if high_price_sens then
          [micro "price_area" "ðŸ’° Best price guarantee â€” we'll match any lower price"
                 ("Price sensitivity=" +:+ f "price_sensitivity" +:+ ": Price-match messaging reduces price anxiety.")]
        else [])
    ++ [micro "shipping_note"
              (if negb low_context then "Free standard shipping â€¢ Easy returns" else "Free shipping (3-5 business days) â€¢ 30-day free returns â€¢ Full refund policy")
              ("Context level=" +:+ f "context_level" +:+ ": "
               +:+ (if low_context then "Detailed shipping terms for low-context preference" else "Concise shipping summary") +:+ ".")] in
  Ok (VDict [("cta_primary", cta_primary);
             ("cta_secondary", cta_secondary);
             ("value_proposition", value_prop);
             ("urgency_text", urgency);
             ("social_proof_text", social);
             ("microcopy", VList microcopy)]).

(** [generate(cultural_profile, ux_adaptations, base_spec)], where
    [dimensions] is [cultural_profile.get("dimensions", {})].  The prompt
    reads [base_copy] and [ux_adaptations] with [.get]. *)
Definition generate (llm : LLMClient.t) (dimensions : gmap string num)
    (ux_adaptations : value) (base_spec : option value) : res value :=
  let base_spec :=
    match base_spec with
    | Some b => if truthy b then b else VDict []
    | None => VDict []
    end in
  base_copy ← get base_spec "baseline_copy" (VDict []);
  _ ← get ux_adaptations "theme_emphasis" (VStr "balanced");
  _ ← get base_copy "cta_primary" (VStr "Add to Cart");
  let result := LLMClient.generate_structured llm in
  fb ← get result "fallback" VNone;
  if truthy fb then rule_based_copy dimensions base_copy else Ok result.

End CopyFramingAgent.

(** ** agents/compliance_auditor.py *)

Module ComplianceAuditorAgent.

Definition essentializing_patterns : list string :=
  ["always"; "never"; "all people in"; "everyone in";
   "they always"; "they never"; "people in"; "typical of"].

Definition dimension_tokens : list string :=
  ["uncertainty"; "collectivism"; "authority"; "context";
   "price"; "trust"; "friction"; "ua="; "cl="].

(** The locals [risk_flags], [score] and [flag_counter]. *)
Record audit_state : Type := {
  risk_flags : list value;
  score : Z;
  flag_counter : nat;
}.

(** What one check reports: the fields of a flag and the points it costs. *)
Record finding : Type := {
  severity : string;
  description : string;
  recommendation : string;
  affected_element : string;
  penalty : Z;
}.

(** [flag_counter += 1; risk_flags.append({...}); score -= penalty] *)
Definition add_flag (st : audit_state) (f : finding) : audit_state :=
  let n := S (flag_counter st) in
  {| risk_flags :=
       risk_flags st ++
       [VDict [("flag_id", VStr ("FLAG_" +:+ pad3 n));
               ("severity", VStr (severity f));
               ("description", VStr (description f));
               ("recommendation", VStr (recommendation f));
               ("affected_element", VStr (affected_element f))]];
     score := score st - penalty f;
     flag_counter := n |}.

Definition copy_finding (strict_mode : bool) (key pattern : string) : finding :=
  {| severity := if negb strict_mode then "medium" else "high";
     description := "Potentially essentializing language detected in " +:+ key
                    +:+ ": contains '" +:+ pattern +:+ "'";
     recommendation := "Rephrase to avoid generalizing statements. Use dimension-specific language instead.";
     affected_element := "copy." +:+ key;
     penalty := 10 |}.

Definition module_finding (mod_name : string) : finding :=
  {| severity := "low";
     description := "Module '" +:+ mod_name +:+ "' rationale may not reference specific behavioral dimensions";
     recommendation := "Ensure rationale explicitly references dimension scores and mapping rules.";
     affected_element := "modules." +:+ mod_name;
     penalty := 5 |}.

Definition flow_finding (name step_id : value) : finding :=
  {| severity := "medium";
     description := "Flow step '" +:+ py_str name +:+ "' adaptation lacks dimension driver";
     recommendation := "Add specific dimension and score that drives this adaptation.";
     affected_element := "flow." +:+ py_str step_id;
     penalty := 8 |}.

(** [pattern.lower() in text.lower() or pattern.lower() in rationale.lower()] *)
Definition pattern_found (pattern : string) (text rationale : value) : res bool :=
  t ← str_lower text;
  if contains (lower pattern) t then Ok true
  else r ← str_lower rationale; Ok (contains (lower pattern) r).

(** The body of [for key, value in copy_data.items()] *)
Definition audit_copy_item (strict_mode : bool) (st : audit_state) (item : string * value)
  : res audit_state :=
  let '(key, value) := item in
  if isinstance_dict value then
    text ← get value "text" (VStr "");
    rationale ← get value "rationale" (VStr "");
    for_each essentializing_patterns
      (λ st pattern,
         found ← pattern_found pattern text rationale;
         Ok (if found : bool then add_flag st (copy_finding strict_mode key pattern) else st))
      st
  else Ok st.

(** The body of [for mod_name, mod_data in modules.items()] *)
Definition audit_module_item (st : audit_state) (item : string * value) : res audit_state :=
  let '(mod_name, mod_data) := item in
  if isinstance_dict mod_data then
    rationale ← get mod_data "adaptation_rationale" (VStr "");
    if truthy rationale then
      low ← str_lower rationale;
      Ok (if negb (existsb (λ dim, contains dim low) dimension_tokens)
          then add_flag st (module_finding mod_name) else st)
    else Ok st
  else Ok st.

(** The body of [for adaptation in adaptations] *)
Definition audit_adaptation (step : value) (st : audit_state) (adaptation : value)
  : res audit_state :=
  driver ← get adaptation "dimension_driver" VNone;
  if negb (truthy driver) then
    name ← get step "name" (VStr "unknown");
    step_id ← get step "step_id" (VStr "unknown");
    Ok (add_flag st (flow_finding name step_id))
  else Ok st.

(** The body of [for step in flow] *)
Definition audit_flow_step (st : audit_state) (step : value) : res audit_state :=
  adaptations ← get step "adaptations" (VList []);
  adaptations ← iter adaptations;
  for_each adaptations (audit_adaptation step) st.

Definition audit_rationale : string :=
  "Audit performed using rule-based checks (LLM not available). Checks include: essentializing language detection, dimension justification verification, and flow adaptation coverage.".

(** [_rule_based_audit(variant, strict_mode)] *)
Definition rule_based_audit (variant : value) (strict_mode : bool) : res value :=
  let st := {| risk_flags := []; score := 100; flag_counter := 0 |} in
  copy_data ← get variant "copy" (VDict []);
  copy_items ← items copy_data;
  st ← for_each copy_items (audit_copy_item strict_mode) st;
  modules ← get variant "modules" (VDict []);
  module_items ← items modules;
  st ← for_each module_items audit_module_item st;
  flow ← get variant "flow" (VList []);
  steps ← iter flow;
  st ← for_each steps audit_flow_step st;
  let notes0 :=
    match risk_flags st with
    | [] => ["All adaptations include dimension-based justification"]
    | _ => []
    end in
  profile ← get variant "cultural_profile" (VDict []);
  ev ← get profile "evidence" VNone;
  let notes1 := if truthy ev then ["Cultural profile includes evidence sources"] else [] in
  profile ← get variant "cultural_profile" (VDict []);
  nt ← get profile "notes" VNone;
  let notes2 := if truthy nt then ["Cultural profile acknowledges limitations in notes"] else [] in
  let score := if strict_mode then Z.max 0 (score st - 10) else score st in
  let score := Z.max 0 (Z.min 100 score) in
  Ok (VDict [("audit_score", VInt score);
             ("summary",
              VStr ("Rule-based audit complete. Score: " +:+ py_str (VInt score) +:+ "/100 with "
                    +:+ py_str (len (risk_flags st)) +:+ " flags identified."));
             ("risk_flags", VList (risk_flags st));
             ("recommended_changes", VList []);
             ("positive_notes", VList (VStr <$> (notes0 ++ notes1 ++ notes2)));
             ("rationale", VStr audit_rationale)]).

(** [audit(variant, strict_mode)].  The prompt reads [variant] with [.get];
    the log line takes the length of the result's flags. *)
Definition audit (llm : LLMClient.t) (variant : value) (strict_mode : bool) : res value :=
  _ ← get variant "region" (VStr "unknown");
  let result := LLMClient.generate_structured llm in
  fb ← get result "fallback" VNone;
  result ← (if truthy fb then rule_based_audit variant strict_mode else Ok result);
  flags ← get result "risk_flags" (VList []);
  _ ← py_len flags;
  Ok result.

End ComplianceAuditorAgent.

(** ** agents/experimentation.py *)

Module ExperimentationAgent.

Definition RULE_LIFT_FACTORS : list (string * float) :=
  [("increase_trust_modules", 0.05%float);
   ("increase_process_clarity", 0.03%float);
   ("increase_explicit_info", 0.04%float);
   ("increase_social_proof", 0.06%float);
   ("reduce_checkout_steps", 0.08%float);
   ("enhance_guarantees", 0.04%float);
   ("value_framing", 0.05%float);
   ("add_authority_signals", 0.03%float);
   ("ambient_information", 0.02%float);
   ("individual_framing", 0.03%float)].

Definition BASELINE_RATES : list (string * float) :=
  [("electronics", 2.1%float);
   ("fashion", 2.8%float);
   ("food_beverage", 3.5%float);
   ("home_garden", 1.8%float);
   ("health_beauty", 3.0%float)].

(** [RULE_LIFT_FACTORS.get(k, dflt)] *)
Definition lift_factor (k : string) (dflt : float) : float :=
  default dflt (snd <$> find (λ kv, String.eqb kv.1 k) RULE_LIFT_FACTORS).

(** The locals [compound_factor] and [applied_factors]; an applied factor is
    the pair of its ["rule"] and ["lift"] strings. *)
Record lift_state : Type := {
  compound_factor : float;
  applied_factors : list (string * string);
}.

(** [compound_factor *= (1 + factor); applied_factors.append(...)] *)
Definition apply_factor (st : lift_state) (rule : string) (factor : float) : lift_state :=
  {| compound_factor := (compound_factor st * (1 + factor))%float;
     applied_factors :=
       applied_factors st ++ [(rule, "+" +:+ format_1f (factor * 100)%float +:+ "%")] |}.

(** [for step in flow: if step.get("step_id") == "express_checkout": ...; break] *)
Fixpoint has_express_checkout (steps : list value) : res bool :=
  match steps with
  | [] => Ok false
  | step :: steps' =>
      step_id ← get step "step_id" VNone;
      if eq_str step_id "express_checkout" then Ok true else has_express_checkout steps'
  end.

(** [audit_score] as a number; only numbers can be divided by 100. *)
Definition as_num (o : value) : res num :=
  match o with
  | VInt z => Ok (NInt z)
  | VBool b => Ok (NInt (if b then 1 else 0))
  | VFloat f => Ok (NFloat f)
  | _ => Raise (TypeError "unsupported operand")
  end.

(** [n / 100] *)
Definition div100 (n : num) : res float :=
  match n with
  | NInt z => int_truediv z 100
  | NFloat f => Ok (f / 100)%float
  end.

Definition ab_test_plan : value :=
  VDict [("recommended_sample_size", VInt 5000);
         ("recommended_duration_days", VInt 14);
         ("success_metric", VStr "conversion_rate");
         ("segments", VList [VStr "new_visitors"; VStr "returning_visitors"]);
         ("statistical_significance_target", VFloat 0.95%float)].

Definition method_text : string :=
  "Transparent heuristic model: each applicable cultural adaptation rule contributes an estimated lift factor (2-8% relative improvement). Factors compound multiplicatively and are discounted by audit compliance score. Baseline uses industry-average conversion rates.".

(** The end of [_calculate_heuristic_lift]: the audit discount, the two
    roundings, the confidence level and the returned dict. *)
Definition heuristic_report (baseline : float) (st : lift_state)
    (audit_score : value) (score : num) (audit_multiplier : float) : value :=
  let compound_factor := (1 + (compound_factor st - 1) * audit_multiplier)%float in
  let predicted := py_round (baseline * compound_factor) 2 in
  let lift_pct := py_round ((predicted - baseline) / baseline * 100) 1 in
  let num_factors := Z.of_nat (length (applied_factors st)) in
  let confidence :=
    if (4 <=? num_factors) && num_ge score (NInt 80) then "high"
    else if (2 <=? num_factors) && num_ge score (NInt 60) then "medium"
    else "low" in
  VDict [
    ("metric", VStr "conversion_rate");
    ("baseline", VFloat baseline);
    ("predicted", VFloat predicted);
    ("lift_percentage", VFloat lift_pct);
    ("confidence_level", VStr confidence);
    ("method", VStr method_text);
    ("assumptions", VList [
       VStr ("Baseline conversion rate assumed at " +:+ py_str (VFloat baseline)
             +:+ "% (industry average for e-commerce)");
       VStr (py_str (VInt num_factors) +:+ " cultural adaptation factors applied with estimated impact ranges");
       VStr "Lift factors are based on published e-commerce conversion optimization research patterns";
       VStr "Factors assume proper implementation of all adaptations";
       VStr ("Audit score (" +:+ py_str audit_score +:+ "/100) applied as confidence multiplier");
       VStr "No actual A/B test data validates these predictions — they are simulated estimates";
       VStr "Real lift depends on product, market entry strategy, competition, and execution quality"]);
    ("applied_factors",
     VList (map (λ f, VDict [("rule", VStr f.1); ("lift", VStr f.2)]) (applied_factors st)));
    ("ab_test_plan", ab_test_plan);
    ("rationale",
     VStr ("Predicted " +:+ py_str (VFloat lift_pct) +:+ "% conversion lift based on "
           +:+ py_str (VInt num_factors) +:+ " applicable cultural adaptation factors. "
           +:+ "Audit compliance score of " +:+ py_str audit_score
           +:+ "/100 applied as confidence multiplier. "
           +:+ "Confidence level: " +:+ confidence +:+ ". "
           +:+ "This is a simulated prediction for demonstration purposes — "
           +:+ "real impact should be validated through controlled A/B testing."))].

(** The checks of the modules, in the order of the code: each one that
    holds applies its factor.  (In the source each check follows the read
    of its module; the reads, which can raise, keep their order in
    [calculate_heuristic_lift] below, and the checks cannot raise.) *)
Definition module_signals (placement prominence shipping_placement
                           show_installments enabled : value) : lift_state :=
  let st := {| compound_factor := 1.0%float; applied_factors := [] |} in
  let st :=
    if eq_str placement "above_fold"
    then apply_factor st "Social proof emphasis" (lift_factor "increase_social_proof" 0.04)
    else st in
  let st :=
    if eq_str prominence "high"
    then apply_factor st "Enhanced guarantees" (lift_factor "enhance_guarantees" 0.04)
    else st in
  let st :=
    if eq_str shipping_placement "above_fold"
    then apply_factor st "Trust modules above fold" (lift_factor "increase_trust_modules" 0.03)
    else st in
  let st :=
    if truthy show_installments
    then apply_factor st "Value/installment framing" (lift_factor "value_framing" 0.05)
    else st in
  if truthy enabled then
    let factor := lift_factor "increase_social_proof" 0.04 in
    if negb (existsb (λ f, contains "Social proof" f.1) (applied_factors st))
    then apply_factor st "Social proof module" factor
    else st
  else st.

(** [_calculate_heuristic_lift(variant, audit_result)].  The baseline is the
    constant 2.3; [BASELINE_RATES] is not read. *)
Definition calculate_heuristic_lift (variant audit_result : value) : res value :=
  profile ← get variant "cultural_profile" (VDict []);
  let baseline := 2.3%float in
  modules ← get variant "modules" (VDict []);
  reviews ← get modules "reviews" (VDict []);
  placement ← get reviews "placement" VNone;
  guarantees ← get modules "guarantees" (VDict []);
  prominence ← get guarantees "prominence" VNone;
  shipping_info ← get modules "shipping_info" (VDict []);
  shipping_placement ← get shipping_info "placement" VNone;
  payment_options ← get modules "payment_options" (VDict []);
  show_installments ← get payment_options "show_installments" VNone;
  social_proof ← get modules "social_proof" (VDict []);
  enabled ← get social_proof "enabled" VNone;
  let st := module_signals placement prominence shipping_placement show_installments enabled in
  flow ← get variant "flow" (VList []);
  steps ← iter flow;
  express ← has_express_checkout steps;
  let st :=
    if express : bool
    then apply_factor st "Checkout step reduction" (lift_factor "reduce_checkout_steps" 0.08)
    else st in
  audit_score ← get audit_result "audit_score" (VInt 80);
  score ← as_num audit_score;
  audit_multiplier ← div100 score;
  Ok (heuristic_report baseline st audit_score score audit_multiplier).

(** [predict(variant, audit_result)].  The prompt reads both arguments and
    takes the length of the audit's flags. *)
Definition predict (llm : LLMClient.t) (variant audit_result : value) : res value :=
  heuristic ← calculate_heuristic_lift variant audit_result;
  _ ← get audit_result "audit_score" (VInt 0);
  flags ← get audit_result "risk_flags" (VList []);
  _ ← py_len flags;
  profile ← get variant "cultural_profile" (VDict []);
  _ ← get profile "dimensions" (VDict []);
  let llm_result := LLMClient.generate_structured llm in
  fb ← get llm_result "fallback" VNone;
  has_confidence ← (if negb (truthy fb) then py_in "confidence_level" llm_result else Ok false);
  if has_confidence : bool then
    baseline ← subscript heuristic "baseline";
    predicted ← subscript heuristic "predicted";
    lift_percentage ← subscript heuristic "lift_percentage";
    h_confidence ← subscript heuristic "confidence_level";
    confidence_level ← get llm_result "confidence_level" h_confidence;
    h_method ← subscript heuristic "method";
    method ← get llm_result "method" h_method;
    h_assumptions ← subscript heuristic "assumptions";
    assumptions ← get llm_result "assumptions" h_assumptions;
    h_plan ← subscript heuristic "ab_test_plan";
    plan ← get llm_result "ab_test_plan" h_plan;
    h_rationale ← subscript heuristic "rationale";
    rationale ← get llm_result "rationale" h_rationale;
    Ok (VDict [("metric", VStr "conversion_rate");
               ("baseline", baseline);
               ("predicted", predicted);
               ("lift_percentage", lift_percentage);
               ("confidence_level", confidence_level);
               ("method", method);
               ("assumptions", assumptions);
               ("ab_test_plan", plan);
               ("rationale", rationale)])
  else Ok heuristic.

End ExperimentationAgent.

(** ** models.py *)

Module Models.

(** [OverrideDimensions]: seven optional floats. *)
Record OverrideDimensions : Type := {
  uncertainty_avoidance : option float;
  collectivism : option float;
  authority_distance : option float;
  context_level : option float;
  price_sensitivity : option float;
  trust_need : option float;
  friction_tolerance : option float;
}.

(** [model_dump()]: the fields in the order of their declaration. *)
Definition model_dump (self : OverrideDimensions) : list (string * option float) :=
  [("uncertainty_avoidance", uncertainty_avoidance self);
   ("collectivism", collectivism self);
   ("authority_distance", authority_distance self);
   ("context_level", context_level self);
   ("price_sensitivity", price_sensitivity self);
   ("trust_need", trust_need self);
   ("friction_tolerance", friction_tolerance self)].

(** [Field(None, ge=0, le=100)] *)
Definition field_valid (v : option float) : bool :=
  match v with
  | None => true
  | Some f => num_ge (NFloat f) (NInt 0) && num_le (NFloat f) (NInt 100)
  end.

(** An [OverrideDimensions] that passes validation. *)
Definition valid (self : OverrideDimensions) : bool :=
  forallb (λ kv, field_valid kv.2) (model_dump self).

(** [[a-zA-Z0-9]] *)
Definition is_alnum (c : ascii) : bool :=
  let n := nat_of_ascii c in
  ((48 <=? n) && (n <=? 57) || (65 <=? n) && (n <=? 90) || (97 <=? n) && (n <=? 122))%nat.

(** [AuditRequest.variant_id]: [pattern="^var_[a-zA-Z0-9]{8,}$"], matched
    against the whole string. *)
Definition variant_id_valid (variant_id : string) : bool :=
  String.prefix "var_" variant_id
  && (8 <=? String.length (drop_chars 4 variant_id))%nat
  && forallb is_alnum (list_ascii_of_string (drop_chars 4 variant_id)).

End Models.

(** ** orchestrator.py *)

Module AgentOrchestrator.

(** [f"var_{uuid.uuid4().hex[:12]}"], where [hex] is [uuid.uuid4().hex] *)
Definition variant_id (hex : string) : string := "var_" +:+ take_chars 12 hex.

(** [{k: v for k, v in override_dimensions.model_dump().items() if v is not None}],
    and [{}] without an override object.  (A model instance is true in
    [if override_dimensions:].) *)
Definition overrides_of (override_dimensions : option Models.OverrideDimensions)
  : gmap string num :=
  match override_dimensions with
  | Some od =>
      list_to_map (omap (λ kv, match kv.2 with
                               | Some v => Some (kv.1, NFloat v)
                               | None => None
                               end) (Models.model_dump od))
  | None => ∅
  end.

(** The dict [partial_variant] that [run_adaptation_pipeline] assembles from
    the outputs of the first three stages and hands to the audit and to the
    prediction. *)
Definition partial_variant (variant_id country_code : string)
    (ux_adaptations copy_variants cultural_profile : value) : res value :=
  theme_emphasis ← get ux_adaptations "theme_emphasis" (VStr "balanced");
  flow ← get ux_adaptations "flow" (VList []);
  modules ← get ux_adaptations "modules" (VDict []);
  Ok (VDict [("variant_id", VStr variant_id);
             ("region", VStr country_code);
             ("theme_emphasis", theme_emphasis);
             ("flow", flow);
             ("modules", modules);
             ("copy", copy_variants);
             ("cultural_profile", cultural_profile)]).

(** The dict [variant_spec] that [run_adaptation_pipeline] returns, from
    the outputs of the five stages; [created_at] is the time stamp. *)
Definition variant_spec (variant_id country_code : string)
    (ux_adaptations copy_variants audit_result lift_prediction cultural_profile : value)
    (created_at : string) : res value :=
  theme_emphasis ← get ux_adaptations "theme_emphasis" (VStr "balanced");
  flow ← get ux_adaptations "flow" (VList []);
  modules ← get ux_adaptations "modules" (VDict []);
  risk_flags ← get audit_result "risk_flags" (VList []);
  audit_score ← get audit_result "audit_score" (VInt 0);
  rationale ← get ux_adaptations "rationale" (VStr "");
  Ok (VDict [("variant_id", VStr variant_id);
             ("region", VStr country_code);
             ("theme_emphasis", theme_emphasis);
             ("flow", flow);
             ("modules", modules);
             ("copy", copy_variants);
             ("risk_flags", risk_flags);
             ("audit_score", audit_score);
             ("predicted_lift", lift_prediction);
             ("rationale", rationale);
             ("cultural_profile", cultural_profile);
             ("created_at", VStr created_at)]).

End AgentOrchestrator.

(** * The specification's words

    Definitions written after the specification, against which the
    embedded code is compared, and the concrete inputs of the examples. *)

(** ** The variant store *)

(** A run of [store] calls, oldest first. *)
Definition store_all (self : VariantStore.t) (calls : list (string * value)) : VariantStore.t :=
  fold_left (λ s c, VariantStore.store s c.1 c.2) calls self.

(** The value of the most recent call for [variant_id] in a run of [store]
    calls given oldest first, if there is one. *)
Definition last_stored (calls : list (string * value)) (variant_id : string) : option value :=
  snd <$> find (λ c, String.eqb c.1 variant_id) (rev calls).

(** The ids of a run of [store] calls in the order in which each was first
    stored, each once. *)
Definition first_stored (calls : list (string * value)) : list string :=
  fold_left (λ ids c, if bool_decide (c.1 ∈ ids) then ids else ids ++ [c.1]) calls [].

(** ** The matcher *)

(** The four comparators of a rule. *)
Inductive comparator : Type := GE | LE | GT | LT.

(** The comparator a condition starts with and the text of its threshold.
    [">="] and ["<="] are recognised before [">"] and ["<"]. *)
Definition parse_condition (condition : string) : option (comparator * string) :=
  if String.prefix ">=" condition then Some (GE, drop_chars 2 condition)
  else if String.prefix "<=" condition then Some (LE, drop_chars 2 condition)
  else if String.prefix ">" condition then Some (GT, drop_chars 1 condition)
  else if String.prefix "<" condition then Some (LT, drop_chars 1 condition)
  else None.

(** [value <comparator> threshold] by numeric comparison *)
Definition holds (c : comparator) (value : num) (threshold : float) : bool :=
  match c with
  | GE => num_ge value (NFloat threshold)
  | LE => num_le value (NFloat threshold)
  | GT => num_gt value (NFloat threshold)
  | LT => num_lt value (NFloat threshold)
  end.

(** A rule is applicable to a profile when the profile has the rule's
    dimension and the comparator/threshold test holds for its value. *)
Definition rule_applies (dimensions : gmap string num) (r : CulturalDataLoader.rule) : bool :=
  match dimensions !! CulturalDataLoader.dimension r,
        parse_condition (CulturalDataLoader.condition r) with
  | Some value, Some (c, text) =>
      match py_float text with
      | Some threshold => holds c value threshold
      | None => false
      end
  | _, _ => false
  end.

(** The threshold of a rule whose dimension the profile has can be read as
    a number: [float] does not raise on it. *)
Definition threshold_readable (dimensions : gmap string num) (r : CulturalDataLoader.rule) : bool :=
  match dimensions !! CulturalDataLoader.dimension r,
        parse_condition (CulturalDataLoader.condition r) with
  | Some _, Some (_, text) => if py_float text is Some _ then true else false
  | _, _ => true
  end.

Definition sample_rules : list CulturalDataLoader.rule :=
  [ {| CulturalDataLoader.rule_id := "UA_HIGH_TRUST";
       CulturalDataLoader.dimension := "uncertainty_avoidance";
       CulturalDataLoader.condition := ">=70";
       CulturalDataLoader.more := [("effect", VStr "increase_trust_modules")] |};
    {| CulturalDataLoader.rule_id := "COL_HIGH_SOCIAL";
       CulturalDataLoader.dimension := "collectivism";
       CulturalDataLoader.condition := ">=65";
       CulturalDataLoader.more := [("effect", VStr "increase_social_proof")] |};
    {| CulturalDataLoader.rule_id := "COL_LOW_INDIVIDUAL";
       CulturalDataLoader.dimension := "collectivism";
       CulturalDataLoader.condition := "<=35";
       CulturalDataLoader.more := [("effect", VStr "individual_framing")] |};
    {| CulturalDataLoader.rule_id := "FRIC_LOW_STREAMLINE";
       CulturalDataLoader.dimension := "friction_tolerance";
       CulturalDataLoader.condition := "<=40";
       CulturalDataLoader.more := [("effect", VStr "reduce_checkout_steps")] |};
    {| CulturalDataLoader.rule_id := "LOYALTY_ANY";
       CulturalDataLoader.dimension := "brand_loyalty";
       CulturalDataLoader.condition := ">= high";
       CulturalDataLoader.more := [] |} ].

(** ** The resolver *)

(** The seven dimensions. *)
Definition dimension_names : gset string :=
  list_to_set ["uncertainty_avoidance"; "collectivism"; "authority_distance";
               "context_level"; "price_sensitivity"; "trust_need"; "friction_tolerance"].

(** A score lies in [0,100]. *)
Definition in_range (n : num) : bool := num_le (NInt 0) n && num_le n (NInt 100).

(** A dimensions dict has exactly the seven dimensions, each in [0,100]. *)
Definition well_formed_dimensions (d : gmap string num) : bool :=
  bool_decide (dom d = dimension_names) && forallb (λ kv, in_range kv.2) (map_to_list d).

(** The data model's invariant on the stored priors. *)
Definition well_formed_priors (data : CulturalDataLoader.t) : bool :=
  forallb (λ cp, well_formed_dimensions (CulturalDataLoader.dimensions cp.2))
          (map_to_list (CulturalDataLoader.cultural_priors data)).

(** The entry point's contract on overrides: each value in [0,100]. *)
Definition overrides_in_range (overrides : option (gmap string num)) : bool :=
  forallb (λ kv, in_range kv.2) (map_to_list (default ∅ overrides)).

(** The gateway gives no parsed reply: it is not configured, or its reply is
    empty or not JSON, or the call failed. *)
Definition gateway_unavailable (llm : LLMClient.t) : bool :=
  match llm with
  | Some (LLMClient.JsonContent _) => false
  | _ => true
  end.

(** The dimensions of the profile [analyze] returns, read through the
    profile after the call. *)
Definition resolved_dimensions (data : CulturalDataLoader.t) (llm : LLMClient.t)
    (country_code product_category : string) (overrides : option (gmap string num))
  : option (gmap string num) :=
  let '(data', r) :=
    CulturalIntelligenceAgent.analyze data llm country_code product_category overrides in
  match r with
  | Ok p => CulturalDataLoader.deref data' (CulturalIntelligenceAgent.p_dimensions p)
  | Raise _ => None
  end.

(** A loader with the dimension values that [tests/test_core.py] uses for
    JP, GT and DE; evidence and notes are samples. *)
Definition sample_prior (name : string) (ua col ad ctx price trust fric : Z) : CulturalDataLoader.prior :=
  {| CulturalDataLoader.country_name := Some name;
     CulturalDataLoader.dimensions :=
       list_to_map [("uncertainty_avoidance", NInt ua); ("collectivism", NInt col);
                    ("authority_distance", NInt ad); ("context_level", NInt ctx);
                    ("price_sensitivity", NInt price); ("trust_need", NInt trust);
                    ("friction_tolerance", NInt fric)];
     CulturalDataLoader.evidence :=
       VList [VDict [("source", VStr "Sample survey"); ("description", VStr "Sample evidence entry")]];
     CulturalDataLoader.notes := "Population-level tendencies." |}.

Definition japan_prior : CulturalDataLoader.prior := sample_prior "Japan" 82 78 54 85 45 88 72.

Definition sample_data : CulturalDataLoader.t :=
  {| CulturalDataLoader.cultural_priors :=
       list_to_map [("JP", japan_prior);
                    ("GT", sample_prior "Guatemala" 55 72 68 70 82 75 35);
                    ("DE", sample_prior "Germany" 75 25 30 20 55 70 65)];
     CulturalDataLoader.product_baselines := ∅;
     CulturalDataLoader.rules := sample_rules |}.

(** Overrides of one dimension and of a key that is no dimension. *)
Definition sample_overrides : gmap string num :=
  <["collectivism" := NInt 30]> {["mood" := NInt 99]}.

Definition trust_override : gmap string num := {["trust_need" := NFloat 61.5]}.

Definition collectivism_override : gmap string num := {["collectivism" := NInt 30]}.


Definition guatemala_dimensions : gmap string num :=
  CulturalDataLoader.dimensions (sample_prior "Guatemala" 55 72 68 70 82 75 35).

(** ** The compliance audit *)

Definition text_of (o : value) : string :=
  match o with
  | VStr s => s
  | _ => ""
  end.

(** The value under a key of a dict, or a default. *)
Definition entry (d : list (string * value)) (k : string) (dflt : value) : value :=
  default dflt (assoc_get d k).

Definition field_of (o : value) (k : string) (dflt : value) : value :=
  match o with
  | VDict d => entry d k dflt
  | _ => dflt
  end.

Definition dict_items (o : value) : list (string * value) :=
  match o with
  | VDict d => d
  | _ => []
  end.

Definition list_items (o : value) : list value :=
  match o with
  | VList l => l
  | _ => []
  end.

(** What the audit can find. *)
Inductive issue : Type :=
| Essentializing (key pattern : string)
| Unjustified (mod_name : string)
| NoDriver (step : value).

(** A pattern occurs in a string, letter case aside. *)
Definition mentions (pattern s : string) : bool := contains (lower pattern) (lower s).

(** One issue for each copy field (a dict-valued entry of the copy) and each
    pattern that occurs in the field's text or in its rationale.  An entry
    that is no dict, as the list of microcopy items, has no issue. *)
Definition copy_issues (copy : list (string * value)) : list issue :=
  flat_map (λ kv,
    match kv.2 with
    | VDict f =>
        Essentializing kv.1 <$>
          List.filter (λ p, mentions p (text_of (entry f "text" (VStr "")))
                            || mentions p (text_of (entry f "rationale" (VStr ""))))
                      ComplianceAuditorAgent.essentializing_patterns
    | _ => []
    end) copy.

(** A rationale names a dimension. *)
Definition references_dimension (rationale : string) : bool :=
  existsb (λ token, contains token (lower rationale)) ComplianceAuditorAgent.dimension_tokens.

(** One issue for each module (a dict-valued entry of the modules) whose
    rationale is not empty and names no dimension. *)
Definition module_issues (modules : list (string * value)) : list issue :=
  flat_map (λ kv,
    match kv.2 with
    | VDict f =>
        let rationale := text_of (entry f "adaptation_rationale" (VStr "")) in
        if negb (String.eqb rationale "") && negb (references_dimension rationale)
        then [Unjustified kv.1] else []
    | _ => []
    end) modules.

(** One issue for each adaptation of each flow step that has no non-empty
    [dimension_driver]. *)
Definition flow_issues (steps : list value) : list issue :=
  flat_map (λ step,
    flat_map (λ adaptation,
      if truthy (field_of adaptation "dimension_driver" VNone) then [] else [NoDriver step])
      (list_items (field_of step "adaptations" (VList [])))) steps.

Definition issue_severity (strict_mode : bool) (i : issue) : string :=
  match i with
  | Essentializing _ _ => if strict_mode then "high" else "medium"
  | Unjustified _ => "low"
  | NoDriver _ => "medium"
  end.

Definition issue_penalty (i : issue) : Z :=
  match i with
  | Essentializing _ _ => 10
  | Unjustified _ => 5
  | NoDriver _ => 8
  end.

(** The flag fields the code gives to an issue. *)
Definition finding_of (strict_mode : bool) (i : issue) : ComplianceAuditorAgent.finding :=
  match i with
  | Essentializing key pattern => ComplianceAuditorAgent.copy_finding strict_mode key pattern
  | Unjustified mod_name => ComplianceAuditorAgent.module_finding mod_name
  | NoDriver step =>
      ComplianceAuditorAgent.flow_finding (field_of step "name" (VStr "unknown"))
                                          (field_of step "step_id" (VStr "unknown"))
  end.

(** The issues of a bundle: copy, then modules, then flow. *)
Definition issues (variant : value) : list issue :=
  copy_issues (dict_items (field_of variant "copy" (VDict [])))
  ++ module_issues (dict_items (field_of variant "modules" (VDict [])))
  ++ flow_issues (list_items (field_of variant "flow" (VList []))).

Definition clamp (score : Z) : Z := Z.max 0 (Z.min 100 score).

(** The score: 100, less the penalty of every issue, less a flat 10 under
    strict mode, clamped to [0,100]. *)
Definition expected_score (variant : value) (strict_mode : bool) : Z :=
  clamp (100 - foldr Z.add 0 (issue_penalty <$> issues variant)
             - (if strict_mode then 10 else 0)).

(** The flag with the number [n]. *)
Definition flag (n : nat) (f : ComplianceAuditorAgent.finding) : value :=
  VDict [("flag_id", VStr ("FLAG_" +:+ pad3 n));
         ("severity", VStr (ComplianceAuditorAgent.severity f));
         ("description", VStr (ComplianceAuditorAgent.description f));
         ("recommendation", VStr (ComplianceAuditorAgent.recommendation f));
         ("affected_element", VStr (ComplianceAuditorAgent.affected_element f))].

(** Flags numbered from 1 in the order of the issues. *)
Definition expected_flags (variant : value) (strict_mode : bool) : list value :=
  imap (λ i f, flag (S i) f) (finding_of strict_mode <$> issues variant).

Definition is_str (o : value) : bool :=
  match o with
  | VStr _ => true
  | _ => false
  end.

(** The shape of a bundle the audit reads without a type error: the copy and
    the modules are dicts, the texts and rationales of their dict-valued
    entries are strings (a module rationale may also be any falsy value),
    the flow is a list of dicts whose adaptations are lists of dicts, and the
    cultural profile is a dict.  Absent keys are fine. *)
Definition copy_entry_ok (kv : string * value) : bool :=
  match kv.2 with
  | VDict f => is_str (entry f "text" (VStr "")) && is_str (entry f "rationale" (VStr ""))
  | _ => true
  end.

Definition module_entry_ok (kv : string * value) : bool :=
  match kv.2 with
  | VDict f =>
      let r := entry f "adaptation_rationale" (VStr "") in
      is_str r || negb (truthy r)
  | _ => true
  end.

Definition step_ok (step : value) : bool :=
  match step with
  | VDict s =>
      match entry s "adaptations" (VList []) with
      | VList ads => forallb isinstance_dict ads
      | _ => false
      end
  | _ => false
  end.

Definition well_formed_bundle (variant : value) : bool :=
  match variant with
  | VDict d =>
      match entry d "copy" (VDict []) with
      | VDict copy => forallb copy_entry_ok copy
      | _ => false
      end
      && match entry d "modules" (VDict []) with
         | VDict modules => forallb module_entry_ok modules
         | _ => false
         end
      && match entry d "flow" (VList []) with
         | VList steps => forallb step_ok steps
         | _ => false
         end
      && isinstance_dict (entry d "cultural_profile" (VDict []))
  | _ => false
  end.

(** A bundle whose reviews module has an empty rationale and whose returns
    module has none. *)
Definition bundle_without_rationale : value :=
  VDict [("copy", VDict [("cta_primary", VDict [("text", VStr "Add to Cart");
                                                ("rationale", VStr "Baseline CTA maintained")])]);
         ("modules", VDict [("reviews", VDict [("enabled", VBool true);
                                               ("placement", VStr "above_fold");
                                               ("adaptation_rationale", VStr "")]);
                            ("returns", VDict [("enabled", VBool true)])]);
         ("flow", VList [])].

(** A bundle whose copy has a microcopy item with two essentializing
    patterns in its text and one in its rationale. *)
Definition bundle_with_essentializing_microcopy : value :=
  VDict [("copy", VDict [("cta_primary", VDict [("text", VStr "Add to Cart");
                                                ("rationale", VStr "Baseline CTA maintained")]);
                         ("microcopy",
                          VList [VDict [("location", VStr "checkout_button");
                                        ("text", VStr "People in this region always pay by card");
                                        ("rationale", VStr "Typical of the market")]])]);
         ("modules", VDict []);
         ("flow", VList [])].

(** A bundle with one issue of each kind. *)
Definition flawed_bundle : value :=
  VDict [("copy", VDict [("cta_primary", VDict [("text", VStr "Everyone in Japan buys this");
                                                ("rationale", VStr "Collectivism=78")]);
                         ("microcopy", VList [])]);
         ("modules", VDict [("reviews", VDict [("adaptation_rationale", VStr "Looks nicer")]);
                            ("guarantees", VDict [("adaptation_rationale", VStr "Trust need=88")])]);
         ("flow", VList [VDict [("step_id", VStr "cart"); ("name", VStr "Cart");
                                ("adaptations", VList [VDict [("change", VStr "Shorter form")]])]]);
         ("cultural_profile", VDict [("notes", VStr "Population-level tendencies.")])].

(** ** The impact prediction *)

(** The signals the prediction recognises. *)
Inductive signal : Type :=
| SocialProofEmphasis
| EnhancedGuarantees
| TrustModulesAboveFold
| InstallmentFraming
| SocialProofModule
| CheckoutReduction.

(** The relative factor of a signal. *)
Definition signal_factor (sg : signal) : float :=
  match sg with
  | SocialProofEmphasis => 0.06
  | EnhancedGuarantees => 0.04
  | TrustModulesAboveFold => 0.05
  | InstallmentFraming => 0.05
  | SocialProofModule => 0.06
  | CheckoutReduction => 0.08
  end%float.

Definition signal_rule (sg : signal) : string :=
  match sg with
  | SocialProofEmphasis => "Social proof emphasis"
  | EnhancedGuarantees => "Enhanced guarantees"
  | TrustModulesAboveFold => "Trust modules above fold"
  | InstallmentFraming => "Value/installment framing"
  | SocialProofModule => "Social proof module"
  | CheckoutReduction => "Checkout step reduction"
  end.

(** The signals that fire, given which conditions hold; the social-proof
    module does not count again next to the social-proof emphasis. *)
Definition signals_of (reviews_above guarantees_high shipping_above installments
                       social_enabled express : bool) : list signal :=
  (if reviews_above then [SocialProofEmphasis] else [])
  ++ (if guarantees_high then [EnhancedGuarantees] else [])
  ++ (if shipping_above then [TrustModulesAboveFold] else [])
  ++ (if installments then [InstallmentFraming] else [])
  ++ (if social_enabled && negb reviews_above then [SocialProofModule] else [])
  ++ (if express then [CheckoutReduction] else []).

(** A field of a module of a bundle. *)
Definition module_field (variant : value) (module key : string) : value :=
  field_of (field_of (field_of variant "modules" (VDict [])) module (VDict [])) key VNone.

(** The signals present in a bundle. *)
Definition fired_signals (variant : value) : list signal :=
  signals_of
    (eq_str (module_field variant "reviews" "placement") "above_fold")
    (eq_str (module_field variant "guarantees" "prominence") "high")
    (eq_str (module_field variant "shipping_info" "placement") "above_fold")
    (truthy (module_field variant "payment_options" "show_installments"))
    (truthy (module_field variant "social_proof" "enabled"))
    (existsb (λ step, eq_str (field_of step "step_id" VNone) "express_checkout")
             (list_items (field_of variant "flow" (VList [])))).

(** The running product of [1 + factor] over the signals. *)
Definition compound (fired : list signal) : float :=
  fold_left (λ c sg, c * (1 + signal_factor sg))%float fired 1%float.

(** [audit_score / 100] *)
Definition audit_fraction (audit_score : Z) : float := nearest_float audit_score 100.

(** [1 + (compound_factor - 1) * (audit_score / 100)] *)
Definition final_factor (compound_factor fraction : float) : float :=
  (1 + (compound_factor - 1) * fraction)%float.

(** The prediction, rounded to two decimals as the code does. *)
Definition predicted_rate (baseline final : float) : float :=
  py_round (baseline * final) 2.

(** The lift in percent, rounded to one decimal as the code does. *)
Definition lift_percentage (baseline predicted : float) : float :=
  py_round ((predicted - baseline) / baseline * 100) 1.

Definition expected_lift (baseline : float) (fired : list signal) (audit_score : Z) : float :=
  lift_percentage baseline
    (predicted_rate baseline (final_factor (compound fired) (audit_fraction audit_score))).

(** The code's locals after the signals [fired]. *)
Definition state_of (fired : list signal) : ExperimentationAgent.lift_state :=
  fold_left (λ st sg, ExperimentationAgent.apply_factor st (signal_rule sg) (signal_factor sg))
            fired
            {| ExperimentationAgent.compound_factor := 1.0;
               ExperimentationAgent.applied_factors := [] |}.

(** The applied factors as the report lists them. *)
Definition factor_entry (sg : signal) : value :=
  VDict [("rule", VStr (signal_rule sg));
         ("lift", VStr ("+" +:+ format_1f (signal_factor sg * 100)%float +:+ "%"))].

(** The shape of a bundle the prediction reads without a type error: the
    modules and each of the five modules it looks at are dicts, the flow is
    a list of dicts.  Absent keys are fine. *)
Definition prediction_ready (variant : value) : bool :=
  match variant with
  | VDict d =>
      match entry d "modules" (VDict []) with
      | VDict m =>
          forallb (λ name, isinstance_dict (entry m name (VDict [])))
                  ["reviews"; "guarantees"; "shipping_info"; "payment_options"; "social_proof"]
      | _ => false
      end
      && match entry d "flow" (VList []) with
         | VList steps => forallb isinstance_dict steps
         | _ => false
         end
  | _ => false
  end.




(** [n] consecutive integers from [lo] *)
Fixpoint Z_upto (lo : Z) (n : nat) : list Z :=
  match n with
  | O => []
  | S n' => lo :: Z_upto (lo + 1) n'
  end.

(** A bundle with prominent guarantees and nothing else. *)
Definition guarantees_bundle : value :=
  VDict [("modules", VDict [("guarantees", VDict [("enabled", VBool true);
                                                  ("prominence", VStr "high")])]);
         ("flow", VList [])].


(** The look-up the table [BASELINE_RATES] is made for. *)
Definition baseline_rate (product_category : string) : option float :=
  snd <$> find (λ kv, String.eqb kv.1 product_category) ExperimentationAgent.BASELINE_RATES.

(** ** Sample baselines and bundles *)

(** A product baseline with separate shipping and payment steps. *)
Definition sample_base_spec (product_category : string) : value :=
  VDict [("product_category", VStr product_category);
         ("baseline_flow",
          VList [VDict [("step_id", VStr "browse"); ("name", VStr "Browse")];
                 VDict [("step_id", VStr "cart"); ("name", VStr "Cart")];
                 VDict [("step_id", VStr "shipping"); ("name", VStr "Shipping")];
                 VDict [("step_id", VStr "payment"); ("name", VStr "Payment")];
                 VDict [("step_id", VStr "confirm"); ("name", VStr "Confirmation")]]);
         ("baseline_modules", VDict [])].

(** The bundle the pipeline assembles from the UX fallback and the copy
    fallback for a dimensions dict and a baseline. *)
Definition fallback_bundle (dimensions : gmap string num) (base_spec : value) : res value :=
  ux ← UXAdaptationAgent.rule_based_adaptation dimensions [] base_spec "mid";
  copy ← CopyFramingAgent.rule_based_copy dimensions (VDict []);
  AgentOrchestrator.partial_variant "var_0123456789ab" "GT" ux copy (VDict []).

(** An audit result with a given score. *)
Definition audit_with_score (audit_score : Z) : value :=
  VDict [("audit_score", VInt audit_score); ("risk_flags", VList [])].

(** ** The UX fallback under low friction tolerance *)

(** A flow step is a dict with a [step_id]. *)
Definition has_step_id (step : value) : bool :=
  match step with
  | VDict d => has_key d "step_id"
  | _ => false
  end.

Definition step_is (id : string) (step : value) : bool :=
  eq_str (field_of step "step_id" VNone) id.

(** The step with an empty list of adaptations. *)
Definition with_no_adaptations (step : value) : value :=
  match step with
  | VDict d => VDict (dict_set d "adaptations" (VList []))
  | _ => step
  end.

(** The merged flow: each shipping step becomes the combined step, the
    payment steps go, the other steps stay. *)
Definition merged_flow (dimensions : gmap string num) (steps : list value) : list value :=
  flat_map (λ step,
    if step_is "shipping" step then [UXAdaptationAgent.express_checkout dimensions]
    else if step_is "payment" step then []
    else [with_no_adaptations step]) steps.

(** The dimension drivers of the adaptations of a step. *)
Definition drivers_of (step : value) : list value :=
  map (λ a, field_of a "dimension_driver" VNone)
      (list_items (field_of step "adaptations" (VList []))).

(** ** The gateway *)

(** A reply of the deployed model that is not JSON. *)
Definition decode_error : LLMClient.t :=
  Some (LLMClient.JsonDecodeError "Expecting value: line 1 column 1 (char 0)").

(** What [generate_structured] makes of it. *)
Definition error_reply : value :=
  VDict [("error", VStr "Expecting value: line 1 column 1 (char 0)");
         ("rationale", VStr "Failed to parse LLM response as JSON")].

(** The gateway without credentials. *)
Definition not_configured : LLMClient.t := None.

(** ** The returned prior and the rule table *)

(** What a call with overrides appends to the notes. *)
Definition override_note : string := " [Manual overrides applied to some dimensions]".

(** A rule table whose second rule has a threshold that is no number. *)
Definition unreadable_rules : list CulturalDataLoader.rule :=
  [ {| CulturalDataLoader.rule_id := "UA_HIGH_TRUST";
       CulturalDataLoader.dimension := "uncertainty_avoidance";
       CulturalDataLoader.condition := ">=70";
       CulturalDataLoader.more := [] |};
    {| CulturalDataLoader.rule_id := "TRUST_ANY";
       CulturalDataLoader.dimension := "trust_need";
       CulturalDataLoader.condition := ">= high";
       CulturalDataLoader.more := [] |} ].

(** A reply of the gateway with a dimensions object of its own. *)
Definition enriched_reply : list (string * value) :=
  [("country_code", VStr "ZZ");
   ("dimensions", VDict [("collectivism", VInt 150); ("mood", VStr "calm")]);
   ("rationale", VStr "Adjusted for the category.")].

(** ** The request *)

Definition is_hex_digit (c : ascii) : bool :=
  let n := nat_of_ascii c in
  ((48 <=? n) && (n <=? 57) || (97 <=? n) && (n <=? 102))%nat.

(** What [uuid.uuid4().hex] is: 32 lower-case hexadecimal digits. *)
Definition is_uuid_hex (hex : string) : bool :=
  (String.length hex =? 32)%nat && forallb is_hex_digit (list_ascii_of_string hex).

(** An override object with no field set. *)
Definition no_overrides : Models.OverrideDimensions :=
  {| Models.uncertainty_avoidance := None; Models.collectivism := None;
     Models.authority_distance := None; Models.context_level := None;
     Models.price_sensitivity := None; Models.trust_need := None;
     Models.friction_tolerance := None |}.

(** An override of two dimensions, one of them to zero. *)
Definition zero_trust_override : Models.OverrideDimensions :=
  {| Models.uncertainty_avoidance := None; Models.collectivism := Some 30%float;
     Models.authority_distance := None; Models.context_level := None;
     Models.price_sensitivity := None; Models.trust_need := Some 0%float;
     Models.friction_tolerance := None |}.

(** ** The thresholds of the fallbacks *)

Definition high_collectivism (dimensions : gmap string num) : bool :=
  num_ge (UXAdaptationAgent.dim dimensions "collectivism") (NInt 65).

Definition high_trust (dimensions : gmap string num) : bool :=
  num_ge (UXAdaptationAgent.dim dimensions "trust_need") (NInt 75).

Definition high_uncertainty (dimensions : gmap string num) : bool :=
  num_ge (UXAdaptationAgent.dim dimensions "uncertainty_avoidance") (NInt 70).

Definition high_price_sensitivity (dimensions : gmap string num) : bool :=
  num_ge (UXAdaptationAgent.dim dimensions "price_sensitivity") (NInt 70).

Definition low_context (dimensions : gmap string num) : bool :=
  num_le (UXAdaptationAgent.dim dimensions "context_level") (NInt 35).

Definition low_friction (dimensions : gmap string num) : bool :=
  num_le (UXAdaptationAgent.dim dimensions "friction_tolerance") (NInt 40).

(** A baseline flow whose second step has no [step_id]. *)
Definition base_spec_without_step_id : value :=
  VDict [("baseline_flow",
          VList [VDict [("step_id", VStr "cart"); ("name", VStr "Cart")];
                 VDict [("name", VStr "Shipping")];
                 VDict [("step_id", VStr "confirm"); ("name", VStr "Confirmation")]])].

(** ** Texts without essentializing patterns *)

(** Every character of a string satisfies [P]. *)
Definition all_chars (P : ascii → bool) (s : string) : bool :=
  forallb P (list_ascii_of_string s).

Definition char_in (c : ascii) (s : string) : bool :=
  existsb (Ascii.eqb c) (list_ascii_of_string s).

(** The characters of the text of a number, or of [None]: the digits, the
    point, the signs, and the letters of [e], [inf], [nan] and [None]. *)
Definition number_char (c : ascii) : bool := char_in c "0123456789.-+einfaNo".

(** No essentializing pattern occurs in a string, letter case aside. *)
Definition clean (s : string) : bool :=
  forallb (λ p, negb (mentions p s)) ComplianceAuditorAgent.essentializing_patterns.

(** A character that no essentializing pattern contains. *)
Definition is_sep (c : ascii) : bool :=
  forallb (λ p, negb (char_in (lower_ascii c) (lower p)))
          ComplianceAuditorAgent.essentializing_patterns.

Fixpoint ends_sep (s : string) : bool :=
  match s with
  | EmptyString => false
  | String c EmptyString => is_sep c
  | String _ s' => ends_sep s'
  end.

Definition starts_sep (s : string) : bool :=
  match s with
  | String c _ => is_sep c
  | EmptyString => false
  end.

(** A copy field whose text and rationale are strings without an
    essentializing pattern; other entries of the copy are not read. *)
Definition clean_entry (kv : string * value) : bool :=
  match kv.2 with
  | VDict f =>
      match entry f "text" (VStr ""), entry f "rationale" (VStr "") with
      | VStr t, VStr r => clean t && clean r
      | _, _ => false
      end
  | _ => true
  end.

Definition clean_text (o : value) : bool :=
  match o with
  | VStr s => clean s
  | _ => false
  end.

(** The three baseline texts that the copy fallback can pass on are strings
    without an essentializing pattern (an absent text is fine: its default
    is such a string). *)
Definition baseline_texts_clean (base_copy : list (string * value)) : bool :=
  clean_text (entry base_copy "cta_primary" (VStr "Add to Cart"))
  && clean_text (entry base_copy "value_proposition" (VStr "Quality products for you"))
  && clean_text (entry base_copy "urgency_text" (VStr "Limited availability")).

(** ** The copy fallback *)

(** The text of a field of the copy. *)
Definition copy_text (copy : value) (key : string) : value :=
  field_of (field_of copy key VNone) "text" VNone.

(** A baseline copy with two texts the fallback does not read. *)
Definition unused_baseline_copy : list (string * value) :=
  [("cta_secondary", VStr "Keep for later");
   ("social_proof_text", VStr "Loved by our customers");
   ("urgency_text", VStr "While stocks last")].

(** ** The report of the audit *)

(** The positive notes of the audit. *)
Definition positive_notes (variant : value) : list string :=
  (match issues variant with
   | [] => ["All adaptations include dimension-based justification"]
   | _ => []
   end)
  ++ (if truthy (field_of (field_of variant "cultural_profile" (VDict [])) "evidence" VNone)
      then ["Cultural profile includes evidence sources"] else [])
  ++ (if truthy (field_of (field_of variant "cultural_profile" (VDict [])) "notes" VNone)
      then ["Cultural profile acknowledges limitations in notes"] else []).

(** The summary line of the audit. *)
Definition summary_line (score : Z) (flags : nat) : string :=
  "Rule-based audit complete. Score: " +:+ str_of_Z score +:+ "/100 with "
  +:+ str_of_Z (Z.of_nat flags) +:+ " flags identified.".

(** The report of the fallback audit. *)
Definition expected_report (variant : value) (strict_mode : bool) : value :=
  VDict [("audit_score", VInt (expected_score variant strict_mode));
         ("summary",
          VStr (summary_line (expected_score variant strict_mode) (length (issues variant))));
         ("risk_flags", VList (expected_flags variant strict_mode));
         ("recommended_changes", VList []);
         ("positive_notes", VList (VStr <$> positive_notes variant));
         ("rationale", VStr ComplianceAuditorAgent.audit_rationale)].

(** A copy whose first field has a number for its text. *)
Definition bundle_with_numeric_text : value :=
  VDict [("copy", VDict [("cta_primary", VDict [("text", VInt 5); ("rationale", VStr "")])]);
         ("modules", VDict []);
         ("flow", VList [])].

(** ** The confidence and the range of the prediction *)

(** The confidence level of a prediction with [n] applied factors and the
    audit score [s]. *)
Definition expected_confidence (n : nat) (s : Z) : string :=
  if (4 <=? Z.of_nat n) && (80 <=? s) then "high"
  else if (2 <=? Z.of_nat n) && (60 <=? s) then "medium"
  else "low".

(** The lifts of a set of signals for the audit scores 0 to 100. *)
Definition lifts_by_score (fired : list signal) : list float :=
  map (expected_lift 2.3 fired) (Z_upto 0 101).

(** A list of floats that lies within bounds and never decreases: each
    element is compared with itself and with every later one. *)
Fixpoint ascending_within (lo hi : float) (l : list float) : bool :=
  match l with
  | [] => true
  | x :: l' =>
      (lo <=? x)%float && (x <=? hi)%float && forallb (λ y, (x <=? y)%float) l
      && ascending_within lo hi l'
  end.

(** A gateway reply that rates the confidence and tries to set the numbers. *)
Definition optimistic_reply : LLMClient.t :=
  Some (LLMClient.JsonContent
          (VDict [("confidence_level", VStr "high");
                  ("baseline", VFloat 1.0);
                  ("predicted", VFloat 9.9);
                  ("lift_percentage", VFloat 890.0);
                  ("rationale", VStr "Strong fit.")])).

(** * Properties *)

(** ** Dictionaries *)

Section DictProperties.

Lemma assoc_get_dict_set_eq (d : list (string * value)) (k : string) (v : value) :
  assoc_get (dict_set d k v) k = Some v.
Proof.
  induction d as [|[k0 v0] d IH]; simpl.
  - by rewrite String.eqb_refl.
  - destruct (String.eqb k0 k) eqn:E; simpl; by rewrite E.
Qed.

Lemma assoc_get_dict_set_ne (d : list (string * value)) (k k' : string) (v : value) :
  String.eqb k k' = false →
  assoc_get (dict_set d k v) k' = assoc_get d k'.
Proof.
  intros Hne. induction d as [|[k0 v0] d IH]; simpl.
  - by rewrite Hne.
  - destruct (String.eqb k0 k) eqn:E; simpl.
    + apply String.eqb_eq in E. subst. by rewrite Hne.
    + destruct (String.eqb k0 k'); [done|apply IH].
Qed.

Lemma assoc_get_dict_del_eq (d : list (string * value)) (k : string) :
  assoc_get (dict_del d k) k = None.
Proof.
  induction d as [|[k0 v0] d IH]; simpl; [done|].
  destruct (String.eqb k0 k) eqn:E; simpl; [done|]. by rewrite E.
Qed.

Lemma assoc_get_dict_del_ne (d : list (string * value)) (k k' : string) :
  k' ≠ k → assoc_get (dict_del d k) k' = assoc_get d k'.
Proof.
  intros Hne. induction d as [|[k0 v0] d IH]; simpl; [done|].
  destruct (String.eqb k0 k) eqn:E; simpl.
  - apply String.eqb_eq in E. subst.
    apply String.eqb_neq in Hne. rewrite String.eqb_sym in Hne. by rewrite Hne.
  - by rewrite IH.
Qed.

Lemma dict_del_absent (d : list (string * value)) (k : string) :
  assoc_get d k = None → dict_del d k = d.
Proof.
  induction d as [|[k0 v0] d IH]; simpl; [done|].
  destruct (String.eqb k0 k); [done|]. intros H. by rewrite IH.
Qed.

Lemma dict_del_set (d : list (string * value)) (k : string) (v : value) :
  assoc_get d k = None → dict_del (dict_set d k v) k = d.
Proof.
  induction d as [|[k0 v0] d IH]; simpl.
  - by rewrite String.eqb_refl.
  - destruct (String.eqb k0 k) eqn:E; [done|]. intros H. simpl. by rewrite E, IH.
Qed.

Lemma keys_dict_del (d : list (string * value)) (k : string) :
  (dict_del d k).*1 = filter (λ k', k' ≠ k) d.*1.
Proof.
  induction d as [|[k0 v0] d IH]; [done|].
  cbn [dict_del]. rewrite fmap_cons, filter_cons. cbn [fst].
  destruct (String.eqb k0 k) eqn:E.
  - apply String.eqb_eq in E. subst. by rewrite decide_False by (by intros ?).
  - apply String.eqb_neq in E. rewrite decide_True by done. by rewrite fmap_cons, IH.
Qed.

Lemma keys_dict_set (d : list (string * value)) (k : string) (v : value) :
  (dict_set d k v).*1 = if bool_decide (k ∈ d.*1) then d.*1 else d.*1 ++ [k].
Proof.
  induction d as [|[k0 v0] d IH].
  - cbn. rewrite bool_decide_eq_false_2; [done | apply not_elem_of_nil].
  - cbn [dict_set]. rewrite !fmap_cons. cbn [fst].
    destruct (String.eqb k0 k) eqn:E.
    + apply String.eqb_eq in E. subst. rewrite bool_decide_eq_true_2; [done | by left].
    + apply String.eqb_neq in E. rewrite fmap_cons, IH. cbn [fst].
      destruct (decide (k ∈ d.*1)) as [Hin|Hout].
      * rewrite !bool_decide_eq_true_2; [done | by right | done].
      * rewrite !bool_decide_eq_false_2; [done | | done].
        rewrite not_elem_of_cons. by split.
Qed.

End DictProperties.

(** ** The variant store *)

Section VariantStoreProperties.
Import VariantStore.

Lemma get_store_eq (self : t) (variant_id : string) (variant : value) :
  get (store self variant_id variant) variant_id = Some variant.
Proof. unfold get, store; simpl. apply assoc_get_dict_set_eq. Qed.

Lemma get_store_ne (self : t) (id id' : string) (variant : value) :
  id ≠ id' → get (store self id variant) id' = get self id'.
Proof.
  intros Hne. unfold get, store; simpl.
  apply assoc_get_dict_set_ne. by apply String.eqb_neq.
Qed.

Lemma store_all_snoc (self : t) (calls : list (string * value)) (c : string * value) :
  store_all self (calls ++ [c]) = store (store_all self calls) c.1 c.2.
Proof. unfold store_all. by rewrite fold_left_app. Qed.

Lemma last_stored_snoc (calls : list (string * value)) (c : string * value) (id : string) :
  last_stored (calls ++ [c]) id =
  if String.eqb c.1 id then Some c.2 else last_stored calls id.
Proof.
  unfold last_stored. rewrite rev_app_distr. simpl.
  by destruct (String.eqb c.1 id).
Qed.

(** C10: after any run of [store] calls on a fresh store, [get] returns the
    variant of the most recent call for the id (a repeated id is accepted
    and replaces the earlier variant) and [None] for an id never stored. *)
Theorem get_returns_last_stored (calls : list (string * value)) (variant_id : string) :
  get (store_all init calls) variant_id = last_stored calls variant_id.
Proof.
  induction calls as [|c calls IH] using rev_ind.
  - reflexivity.
  - rewrite store_all_snoc, last_stored_snoc.
    destruct (String.eqb c.1 variant_id) eqn:E.
    + apply String.eqb_eq in E. subst. apply get_store_eq.
    + apply String.eqb_neq in E. by rewrite get_store_ne.
Qed.

End VariantStoreProperties.

(** ** The matcher *)

Section MatcherProperties.
Import CulturalDataLoader.

Lemma applicable_step_spec (dimensions : gmap string num) (applicable : list rule) (r : rule) :
  threshold_readable dimensions r = true →
  applicable_step dimensions applicable r =
  Ok (if rule_applies dimensions r then applicable ++ [r] else applicable).
Proof.
  unfold applicable_step, rule_applies, threshold_readable, parse_condition, to_float.
  destruct (dimensions !! dimension r) as [value|]; [|done].
  repeat match goal with
  | |- context [if String.prefix ?p (condition r) then _ else _] =>
      destruct (String.prefix p (condition r))
  end; try done;
  match goal with
  | |- context [py_float ?text] => destruct (py_float text); [done | discriminate]
  end.
Qed.

Lemma applicable_loop (dimensions : gmap string num) (rs : list rule) (applicable : list rule) :
  forallb (threshold_readable dimensions) rs = true →
  for_each rs (applicable_step dimensions) applicable =
  Ok (applicable ++ filter (λ r, rule_applies dimensions r = true) rs).
Proof.
  revert applicable. induction rs as [|r rs IH]; intros applicable Hread; simpl in *.
  - by rewrite app_nil_r.
  - apply andb_prop in Hread as [Hr Hrs].
    rewrite applicable_step_spec by done. simpl. rewrite IH by done.
    rewrite filter_cons. destruct (rule_applies dimensions r).
    + rewrite decide_True by done. by rewrite <- app_assoc.
    + rewrite decide_False by done. done.
Qed.

(** A rule whose dimension the profile lacks is passed over, whatever its
    condition says. *)
Lemma absent_dimension_skipped (dimensions : gmap string num) (applicable : list rule) (r : rule) :
  dimensions !! dimension r = None →
  applicable_step dimensions applicable r = Ok applicable.
Proof. intros H. unfold applicable_step. by rewrite H. Qed.

(** C7: the matcher returns exactly the rules whose comparator/threshold
    test holds for the profile's value of the rule's dimension, in the order
    of the table; a rule whose dimension is absent from the profile is
    skipped without an error (nothing is asked of its condition); the
    matcher is a function of the table and the profile that leaves the
    loader as it is, so a second call returns the same sequence. *)
Theorem get_applicable_rules_spec (self : t) (dimensions : gmap string num) :
  forallb (threshold_readable dimensions) (rules self) = true →
  get_applicable_rules self dimensions =
  Ok (filter (λ r, rule_applies dimensions r = true) (rules self)).
Proof.
  intros Hread. unfold get_applicable_rules, get_mapping_rules.
  by rewrite applicable_loop.
Qed.

(** The resolver does not touch the rule table: the matcher returns the same
    sequence before and after any resolver call. *)
Lemma matcher_unaffected_by_resolver (self : t) (country_code : string)
    (overrides dimensions : gmap string num) :
  get_applicable_rules (get_cultural_prior_with_overrides self country_code overrides).1
                       dimensions
  = get_applicable_rules self dimensions.
Proof.
  unfold get_applicable_rules, get_mapping_rules,
    get_cultural_prior_with_overrides, get_cultural_prior.
  destruct (cultural_priors self !! country_code); [|done].
  by case_decide.
Qed.

(** The sample table on Guatemala's dimensions: the last rule has a
    dimension the profile lacks and a threshold that is no number. *)
Lemma get_applicable_rules_spec_witness :
  forallb (threshold_readable guatemala_dimensions) (rules sample_data) = true ∧
  get_applicable_rules sample_data guatemala_dimensions =
  Ok (filter (λ r, rule_applies guatemala_dimensions r = true) (rules sample_data)).
Proof.
  split; [vm_compute; reflexivity|].
  apply (get_applicable_rules_spec sample_data guatemala_dimensions).
  vm_compute; reflexivity.
Defined.

End MatcherProperties.

(** ** The resolver *)

Section ResolverProperties.
Import CulturalDataLoader CulturalIntelligenceAgent.

Lemma apply_overrides_lookup (dims overrides : gmap string num) (k : string) :
  apply_overrides dims overrides !! k =
  match dims !! k with
  | Some x => Some (default x (overrides !! k))
  | None => None
  end.
Proof.
  unfold apply_overrides. revert k.
  apply (map_fold_weak_ind
           (λ r m, ∀ k, r !! k = match dims !! k with
                                  | Some x => Some (default x (m !! k))
                                  | None => None
                                  end)).
  - intros k. rewrite lookup_empty. simpl. by destruct (dims !! k).
  - intros i x m r Hi IH k.
    destruct (decide (i = k)) as [->|Hne].
    + rewrite lookup_insert_eq. specialize (IH k). rewrite Hi in IH. simpl in *.
      case_decide as Hsome.
      * rewrite lookup_insert_eq. destruct (dims !! k); [done|].
        rewrite IH in Hsome. by destruct Hsome.
      * rewrite IH. destruct (dims !! k); [|done].
        exfalso. apply Hsome. rewrite IH. by eexists.
    + rewrite (lookup_insert_ne m) by done.
      case_decide; [rewrite lookup_insert_ne by done|]; apply IH.
Qed.

Lemma apply_overrides_dom (dims overrides : gmap string num) :
  dom (apply_overrides dims overrides) = dom dims.
Proof.
  apply set_eq. intros k. rewrite !elem_of_dom, apply_overrides_lookup.
  destruct (dims !! k); split; intros [? ?]; by eauto.
Qed.

Lemma apply_overrides_empty (dims : gmap string num) : apply_overrides dims ∅ = dims.
Proof. unfold apply_overrides. by rewrite map_fold_empty. Qed.

Lemma deref_write_dims (self : t) (c : string) (f : gmap string num → gmap string num) :
  deref (write_dims self c f) (Stored c) = f <$> deref self (Stored c).
Proof.
  unfold deref, write_dims; simpl. rewrite lookup_alter_eq.
  by destruct (cultural_priors self !! c).
Qed.

(** X5: a call of [get_cultural_prior_with_overrides] leaves alone the rule
    table, the baselines, of every stored prior the name, the evidence and
    the notes, and the whole prior of every country but the one asked
    for. *)
Lemma resolver_frame (self : t) (country_code : string) (overrides : gmap string num) :
  let self' := (get_cultural_prior_with_overrides self country_code overrides).1 in
  rules self' = rules self ∧
  product_baselines self' = product_baselines self ∧
  (∀ c, country_name <$> cultural_priors self' !! c = country_name <$> cultural_priors self !! c) ∧
  (∀ c, evidence <$> cultural_priors self' !! c = evidence <$> cultural_priors self !! c) ∧
  (∀ c, notes <$> cultural_priors self' !! c = notes <$> cultural_priors self !! c) ∧
  (∀ c, c ≠ country_code → cultural_priors self' !! c = cultural_priors self !! c).
Proof.
  unfold get_cultural_prior_with_overrides, get_cultural_prior.
  destruct (cultural_priors self !! country_code) as [p|] eqn:Hp; simpl; [|done].
  case_decide; simpl; [done|].
  repeat split; try done; intros c.
  1-3: destruct (decide (country_code = c)) as [->|Hne];
       [rewrite lookup_alter_eq, Hp; done | by rewrite lookup_alter_ne].
  intros Hne. by rewrite lookup_alter_ne.
Qed.

Lemma well_formed_dimensions_spec (d : gmap string num) :
  well_formed_dimensions d = true ↔
  dom d = dimension_names ∧ ∀ k v, d !! k = Some v → in_range v = true.
Proof.
  unfold well_formed_dimensions.
  rewrite andb_true_iff, bool_decide_eq_true, forallb_forall.
  split; intros [Hdom Hval]; (split; [done|]).
  - intros k v Hk. apply (Hval (k, v)).
    apply list_elem_of_In. by apply elem_of_map_to_list.
  - intros [k v] Hin. apply (Hval k v).
    apply elem_of_map_to_list. by apply list_elem_of_In.
Qed.

Lemma well_formed_priors_lookup (data : t) (c : string) (p : prior) :
  well_formed_priors data = true →
  cultural_priors data !! c = Some p →
  well_formed_dimensions (dimensions p) = true.
Proof.
  unfold well_formed_priors. rewrite forallb_forall. intros Hall Hp.
  apply (Hall (c, p)). apply list_elem_of_In. by apply elem_of_map_to_list.
Qed.

Lemma overrides_in_range_lookup (overrides : option (gmap string num)) (k : string) (v : num) :
  overrides_in_range overrides = true →
  default ∅ overrides !! k = Some v → in_range v = true.
Proof.
  unfold overrides_in_range. rewrite forallb_forall. intros Hall Hk.
  apply (Hall (k, v)). apply list_elem_of_In. by apply elem_of_map_to_list.
Qed.

Lemma unavailable_has_no_dimensions (llm : LLMClient.t) :
  gateway_unavailable llm = true →
  py_in "dimensions" (LLMClient.generate_structured llm) = Ok false.
Proof. by destruct llm as [[]|]. Qed.

(** Without a stored prior the resolver returns the neutral profile, whatever
    the overrides and the gateway, and leaves the loader as it is. *)
Lemma analyze_missing_prior (data : t) (llm : LLMClient.t) (country_code product_category : string)
    (overrides : option (gmap string num)) :
  cultural_priors data !! country_code = None →
  analyze data llm country_code product_category overrides
  = (data, Ok (default_profile country_code)).
Proof.
  intros Hnone. unfold analyze, get_cultural_prior_with_overrides, get_cultural_prior.
  by rewrite Hnone.
Qed.

(** With a stored prior and no reply from the gateway, the profile names the
    stored dimensions dict, into which the overrides have been written. *)
Lemma resolved_dimensions_stored (data : t) (llm : LLMClient.t)
    (country_code product_category : string) (overrides : option (gmap string num)) (p : prior) :
  gateway_unavailable llm = true →
  cultural_priors data !! country_code = Some p →
  is_ok (analyze data llm country_code product_category overrides).2 ∧
  resolved_dimensions data llm country_code product_category overrides
  = Some (apply_overrides (dimensions p) (default ∅ overrides)).
Proof.
  intros Hllm Hp.
  unfold resolved_dimensions, analyze, get_cultural_prior_with_overrides, get_cultural_prior.
  rewrite Hp. case_decide as Hempty.
  - rewrite unavailable_has_no_dimensions by done. simpl.
    split; [by eexists|]. rewrite Hp, Hempty. simpl. by rewrite apply_overrides_empty.
  - rewrite unavailable_has_no_dimensions by done. simpl.
    split; [by eexists|]. rewrite lookup_alter_eq, Hp. done.
Qed.

Lemma neutral_dimensions_well_formed : well_formed_dimensions neutral_dimensions = true.
Proof. by vm_compute. Qed.

(** C2: on the fallback path of [analyze] the profile has exactly the seven
    dimensions, each in [0,100], for every country code and every set of
    overrides (none, empty or not), given stored priors that satisfy the data
    model and override values within the entry point's range; without a
    stored prior for the region the profile is the neutral one: every
    dimension 50, one synthetic evidence entry, an explanatory note. *)
Theorem resolver_returns_well_formed_profile (data : t) (llm : LLMClient.t)
    (country_code product_category : string) (overrides : option (gmap string num)) :
  gateway_unavailable llm = true →
  well_formed_priors data = true →
  overrides_in_range overrides = true →
  (∃ profile d,
     (analyze data llm country_code product_category overrides).2 = Ok profile ∧
     resolved_dimensions data llm country_code product_category overrides = Some d ∧
     dom d = dimension_names ∧
     (∀ k v, d !! k = Some v → in_range v = true) ∧
     (cultural_priors data !! country_code = None →
      (∀ k, k ∈ dimension_names → d !! k = Some (NInt 50)) ∧
      (∃ entry, p_evidence profile = VList [entry]) ∧
      p_notes profile = VStr ("No cultural priors available for " +:+ country_code
                              +:+ ". Using default neutral values."))).
Proof.
  intros Hllm Hwf Hov.
  destruct (cultural_priors data !! country_code) as [p|] eqn:Hp.
  - destruct (resolved_dimensions_stored data llm country_code product_category overrides p)
      as [[profile Hok] Hres]; [done..|].
    exists profile, (apply_overrides (dimensions p) (default ∅ overrides)).
    apply well_formed_priors_lookup with (c := country_code) (p := p) in Hwf; [|done].
    apply well_formed_dimensions_spec in Hwf as [Hdom Hval].
    split_and!; [done | done | by rewrite apply_overrides_dom | | done].
    intros k v. rewrite apply_overrides_lookup.
    destruct (dimensions p !! k) as [x|] eqn:Hx; [|done].
    destruct (default ∅ overrides !! k) as [y|] eqn:Hy; simpl; intros [= <-].
    + by eapply overrides_in_range_lookup.
    + by eapply Hval.
  - unfold resolved_dimensions. rewrite analyze_missing_prior by done. simpl.
    exists (default_profile country_code), neutral_dimensions.
    pose proof neutral_dimensions_well_formed as Hn.
    apply well_formed_dimensions_spec in Hn as [Hdom Hval].
    split_and!; [reflexivity | reflexivity | exact Hdom | exact Hval |].
    intros _. split_and!; [|by eexists|reflexivity].
    intros k Hk. unfold dimension_names in Hk.
    apply elem_of_list_to_set in Hk.
    rewrite !elem_of_cons, elem_of_nil in Hk.
    destruct Hk as [->|[->|[->|[->|[->|[->|[->|[]]]]]]]]; vm_compute; reflexivity.
Qed.

(** The sample loader, the gateway not configured, a stored region and an
    override. *)
Lemma resolver_returns_well_formed_profile_witness :
  gateway_unavailable None = true ∧
  well_formed_priors sample_data = true ∧
  overrides_in_range (Some trust_override) = true ∧
  ∃ profile d,
    (analyze sample_data None "JP" "electronics" (Some trust_override)).2 = Ok profile ∧
    resolved_dimensions sample_data None "JP" "electronics" (Some trust_override) = Some d ∧
    dom d = dimension_names ∧
    (∀ k v, d !! k = Some v → in_range v = true) ∧
    (cultural_priors sample_data !! "JP" = None →
     (∀ k, k ∈ dimension_names → d !! k = Some (NInt 50)) ∧
     (∃ entry, p_evidence profile = VList [entry]) ∧
     p_notes profile = VStr ("No cultural priors available for " +:+ "JP"
                             +:+ ". Using default neutral values.")).
Proof.
  split; [reflexivity|]. split; [vm_compute; reflexivity|]. split; [vm_compute; reflexivity|].
  apply (resolver_returns_well_formed_profile sample_data None "JP" "electronics"
           (Some trust_override));
    vm_compute; reflexivity.
Defined.




(** C6 fails on the code: [get_cultural_prior] hands out the stored
    dimensions dict itself, so the overrides of one call are written into the
    loader and every later call for the region sees them.  Here the stored
    collectivism of JP is 78 before a call with the override 30, and 30
    after it, also for a later call without overrides. *)
Theorem overrides_are_written_into_the_loader :
  let data' := (get_cultural_prior_with_overrides sample_data "JP" collectivism_override).1 in
  (dimensions <$> cultural_priors sample_data !! "JP") ≫= (.!! "collectivism") = Some (NInt 78) ∧
  (dimensions <$> cultural_priors data' !! "JP") ≫= (.!! "collectivism") = Some (NInt 30) ∧
  resolved_dimensions data' None "JP" "electronics" None ≫= (.!! "collectivism") = Some (NInt 30).
Proof. split_and!; vm_compute; reflexivity. Qed.

(** The stored dimensions stay as they are exactly when no override names a
    stored dimension: what a call writes is the override map restricted to
    the stored keys. *)
Lemma stored_dimensions_after_overrides (self : t) (country_code : string)
    (overrides : gmap string num) (p : prior) :
  cultural_priors self !! country_code = Some p →
  dimensions <$> cultural_priors (get_cultural_prior_with_overrides self country_code overrides).1
                 !! country_code
  = Some (apply_overrides (dimensions p) overrides).
Proof.
  intros Hp. unfold get_cultural_prior_with_overrides, get_cultural_prior. rewrite Hp.
  case_decide as Hempty; simpl.
  - by rewrite Hp, Hempty, apply_overrides_empty.
  - by rewrite lookup_alter_eq, Hp.
Qed.

Lemma apply_overrides_well_formed (dims overrides : gmap string num) :
  well_formed_dimensions dims = true →
  (∀ k v, overrides !! k = Some v → in_range v = true) →
  well_formed_dimensions (apply_overrides dims overrides) = true.
Proof.
  rewrite !well_formed_dimensions_spec. intros [Hdom Hval] Hov.
  split; [by rewrite apply_overrides_dom|].
  intros k v. rewrite apply_overrides_lookup.
  destruct (dims !! k) as [x|] eqn:Hx; [|done].
  destruct (overrides !! k) as [y|] eqn:Hy; simpl; intros [= <-]; eauto.
Qed.

(** X6: when every stored prior has exactly the seven dimensions, each in
    [0,100], and the override values lie in [0,100], the stored priors are
    so after the call too, although the call may change stored values. *)
Lemma resolver_keeps_priors_well_formed (self : t) (country_code : string)
    (overrides : gmap string num) :
  well_formed_priors self = true →
  overrides_in_range (Some overrides) = true →
  well_formed_priors (get_cultural_prior_with_overrides self country_code overrides).1 = true.
Proof.
  intros Hwf Hov.
  unfold get_cultural_prior_with_overrides, get_cultural_prior.
  destruct (cultural_priors self !! country_code) as [p|] eqn:Hp; [|done].
  case_decide; [done|]. simpl.
  unfold well_formed_priors. apply forallb_forall. intros [c p'] Hin.
  apply list_elem_of_In, elem_of_map_to_list in Hin. simpl in *.
  destruct (decide (country_code = c)) as [->|Hne].
  - rewrite lookup_alter_eq, Hp in Hin. injection Hin as <-. simpl.
    apply apply_overrides_well_formed.
    + by eapply well_formed_priors_lookup.
    + intros k v Hk. by eapply (overrides_in_range_lookup (Some overrides)).
  - rewrite lookup_alter_ne in Hin by done. by eapply well_formed_priors_lookup.
Qed.

(** The sample loader, JP, an override of one dimension and of an unknown
    key. *)
Lemma resolver_keeps_priors_well_formed_witness :
  well_formed_priors sample_data = true ∧
  overrides_in_range (Some sample_overrides) = true ∧
  well_formed_priors (get_cultural_prior_with_overrides sample_data "JP" sample_overrides).1 = true.
Proof.
  split; [vm_compute; reflexivity|]. split; [vm_compute; reflexivity|].
  apply (resolver_keeps_priors_well_formed sample_data "JP" sample_overrides);
    vm_compute; reflexivity.
Defined.

End ResolverProperties.

(** ** The compliance audit *)

Section AuditProperties.
Import ComplianceAuditorAgent.

Local Opaque essentializing_patterns dimension_tokens.

Lemma fold_add_flag_score (fs : list finding) (st : audit_state) :
  score (fold_left add_flag fs st) = score st - foldr Z.add 0 (penalty <$> fs).
Proof.
  revert st. induction fs as [|f fs IH]; intros st.
  - simpl. lia.
  - rewrite fmap_cons. cbn [fold_left foldr]. rewrite IH. cbn [score add_flag]. lia.
Qed.

Lemma fold_add_flag_flags (fs : list finding) (st : audit_state) :
  risk_flags (fold_left add_flag fs st) =
  risk_flags st ++ imap (λ i f, flag (S (flag_counter st + i)) f) fs.
Proof.
  revert st. induction fs as [|f fs IH]; intros st; simpl.
  - by rewrite app_nil_r.
  - rewrite IH. simpl. rewrite <- app_assoc. simpl. f_equal.
    rewrite Nat.add_0_r. f_equal. apply imap_ext. intros i x _. simpl.
    by rewrite Nat.add_succ_r.
Qed.

Lemma penalty_of_issues (strict_mode : bool) (l : list issue) :
  penalty <$> (finding_of strict_mode <$> l) = issue_penalty <$> l.
Proof. rewrite <- list_fmap_compose. apply list_fmap_ext. by intros ? []. Qed.

(** The code's flags carry the severity and cost the penalty of their issue. *)
Lemma finding_of_issue (strict_mode : bool) (i : issue) :
  severity (finding_of strict_mode i) = issue_severity strict_mode i ∧
  penalty (finding_of strict_mode i) = issue_penalty i.
Proof. by destruct i, strict_mode. Qed.

Lemma pattern_found_str (pattern t r : string) :
  pattern_found pattern (VStr t) (VStr r) = Ok (mentions pattern t || mentions pattern r).
Proof. unfold pattern_found, mentions; simpl. by destruct (contains _ (lower t)). Qed.

Lemma copy_patterns_loop (strict_mode : bool) (key t r : string) (ps : list string)
    (st : audit_state) :
  for_each ps
    (λ st pattern,
       found ← pattern_found pattern (VStr t) (VStr r);
       Ok (if found : bool then add_flag st (copy_finding strict_mode key pattern) else st)) st
  = Ok (fold_left add_flag
          (copy_finding strict_mode key <$>
             List.filter (λ p, mentions p t || mentions p r) ps) st).
Proof.
  revert st. induction ps as [|p ps IH]; intros st; simpl; [done|].
  rewrite pattern_found_str. simpl.
  destruct (mentions p t || mentions p r); simpl; apply IH.
Qed.

Lemma fmap_flat_map {A B C : Type} (f : B → C) (g : A → list B) (l : list A) :
  f <$> flat_map g l = flat_map (λ x, f <$> g x) l.
Proof. induction l as [|x l IH]; simpl; [done|]. by rewrite fmap_app, IH. Qed.

(** A loop whose every turn adds the flags of its item adds the flags of all
    items, in order. *)
Lemma for_each_findings {A : Type} (body : audit_state → A → res audit_state)
    (found : A → list finding) (ok : A → bool) :
  (∀ st x, ok x = true → body st x = Ok (fold_left add_flag (found x) st)) →
  ∀ xs st, forallb ok xs = true →
           for_each xs body st = Ok (fold_left add_flag (flat_map found xs) st).
Proof.
  intros Hbody xs. induction xs as [|x xs IH]; intros st Hok; simpl in *; [done|].
  apply andb_prop in Hok as [Hx Hxs].
  rewrite Hbody by done. simpl. rewrite IH by done. by rewrite fold_left_app.
Qed.

Lemma audit_copy_item_spec (strict_mode : bool) (st : audit_state) (kv : string * value) :
  copy_entry_ok kv = true →
  audit_copy_item strict_mode st kv
  = Ok (fold_left add_flag (finding_of strict_mode <$> copy_issues [kv]) st).
Proof.
  destruct kv as [key v].
  unfold copy_entry_ok, audit_copy_item, copy_issues, entry. simpl.
  destruct v as [| | | | | |f]; try done. simpl.
  generalize (default (VStr "") (assoc_get f "text")).
  generalize (default (VStr "") (assoc_get f "rationale")).
  intros [| | | |r| |] [| | | |t| |]; try discriminate. intros _.
  rewrite copy_patterns_loop, app_nil_r. simpl. by rewrite <- list_fmap_compose.
Qed.

Lemma audit_module_item_spec (strict_mode : bool) (st : audit_state) (kv : string * value) :
  module_entry_ok kv = true →
  audit_module_item st kv
  = Ok (fold_left add_flag (finding_of strict_mode <$> module_issues [kv]) st).
Proof.
  destruct kv as [name v].
  unfold module_entry_ok, audit_module_item, module_issues, references_dimension, entry. simpl.
  destruct v as [| | | | | |f]; try done. simpl.
  generalize (default (VStr "") (assoc_get f "adaptation_rationale")).
  intros [|b|z|x|r|l|d]; simpl; try done.
  - by destruct b.
  - by destruct (negb (z =? 0)).
  - by destruct (negb (x =? 0)%float).
  - intros _. destruct (String.eqb r ""); simpl; [done|].
    by destruct (existsb _ dimension_tokens).
  - by destruct l.
  - by destruct d.
Qed.

Lemma audit_adaptation_spec (strict_mode : bool) (step : value) (st : audit_state)
    (adaptation : value) :
  isinstance_dict step = true →
  isinstance_dict adaptation = true →
  audit_adaptation step st adaptation
  = Ok (fold_left add_flag
          (finding_of strict_mode <$>
             (if truthy (field_of adaptation "dimension_driver" VNone)
              then [] else [NoDriver step])) st).
Proof.
  destruct step as [| | | | | |s]; try done.
  destruct adaptation as [| | | | | |a]; try done. intros _ _.
  unfold audit_adaptation. simpl. unfold entry.
  by destruct (truthy (default VNone (assoc_get a "dimension_driver"))).
Qed.

Lemma audit_flow_step_spec (strict_mode : bool) (st : audit_state) (step : value) :
  step_ok step = true →
  audit_flow_step st step
  = Ok (fold_left add_flag (finding_of strict_mode <$> flow_issues [step]) st).
Proof.
  unfold step_ok, audit_flow_step, flow_issues.
  destruct step as [| | | | | |s]; try done. simpl. unfold entry.
  destruct (default (VList []) (assoc_get s "adaptations")) as [| | | | |ads|];
    try done.
  intros Hads. simpl.
  rewrite (for_each_findings (audit_adaptation (VDict s))
             (λ a, finding_of strict_mode <$>
                     (if truthy (field_of a "dimension_driver" VNone)
                      then [] else [NoDriver (VDict s)]))
             isinstance_dict) by (intros; by apply audit_adaptation_spec || done).
  by rewrite app_nil_r, fmap_flat_map.
Qed.

Lemma copy_loop (strict_mode : bool) (copy : list (string * value)) (st : audit_state) :
  forallb copy_entry_ok copy = true →
  for_each copy (audit_copy_item strict_mode) st
  = Ok (fold_left add_flag (finding_of strict_mode <$> copy_issues copy) st).
Proof.
  intros Hok.
  rewrite (for_each_findings _ (λ kv, finding_of strict_mode <$> copy_issues [kv]) copy_entry_ok)
    by (intros; by apply audit_copy_item_spec || done).
  unfold copy_issues. rewrite fmap_flat_map. do 2 f_equal.
  apply flat_map_ext. intros kv. simpl. by rewrite app_nil_r.
Qed.

Lemma module_loop (strict_mode : bool) (modules : list (string * value)) (st : audit_state) :
  forallb module_entry_ok modules = true →
  for_each modules audit_module_item st
  = Ok (fold_left add_flag (finding_of strict_mode <$> module_issues modules) st).
Proof.
  intros Hok.
  rewrite (for_each_findings _ (λ kv, finding_of strict_mode <$> module_issues [kv]) module_entry_ok)
    by (intros; by apply audit_module_item_spec || done).
  unfold module_issues. rewrite fmap_flat_map. do 2 f_equal.
  apply flat_map_ext. intros kv. simpl. by rewrite app_nil_r.
Qed.

Lemma flow_loop (strict_mode : bool) (steps : list value) (st : audit_state) :
  forallb step_ok steps = true →
  for_each steps audit_flow_step st
  = Ok (fold_left add_flag (finding_of strict_mode <$> flow_issues steps) st).
Proof.
  intros Hok.
  rewrite (for_each_findings _ (λ step, finding_of strict_mode <$> flow_issues [step]) step_ok)
    by (intros; by apply audit_flow_step_spec || done).
  unfold flow_issues. rewrite fmap_flat_map. do 2 f_equal.
  apply flat_map_ext. intros step. simpl. by rewrite app_nil_r.
Qed.

Lemma audit_state_after (strict_mode : bool) (variant : value) :
  let st := fold_left add_flag (finding_of strict_mode <$> issues variant)
                      {| risk_flags := []; score := 100; flag_counter := 0 |} in
  score st = 100 - foldr Z.add 0 (issue_penalty <$> issues variant) ∧
  risk_flags st = expected_flags variant strict_mode.
Proof.
  simpl. split.
  - by rewrite fold_add_flag_score, penalty_of_issues.
  - by rewrite fold_add_flag_flags.
Qed.

(** C1, as amended: on every bundle of the shape the audit reads, the
    fallback audit returns a report whose flags are, in order and numbered
    from 1, one flag for each dict-valued entry of the copy and each
    essentializing pattern occurring in its text or rationale (severity
    "medium", "high" under strict mode, 10 points), one for each module
    whose rationale is not empty and names no dimension token ("low", 5
    points), and one for each flow-step adaptation without a non-empty
    [dimension_driver] ("medium", 8 points); the score is 100 less these
    points, less a flat 10 under strict mode, clamped to [0,100].  A module
    whose rationale is empty or absent gets no flag, and the items of the
    microcopy list, which is no dict, are not scanned. *)
Theorem rule_based_audit_spec (variant : value) (strict_mode : bool) :
  well_formed_bundle variant = true →
  (∃ report,
     rule_based_audit variant strict_mode = Ok report ∧
     get report "audit_score" VNone = Ok (VInt (expected_score variant strict_mode)) ∧
     get report "risk_flags" VNone
     = Ok (VList (imap (λ n i, flag (S n) (finding_of strict_mode i)) (issues variant)))) ∧
  (∀ i, severity (finding_of strict_mode i) = issue_severity strict_mode i ∧
        penalty (finding_of strict_mode i) = issue_penalty i) ∧
  (∀ mod_name f, entry f "adaptation_rationale" (VStr "") = VStr "" →
                 module_issues [(mod_name, VDict f)] = []).
Proof.
  intros Hwf. split_and!; [|apply finding_of_issue|].
  - destruct variant as [| | | | | |d]; try discriminate.
    unfold well_formed_bundle in Hwf.
    apply andb_prop in Hwf as [Hwf Hprofile].
    apply andb_prop in Hwf as [Hwf Hflow].
    apply andb_prop in Hwf as [Hcopy Hmodules].
    pose proof (audit_state_after strict_mode (VDict d)) as [Hscore Hflags].
    unfold expected_flags, expected_score, clamp, issues in *.
    unfold rule_based_audit. simpl in *. unfold entry in *.
    rewrite !fmap_app, !fold_left_app in Hscore, Hflags.
    destruct (default (VDict []) (assoc_get d "copy")) as [| | | | | |copy]; try discriminate.
    destruct (default (VDict []) (assoc_get d "modules")) as [| | | | | |modules];
      try discriminate.
    destruct (default (VList []) (assoc_get d "flow")) as [| | | | |steps|]; try discriminate.
    destruct (default (VDict []) (assoc_get d "cultural_profile")) as [| | | | | |profile];
      try discriminate.
    simpl in *.
    rewrite (copy_loop strict_mode) by done. simpl.
    rewrite (module_loop strict_mode) by done. simpl.
    rewrite (flow_loop strict_mode) by done. simpl.
    eexists. split; [reflexivity|]. simpl. split.
    + do 2 f_equal. rewrite Hscore. destruct strict_mode; lia.
    + rewrite Hflags. by rewrite <- !fmap_app, imap_fmap.
  - intros mod_name f Hr. unfold module_issues. simpl. by rewrite Hr.
Qed.

(** A bundle with one issue of each kind, audited in strict mode. *)
Lemma rule_based_audit_spec_witness :
  well_formed_bundle flawed_bundle = true ∧
  (∃ report,
     rule_based_audit flawed_bundle true = Ok report ∧
     get report "audit_score" VNone = Ok (VInt (expected_score flawed_bundle true)) ∧
     get report "risk_flags" VNone
     = Ok (VList (imap (λ n i, flag (S n) (finding_of true i)) (issues flawed_bundle)))).
Proof.
  split; [vm_compute; reflexivity|].
  apply (rule_based_audit_spec flawed_bundle true). vm_compute; reflexivity.
Defined.

(** C1 as stated fails on a module with an empty rationale, and on one
    without a rationale: neither names a dimension, yet the audit emits no
    flag and the score stays 100.  It also fails on the items of the
    microcopy list: their texts and rationales are not scanned, so that an
    item with two patterns in its text and one in its rationale gets no
    flag and the score stays 100. *)
Lemma empty_rationale_and_microcopy_are_not_flagged :
  references_dimension "" = false ∧
  (∃ report,
     rule_based_audit bundle_without_rationale false = Ok report ∧
     get report "audit_score" VNone = Ok (VInt 100) ∧
     get report "risk_flags" VNone = Ok (VList [])) ∧
  mentions "people in" "People in this region always pay by card" = true ∧
  mentions "always" "People in this region always pay by card" = true ∧
  mentions "typical of" "Typical of the market" = true ∧
  (∃ report,
     rule_based_audit bundle_with_essentializing_microcopy false = Ok report ∧
     get report "audit_score" VNone = Ok (VInt 100) ∧
     get report "risk_flags" VNone = Ok (VList [])).
Proof.
  split; [by vm_compute|].
  split; [eexists; split_and!; by vm_compute|].
  split; [by vm_compute|]. split; [by vm_compute|]. split; [by vm_compute|].
  eexists. split_and!; by vm_compute.
Qed.

End AuditProperties.

(** ** The impact prediction *)

Section PredictionProperties.
Import ExperimentationAgent.

Lemma Z_upto_forallb (P : Z → bool) (n : nat) (lo : Z) :
  forallb P (Z_upto lo n) = true →
  ∀ s, lo ≤ s < lo + Z.of_nat n → P s = true.
Proof.
  revert lo. induction n as [|n IH]; intros lo Hall s Hs; simpl in *; [lia|].
  apply andb_prop in Hall as [Hlo Hrest].
  destruct (decide (s = lo)) as [->|Hne]; [done|].
  apply (IH (lo + 1)); [done | lia].
Qed.


(** The quotients [s / 100] of the scores 0 to 100 are floats. *)
Lemma div100_in_range (s : Z) : 0 ≤ s ≤ 100 → div100 (NInt s) = Ok (audit_fraction s).
Proof.
  intros Hs. unfold div100, int_truediv, audit_fraction.
  assert (H : negb (is_infinity (nearest_float s 100)) = true).
  { apply (Z_upto_forallb (λ s, negb (is_infinity (nearest_float s 100))) 101 0); [|lia].
    vm_compute; reflexivity. }
  apply negb_true_iff in H. by rewrite H.
Qed.



Lemma signals_state (placement prominence shipping_placement show_installments enabled : value)
    (express : bool) :
  (let st := module_signals placement prominence shipping_placement show_installments enabled in
   if express
   then apply_factor st "Checkout step reduction" (lift_factor "reduce_checkout_steps" 0.08)
   else st)
  = state_of (signals_of (eq_str placement "above_fold") (eq_str prominence "high")
                         (eq_str shipping_placement "above_fold") (truthy show_installments)
                         (truthy enabled) express).
Proof.
  unfold module_signals.
  destruct (eq_str placement "above_fold"), (eq_str prominence "high"),
    (eq_str shipping_placement "above_fold"), (truthy show_installments),
    (truthy enabled), express; vm_compute; reflexivity.
Qed.

Lemma fold_apply_factor (fired : list signal) (st : lift_state) :
  let st' := fold_left (λ st sg, apply_factor st (signal_rule sg) (signal_factor sg)) fired st in
  compound_factor st'
  = fold_left (λ c sg, c * (1 + signal_factor sg))%float fired (compound_factor st) ∧
  applied_factors st'
  = applied_factors st ++
    map (λ sg, (signal_rule sg, "+" +:+ format_1f (signal_factor sg * 100)%float +:+ "%")) fired.
Proof.
  revert st. induction fired as [|sg fired IH]; intros st; simpl.
  - by rewrite app_nil_r.
  - destruct (IH (apply_factor st (signal_rule sg) (signal_factor sg))) as [Hc Ha].
    split; [exact Hc|]. rewrite Ha. simpl. by rewrite <- app_assoc.
Qed.

Lemma has_express_checkout_spec (steps : list value) :
  forallb isinstance_dict steps = true →
  has_express_checkout steps
  = Ok (existsb (λ step, eq_str (field_of step "step_id" VNone) "express_checkout") steps).
Proof.
  induction steps as [|step steps IH]; intros Hok; simpl in *; [done|].
  apply andb_prop in Hok as [Hstep Hrest].
  destruct step as [| | | | | |d]; try discriminate. simpl. unfold entry.
  destruct (eq_str (default VNone (assoc_get d "step_id")) "express_checkout"); simpl;
    [done | by apply IH].
Qed.

(** On a bundle of the right shape and an audit score that can be divided
    by 100, the code returns the report of the fired signals. *)
Lemma calculate_heuristic_lift_returns (variant : value) (a : list (string * value))
    (score : num) (m : float) :
  prediction_ready variant = true →
  as_num (entry a "audit_score" (VInt 80)) = Ok score →
  div100 score = Ok m →
  calculate_heuristic_lift variant (VDict a)
  = Ok (heuristic_report 2.3 (state_of (fired_signals variant))
          (entry a "audit_score" (VInt 80)) score m).
Proof.
  intros Hready Hnum Hdiv.
  destruct variant as [| | | | | |d]; try discriminate.
  unfold prediction_ready in Hready. apply andb_prop in Hready as [Hmodules Hflow].
  unfold calculate_heuristic_lift, fired_signals, module_field. simpl.
  unfold entry in *.
  destruct (default (VDict []) (assoc_get d "modules")) as [| | | | | |m']; try discriminate.
  destruct (default (VList []) (assoc_get d "flow")) as [| | | | |steps|]; try discriminate.
  simpl in *. unfold entry in *.
  repeat (apply andb_prop in Hmodules as [? Hmodules]).
  destruct (default (VDict []) (assoc_get m' "reviews")) as [| | | | | |reviews];
    try discriminate.
  destruct (default (VDict []) (assoc_get m' "guarantees")) as [| | | | | |guarantees];
    try discriminate.
  destruct (default (VDict []) (assoc_get m' "shipping_info")) as [| | | | | |shipping];
    try discriminate.
  destruct (default (VDict []) (assoc_get m' "payment_options")) as [| | | | | |payment];
    try discriminate.
  destruct (default (VDict []) (assoc_get m' "social_proof")) as [| | | | | |social];
    try discriminate.
  simpl. rewrite has_express_checkout_spec by done. simpl.
  rewrite Hnum. simpl. rewrite Hdiv. simpl. unfold entry. rewrite signals_state. reflexivity.
Qed.

(** The same for an integer audit score from 0 to 100. *)
Lemma calculate_heuristic_lift_ready (variant : value) (a : list (string * value)) (s : Z) :
  prediction_ready variant = true →
  entry a "audit_score" (VInt 80) = VInt s →
  0 ≤ s ≤ 100 →
  calculate_heuristic_lift variant (VDict a)
  = Ok (heuristic_report 2.3 (state_of (fired_signals variant)) (VInt s) (NInt s)
          (audit_fraction s)).
Proof.
  intros Hready Hs Hrange.
  rewrite (calculate_heuristic_lift_returns variant a (NInt s) (audit_fraction s));
    [by rewrite Hs | done | by rewrite Hs | by apply div100_in_range].
Qed.

Lemma fired_signals_of (variant : value) :
  ∃ b1 b2 b3 b4 b5 b6, fired_signals variant = signals_of b1 b2 b3 b4 b5 b6.
Proof. unfold fired_signals. by eexists _, _, _, _, _, _. Qed.

Lemma state_of_spec (fired : list signal) :
  compound_factor (state_of fired) = compound fired ∧
  map (λ f, VDict [("rule", VStr f.1); ("lift", VStr f.2)]) (applied_factors (state_of fired))
  = factor_entry <$> fired.
Proof.
  destruct (fold_apply_factor fired {| compound_factor := 1.0; applied_factors := [] |})
    as [Hc Ha].
  split; [exact Hc|]. unfold state_of. rewrite Ha. simpl. by rewrite map_map.
Qed.

Lemma report_applied_factors (baseline : float) (fired : list signal)
    (audit_score : value) (score : num) (fraction : float) :
  get (heuristic_report baseline (state_of fired) audit_score score fraction)
      "applied_factors" VNone
  = Ok (VList (factor_entry <$> fired)).
Proof.
  destruct (state_of_spec fired) as [_ Ha].
  unfold heuristic_report, get. simpl. by rewrite Ha.
Qed.

(** The baseline of every report is 2.3. *)
Lemma heuristic_baseline_constant (variant audit_result report : value) :
  calculate_heuristic_lift variant audit_result = Ok report →
  get report "baseline" VNone = Ok (VFloat 2.3).
Proof.
  unfold calculate_heuristic_lift. intros H.
  repeat match type of H with
  | (?m ≫= _) = Ok _ => destruct m; simpl in H; [|discriminate]
  end.
  by injection H as <-.
Qed.




(** C9 fails on the code: the baseline of the prediction is the constant 2.3
    for the bundle of every category, and the table of per-category rates
    is never consulted.  Here the bundles of a fashion and of an electronics
    storefront get 2.3, where the table has 2.8 and 2.1. *)
Theorem baseline_ignores_product_category :
  baseline_rate "fashion" = Some 2.8%float ∧
  baseline_rate "electronics" = Some 2.1%float ∧
  (bundle ← fallback_bundle guatemala_dimensions (sample_base_spec "fashion");
   report ← calculate_heuristic_lift bundle (audit_with_score 100);
   get report "baseline" VNone) = Ok (VFloat 2.3) ∧
  (bundle ← fallback_bundle guatemala_dimensions (sample_base_spec "electronics");
   report ← calculate_heuristic_lift bundle (audit_with_score 100);
   get report "baseline" VNone) = Ok (VFloat 2.3).
Proof. split_and!; by vm_compute. Qed.

End PredictionProperties.

(** ** The UX fallback under low friction tolerance *)

Section StreamlineProperties.
Import UXAdaptationAgent ExperimentationAgent AgentOrchestrator.

Lemma subscript_step_id (d : list (string * value)) :
  has_key d "step_id" = true →
  subscript (VDict d) "step_id" = Ok (entry d "step_id" VNone).
Proof.
  unfold has_key, subscript, entry. by destruct (assoc_get d "step_id").
Qed.

Lemma streamline_loop (dimensions : gmap string num) (steps flow : list value) :
  forallb has_step_id steps = true →
  for_each steps (streamline_step dimensions) flow
  = Ok (flow ++ merged_flow dimensions steps).
Proof.
  revert flow. induction steps as [|step steps IH]; intros flow Hok; simpl in *.
  - by rewrite app_nil_r.
  - apply andb_prop in Hok as [Hstep Hrest].
    destruct step as [| | | | | |d]; try discriminate.
    unfold streamline_step. rewrite subscript_step_id by done. simpl.
    unfold step_is. simpl.
    destruct (eq_str (entry d "step_id" VNone) "shipping"); simpl.
    + rewrite IH by done. by rewrite <- app_assoc.
    + destruct (eq_str (entry d "step_id" VNone) "payment"); simpl.
      * by rewrite IH.
      * rewrite IH by done. by rewrite <- app_assoc.
Qed.

Lemma merged_flow_dicts (dimensions : gmap string num) (steps : list value) :
  forallb has_step_id steps = true →
  forallb isinstance_dict (merged_flow dimensions steps) = true.
Proof.
  induction steps as [|step steps IH]; intros Hok; simpl in *; [done|].
  apply andb_prop in Hok as [Hstep Hrest].
  rewrite forallb_app, IH by done. rewrite andb_true_r.
  destruct step as [| | | | | |d]; try discriminate.
  by destruct (step_is "shipping" (VDict d)), (step_is "payment" (VDict d)).
Qed.

Lemma merged_flow_has_express (dimensions : gmap string num) (steps : list value) :
  existsb (step_is "shipping") steps = true →
  express_checkout dimensions ∈ merged_flow dimensions steps ∧
  existsb (step_is "express_checkout") (merged_flow dimensions steps) = true.
Proof.
  induction steps as [|step steps IH]; intros Hex; simpl in *; [discriminate|].
  rewrite existsb_app, elem_of_app.
  destruct (step_is "shipping" step) eqn:Hship; simpl in *.
  - split; [left; by left | done].
  - destruct (IH Hex) as [Hin Hfound]. split; [by right|].
    rewrite Hfound. apply orb_true_r.
Qed.

(** C8, as amended: for every profile with friction_tolerance at most 40
    and every baseline flow of steps with ids that has a step with the id
    ["shipping"], the UX fallback returns the merged flow: the combined
    express-checkout step in the place of each shipping step, no payment
    step, the other steps unchanged; the adaptation of the combined step has
    the driver ["friction_tolerance=<value>"], which is
    ["friction_tolerance=35"] for the value 35; and on the bundle assembled
    from this output, for every audit result whose score is a number that
    can be divided by 100, the prediction fallback fires the
    checkout-reduction signal, with the factor 0.08, listed as ["+8.0%"]. *)
Theorem low_friction_merges_shipping_and_payment
    (dimensions : gmap string num) (rules : list CulturalDataLoader.rule)
    (b : list (string * value)) (steps : list value) (price_band : string)
    (variant_id country_code : string) (copy_variants cultural_profile : value)
    (a : list (string * value)) (score : num) (m : float) :
  num_le (dim dimensions "friction_tolerance") (NInt 40) = true →
  entry b "baseline_flow" (VList []) = VList steps →
  forallb has_step_id steps = true →
  existsb (step_is "shipping") steps = true →
  as_num (entry a "audit_score" (VInt 80)) = Ok score →
  div100 score = Ok m →
  ∃ ux bundle report,
    rule_based_adaptation dimensions rules (VDict b) price_band = Ok ux ∧
    get ux "flow" VNone = Ok (VList (merged_flow dimensions steps)) ∧
    express_checkout dimensions ∈ merged_flow dimensions steps ∧
    drivers_of (express_checkout dimensions)
    = [VStr ("friction_tolerance=" +:+ py_str (value_of_num (dim dimensions "friction_tolerance")))] ∧
    (dimensions !! "friction_tolerance" = Some (NInt 35) →
     drivers_of (express_checkout dimensions) = [VStr "friction_tolerance=35"]) ∧
    partial_variant variant_id country_code ux copy_variants cultural_profile = Ok bundle ∧
    calculate_heuristic_lift bundle (VDict a) = Ok report ∧
    get report "applied_factors" VNone = Ok (VList (factor_entry <$> fired_signals bundle)) ∧
    CheckoutReduction ∈ fired_signals bundle ∧
    signal_factor CheckoutReduction = 0.08%float ∧
    factor_entry CheckoutReduction
    = VDict [("rule", VStr "Checkout step reduction"); ("lift", VStr "+8.0%")].
Proof.
  intros Hlow Hflow Hsteps Hship Hnum Hdiv.
  destruct (merged_flow_has_express dimensions steps Hship) as [Hin Hfound].
  pose proof (merged_flow_dicts dimensions steps Hsteps) as Hdicts.
  unfold rule_based_adaptation. simpl. unfold entry in Hflow. rewrite Hflow. simpl.
  rewrite Hlow. rewrite streamline_loop by done. simpl.
  eexists _, _, _. split; [reflexivity|].
  split; [reflexivity|]. split; [exact Hin|]. split; [reflexivity|].
  split.
  { intros H35. unfold drivers_of, express_checkout, dim, fmt. rewrite H35. reflexivity. }
  split; [reflexivity|].
  set (bundle := VDict _).
  assert (Hready : prediction_ready bundle = true).
  { unfold prediction_ready, bundle, entry. simpl. by rewrite Hdicts. }
  split; [by apply (calculate_heuristic_lift_returns bundle a score m)|].
  split; [apply report_applied_factors|].
  split; [|split; reflexivity].
  unfold fired_signals, signals_of.
  replace (existsb _ (list_items (field_of bundle "flow" (VList [])))) with true.
  { rewrite !elem_of_app. do 5 right. by left. }
Qed.

(** Guatemala's dimensions (friction_tolerance 35) on the sample baseline. *)
Lemma low_friction_merges_shipping_and_payment_witness :
  let dimensions := guatemala_dimensions in
  let b := dict_items (sample_base_spec "fashion") in
  let steps := list_items (entry b "baseline_flow" (VList [])) in
  let a := dict_items (audit_with_score 100) in
  num_le (dim dimensions "friction_tolerance") (NInt 40) = true ∧
  entry b "baseline_flow" (VList []) = VList steps ∧
  forallb has_step_id steps = true ∧
  existsb (step_is "shipping") steps = true ∧
  as_num (entry a "audit_score" (VInt 80)) = Ok (NInt 100) ∧
  div100 (NInt 100) = Ok 1%float ∧
  ∃ ux bundle report,
    rule_based_adaptation dimensions [] (VDict b) "mid" = Ok ux ∧
    get ux "flow" VNone = Ok (VList (merged_flow dimensions steps)) ∧
    express_checkout dimensions ∈ merged_flow dimensions steps ∧
    drivers_of (express_checkout dimensions)
    = [VStr ("friction_tolerance=" +:+ py_str (value_of_num (dim dimensions "friction_tolerance")))] ∧
    (dimensions !! "friction_tolerance" = Some (NInt 35) →
     drivers_of (express_checkout dimensions) = [VStr "friction_tolerance=35"]) ∧
    partial_variant "var_0123456789ab" "GT" ux (VDict []) (VDict []) = Ok bundle ∧
    calculate_heuristic_lift bundle (VDict a) = Ok report ∧
    get report "applied_factors" VNone = Ok (VList (factor_entry <$> fired_signals bundle)) ∧
    CheckoutReduction ∈ fired_signals bundle ∧
    signal_factor CheckoutReduction = 0.08%float ∧
    factor_entry CheckoutReduction
    = VDict [("rule", VStr "Checkout step reduction"); ("lift", VStr "+8.0%")].
Proof.
  cbv zeta.
  split; [vm_compute; reflexivity|]. split; [vm_compute; reflexivity|].
  split; [vm_compute; reflexivity|]. split; [vm_compute; reflexivity|].
  split; [vm_compute; reflexivity|]. split; [vm_compute; reflexivity|].
  apply (low_friction_merges_shipping_and_payment guatemala_dimensions []
           (dict_items (sample_base_spec "fashion"))
           (list_items (entry (dict_items (sample_base_spec "fashion")) "baseline_flow" (VList [])))
           "mid" "var_0123456789ab" "GT" (VDict []) (VDict [])
           (dict_items (audit_with_score 100)) (NInt 100) 1%float);
    vm_compute; reflexivity.
Defined.

(** C8 as stated fails on the default base spec, whose flow has a single
    checkout step and neither a shipping nor a payment step: with
    friction_tolerance 35 the flow comes back step for step, no adaptation
    cites the friction value, and the prediction does not fire the
    checkout-reduction signal. *)
Lemma default_flow_is_not_merged :
  guatemala_dimensions !! "friction_tolerance" = Some (NInt 35) ∧
  (ux ← rule_based_adaptation guatemala_dimensions [] default_base_spec "mid";
   flow ← get ux "flow" VNone;
   Ok ((λ step, field_of step "step_id" VNone) <$> list_items flow,
       existsb (step_is "express_checkout") (list_items flow),
       flat_map drivers_of (list_items flow)))
  = Ok ([VStr "browse"; VStr "detail"; VStr "cart"; VStr "checkout"; VStr "confirm"],
        false, []) ∧
  (bundle ← fallback_bundle guatemala_dimensions default_base_spec;
   Ok (fired_signals bundle))
  = Ok [SocialProofEmphasis; EnhancedGuarantees; InstallmentFraming] ∧
  (bundle ← fallback_bundle guatemala_dimensions default_base_spec;
   report ← calculate_heuristic_lift bundle (audit_with_score 100);
   get report "applied_factors" VNone)
  = Ok (VList [VDict [("rule", VStr "Social proof emphasis"); ("lift", VStr "+6.0%")];
               VDict [("rule", VStr "Enhanced guarantees"); ("lift", VStr "+4.0%")];
               VDict [("rule", VStr "Value/installment framing"); ("lift", VStr "+5.0%")]]).
Proof. split_and!; vm_compute; reflexivity. Qed.

End StreamlineProperties.

(** ** The gateway *)

Section GatewayProperties.
Import LLMClient.

(** Without a client every stage that tests the ["fallback"] flag takes its
    rule-based path. *)
Lemma audit_not_configured (variant : value) (strict_mode : bool) :
  ComplianceAuditorAgent.audit None variant strict_mode
  = ComplianceAuditorAgent.rule_based_audit variant strict_mode.
Proof.
  unfold ComplianceAuditorAgent.audit. destruct variant; try reflexivity. simpl.
  destruct (ComplianceAuditorAgent.rule_based_audit (VDict d) strict_mode) as [report|e] eqn:E;
    [|reflexivity].
  simpl. unfold ComplianceAuditorAgent.rule_based_audit in E.
  repeat match type of E with
  | (?m ≫= _) = Ok _ => destruct m; simpl in E; [|discriminate]
  end.
  by injection E as <-.
Qed.

Lemma adapt_not_configured (data : CulturalDataLoader.t) (dimensions : gmap string num)
    (base_spec : option value) (price_band audience : string) :
  UXAdaptationAgent.adapt data None dimensions base_spec price_band audience
  = (rules ← CulturalDataLoader.get_applicable_rules data dimensions;
     UXAdaptationAgent.rule_based_adaptation dimensions rules
       (match base_spec with
        | Some b => if truthy b then b else UXAdaptationAgent.default_base_spec
        | None => UXAdaptationAgent.default_base_spec
        end) price_band).
Proof.
  unfold UXAdaptationAgent.adapt.
  destruct (CulturalDataLoader.get_applicable_rules data dimensions) as [rules|e];
    [|reflexivity].
  simpl.
  set (base := match base_spec with
               | Some b => if truthy b then b else UXAdaptationAgent.default_base_spec
               | None => UXAdaptationAgent.default_base_spec
               end).
  destruct base as [| | | | | |b]; try reflexivity. simpl.
  destruct (UXAdaptationAgent.rule_based_adaptation dimensions rules (VDict b) price_band)
    as [result|e] eqn:E; [|reflexivity].
  simpl. unfold UXAdaptationAgent.rule_based_adaptation in E.
  repeat match type of E with
  | (?m ≫= _) = Ok _ => destruct m; simpl in E; [|discriminate]
  end.
  by injection E as <-.
Qed.

Lemma generate_not_configured (dimensions : gmap string num) (ux_adaptations : value)
    (base_spec : option value) (base_copy : value) :
  isinstance_dict ux_adaptations = true →
  get (match base_spec with
       | Some b => if truthy b then b else VDict []
       | None => VDict []
       end) "baseline_copy" (VDict []) = Ok base_copy →
  isinstance_dict base_copy = true →
  CopyFramingAgent.generate None dimensions ux_adaptations base_spec
  = CopyFramingAgent.rule_based_copy dimensions base_copy.
Proof.
  intros Hux Hbase Hcopy. unfold CopyFramingAgent.generate. rewrite Hbase. simpl.
  destruct ux_adaptations; try discriminate. destruct base_copy; try discriminate.
  reflexivity.
Qed.

(** With a client whose reply is not JSON, the audit returns the error dict
    of the gateway as its result, whatever the bundle. *)
Lemma audit_returns_error_dict (msg : string) (d : list (string * value)) (strict_mode : bool) :
  ComplianceAuditorAgent.audit (Some (JsonDecodeError msg)) (VDict d) strict_mode
  = Ok (VDict [("error", VStr msg); ("rationale", VStr "Failed to parse LLM response as JSON")]).
Proof. reflexivity. Qed.

(** The prediction also asks for the key it needs, and so falls back on
    every reply that is not parsed JSON. *)
Lemma predict_falls_back (llm : LLMClient.t) (variant audit_result : value) :
  gateway_unavailable llm = true →
  is_ok (ExperimentationAgent.predict llm variant audit_result) →
  ExperimentationAgent.predict llm variant audit_result
  = ExperimentationAgent.calculate_heuristic_lift variant audit_result.
Proof.
  intros Hllm [report Hok]. unfold ExperimentationAgent.predict in *.
  destruct (ExperimentationAgent.calculate_heuristic_lift variant audit_result)
    as [heuristic|e]; [|done].
  destruct llm as [[]|]; try discriminate; simpl in *;
    repeat match type of Hok with
    | (?m ≫= _) = Ok _ => destruct m; simpl in Hok |- *; [|discriminate]
    end; reflexivity.
Qed.

(** C4 fails on the code for a malformed reply.  The gateway marks only the
    missing configuration with ["fallback": True]; for a reply that is not
    JSON (and likewise an empty reply or a failed call) it returns an error
    dict without that flag, and the UX, copy and audit stages, which test
    only the flag, return this error dict as their output instead of their
    rule-based fallback.  The prediction stage and the unconfigured gateway
    behave as the claim says. *)
Theorem malformed_reply_is_returned_as_stage_output :
  generate_structured decode_error = error_reply ∧
  UXAdaptationAgent.adapt sample_data decode_error guatemala_dimensions None "mid" "family"
  = Ok error_reply ∧
  CopyFramingAgent.generate decode_error guatemala_dimensions (VDict []) None
  = Ok error_reply ∧
  ComplianceAuditorAgent.audit decode_error flawed_bundle false = Ok error_reply ∧
  ExperimentationAgent.predict decode_error guarantees_bundle (audit_with_score 100)
  = ExperimentationAgent.calculate_heuristic_lift guarantees_bundle (audit_with_score 100) ∧
  UXAdaptationAgent.adapt sample_data not_configured guatemala_dimensions None "mid" "family"
  = (rules ← CulturalDataLoader.get_applicable_rules sample_data guatemala_dimensions;
     UXAdaptationAgent.rule_based_adaptation guatemala_dimensions rules
       UXAdaptationAgent.default_base_spec "mid") ∧
  CopyFramingAgent.generate not_configured guatemala_dimensions (VDict []) None
  = CopyFramingAgent.rule_based_copy guatemala_dimensions (VDict []) ∧
  ComplianceAuditorAgent.audit not_configured flawed_bundle false
  = ComplianceAuditorAgent.rule_based_audit flawed_bundle false ∧
  ComplianceAuditorAgent.rule_based_audit flawed_bundle false ≠ Ok error_reply.
Proof.
  split_and!; try (vm_compute; reflexivity).
  vm_compute. discriminate.
Qed.

End GatewayProperties.

(** ** The variant store: deleting and listing *)

Section StoreLifecycle.
Import VariantStore.

(** X1: [delete] answers whether the id was stored; after it [get] finds
    nothing under the id, every other id keeps its variant, and [list_all]
    lists the ids it listed before, in their order, without that id. *)
Theorem delete_removes_the_variant (self : t) (variant_id : string) :
  (delete self variant_id).2 = bool_decide (is_Some (get self variant_id)) ∧
  get (delete self variant_id).1 variant_id = None ∧
  (∀ id, id ≠ variant_id → get (delete self variant_id).1 id = get self id) ∧
  list_all (delete self variant_id).1 = filter (λ id, id ≠ variant_id) (list_all self).
Proof.
  unfold delete, get, list_all, has_key.
  destruct (assoc_get (_store self) variant_id) as [v|] eqn:Hv; simpl.
  - split_and!.
    + done.
    + apply assoc_get_dict_del_eq.
    + intros id Hne. by apply assoc_get_dict_del_ne.
    + apply keys_dict_del.
  - split_and!; [done..|].
    rewrite <- keys_dict_del. by rewrite dict_del_absent.
Qed.

(** X2: storing a variant under an id the store does not have and deleting
    that id again gives back the store as it was, and [delete] answers
    [True]. *)
Theorem store_then_delete_restores (self : t) (variant_id : string) (variant : value) :
  get self variant_id = None →
  delete (store self variant_id variant) variant_id = (self, true).
Proof.
  intros Hnone. unfold delete, store, get, has_key in *. simpl.
  rewrite assoc_get_dict_set_eq, dict_del_set by done. by destruct self.
Qed.

(** A fresh store and one variant. *)
Lemma store_then_delete_restores_witness :
  get init "var_0123456789ab" = None ∧
  delete (store init "var_0123456789ab" (VDict [])) "var_0123456789ab" = (init, true).
Proof.
  split; [reflexivity|].
  apply (store_then_delete_restores init "var_0123456789ab" (VDict [])). reflexivity.
Defined.

Lemma list_all_store (self : t) (variant_id : string) (variant : value) :
  list_all (store self variant_id variant)
  = if bool_decide (variant_id ∈ list_all self) then list_all self
    else list_all self ++ [variant_id].
Proof. unfold list_all, store. simpl. apply keys_dict_set. Qed.

Lemma list_all_store_all (self : t) (calls : list (string * value)) :
  list_all (store_all self calls)
  = fold_left (λ ids c, if bool_decide (c.1 ∈ ids) then ids else ids ++ [c.1])
              calls (list_all self).
Proof.
  revert self. induction calls as [|c calls IH]; intros self; [done|].
  unfold store_all in *. simpl. by rewrite IH, list_all_store.
Qed.

Lemma first_seen_spec (calls : list (string * value)) (ids : list string) :
  let ids' := fold_left (λ ids c, if bool_decide (c.1 ∈ ids) then ids else ids ++ [c.1])
                        calls ids in
  NoDup ids → NoDup ids' ∧ ∀ id, id ∈ ids' ↔ id ∈ ids ∨ id ∈ calls.*1.
Proof.
  revert ids. induction calls as [|c calls IH]; intros ids; simpl; intros Hnd.
  - split; [done|]. intros id. rewrite elem_of_nil. tauto.
  - case_bool_decide as Hin.
    + destruct (IH ids Hnd) as [Hnd' Hmem]. split; [done|].
      intros id. rewrite Hmem, elem_of_cons. split; [tauto|].
      intros [?|[->|?]]; tauto.
    + assert (Hnd1 : NoDup (ids ++ [c.1])).
      { apply NoDup_app. split_and!; [done | | apply NoDup_singleton].
        intros x Hx ->%list_elem_of_singleton. done. }
      destruct (IH _ Hnd1) as [Hnd' Hmem]. split; [done|].
      intros id. rewrite Hmem, elem_of_app, list_elem_of_singleton, elem_of_cons. tauto.
Qed.

(** X3: after any run of [store] calls on a fresh store, [list_all] lists
    the ids in the order in which each was first stored; no id is listed
    twice, and the ids listed are exactly the ids of the calls. *)
Theorem list_all_after_stores (calls : list (string * value)) :
  list_all (store_all init calls) = first_stored calls ∧
  NoDup (list_all (store_all init calls)) ∧
  (∀ id, id ∈ list_all (store_all init calls) ↔ id ∈ calls.*1).
Proof.
  rewrite list_all_store_all. change (list_all init) with (@nil string).
  destruct (first_seen_spec calls [] (NoDup_nil_2 (A := string))) as [Hnd Hmem].
  split_and!; [done | done |].
  intros id. rewrite Hmem, elem_of_nil. tauto.
Qed.

End StoreLifecycle.

(** ** The loader: the returned prior, the country codes, the data file *)

Section ReturnedPrior.
Import CulturalDataLoader CulturalIntelligenceAgent UXAdaptationAgent.

(** X4: for a country with a stored prior, [get_cultural_prior_with_overrides]
    returns a dict with the country code asked for, the stored name (the
    code itself when the entry has no name) and the stored evidence; its
    dimensions have the keys of the stored ones, and every dimension that is
    no key of the overrides has its stored value; the notes are the stored
    notes, followed by the override note exactly when the override map is
    not empty, whether or not any override names a dimension. *)
Theorem returned_prior_spec (self : t) (country_code : string)
    (overrides : gmap string num) (p : prior) :
  cultural_priors self !! country_code = Some p →
  ∃ view d,
    (get_cultural_prior_with_overrides self country_code overrides).2 = Some view ∧
    deref (get_cultural_prior_with_overrides self country_code overrides).1 (pv_dimensions view)
    = Some d ∧
    dom d = dom (dimensions p) ∧
    (∀ k, overrides !! k = None → d !! k = dimensions p !! k) ∧
    pv_country_code view = country_code ∧
    pv_country_name view = default country_code (country_name p) ∧
    pv_evidence view = evidence p ∧
    pv_notes view = (if decide (overrides = ∅) then notes p else notes p +:+ override_note).
Proof.
  intros Hp. unfold get_cultural_prior_with_overrides, get_cultural_prior. rewrite Hp.
  case_decide as Hempty; simpl.
  - exists {| pv_country_code := country_code;
              pv_country_name := default country_code (country_name p);
              pv_dimensions := Stored country_code;
              pv_evidence := evidence p;
              pv_notes := notes p |}, (dimensions p).
    simpl. rewrite Hp. by split_and!.
  - exists {| pv_country_code := country_code;
              pv_country_name := default country_code (country_name p);
              pv_dimensions := Stored country_code;
              pv_evidence := evidence p;
              pv_notes := notes p +:+ override_note |},
           (apply_overrides (dimensions p) overrides).
    simpl. rewrite lookup_alter_eq, Hp. simpl.
    split_and!; try done.
    + apply apply_overrides_dom.
    + intros k Hk. rewrite apply_overrides_lookup, Hk. by destruct (dimensions p !! k).
Qed.

(** The sample loader, JP, an override of one dimension and of an unknown
    key. *)
Lemma returned_prior_spec_witness :
  cultural_priors sample_data !! "JP" = Some japan_prior ∧
  ∃ view d,
    (get_cultural_prior_with_overrides sample_data "JP" sample_overrides).2 = Some view ∧
    deref (get_cultural_prior_with_overrides sample_data "JP" sample_overrides).1 (pv_dimensions view)
    = Some d ∧
    dom d = dom (dimensions japan_prior) ∧
    (∀ k, sample_overrides !! k = None → d !! k = dimensions japan_prior !! k) ∧
    pv_country_code view = "JP" ∧
    pv_country_name view = default "JP" (country_name japan_prior) ∧
    pv_evidence view = evidence japan_prior ∧
    pv_notes view
    = (if decide (sample_overrides = ∅) then notes japan_prior else notes japan_prior +:+ override_note).
Proof.
  split; [reflexivity|].
  apply (returned_prior_spec sample_data "JP" sample_overrides japan_prior). reflexivity.
Defined.

Lemma apply_overrides_idemp (dims overrides : gmap string num) :
  apply_overrides (apply_overrides dims overrides) overrides = apply_overrides dims overrides.
Proof.
  apply map_eq. intros k. rewrite !apply_overrides_lookup.
  destruct (dims !! k) as [x|]; [|done]. by destruct (overrides !! k).
Qed.

(** X7: a second call with the same country and the same overrides returns
    what the first call returned and leaves the loader as the first call
    left it. *)
Theorem overrides_idempotent (self : t) (country_code : string) (overrides : gmap string num) :
  get_cultural_prior_with_overrides
    (get_cultural_prior_with_overrides self country_code overrides).1 country_code overrides
  = get_cultural_prior_with_overrides self country_code overrides.
Proof.
  unfold get_cultural_prior_with_overrides, get_cultural_prior.
  destruct (cultural_priors self !! country_code) as [p|] eqn:Hp; simpl; [|by rewrite Hp].
  case_decide as Hempty; simpl.
  - by rewrite Hp.
  - rewrite lookup_alter_eq, Hp. simpl.
    f_equal. unfold write_dims. simpl. f_equal.
    apply map_eq. intros c. destruct (decide (country_code = c)) as [->|Hne].
    + rewrite !lookup_alter_eq, Hp. simpl. by rewrite apply_overrides_idemp.
    + by rewrite !lookup_alter_ne.
Qed.

(** X10: when the data file does not exist, the loader serves nothing and
    nothing fails: [analyze] returns the neutral profile for every country,
    overrides and gateway, no rule applies to any profile, no category has a
    baseline, there is no country code, and the UX stage, without a gateway,
    adapts the default flow of five steps under the theme ["balanced"]. *)
Theorem missing_data_file_serves_defaults (llm : LLMClient.t)
    (country_code product_category price_band audience : string)
    (overrides : option (gmap string num)) (dimensions : gmap string num) :
  analyze (load None) llm country_code product_category overrides
  = (load None, Ok (default_profile country_code)) ∧
  get_applicable_rules (load None) dimensions = Ok [] ∧
  get_product_baseline (load None) product_category = None ∧
  get_all_country_codes (load None) = ∅ ∧
  (ux ← adapt (load None) None neutral_dimensions
          (get_product_baseline (load None) product_category) price_band audience;
   theme ← get ux "theme_emphasis" VNone;
   flow ← get ux "flow" VNone;
   Ok (theme, (λ step, field_of step "step_id" VNone) <$> list_items flow))
  = Ok (VStr "balanced",
        [VStr "browse"; VStr "detail"; VStr "cart"; VStr "checkout"; VStr "confirm"]).
Proof. split_and!; reflexivity. Qed.

End ReturnedPrior.

Section UnreadableRules.
Import CulturalDataLoader.

Lemma applicable_step_unreadable (dimensions : gmap string num) (applicable : list rule) (r : rule) :
  threshold_readable dimensions r = false →
  applicable_step dimensions applicable r
  = Raise (ValueError "could not convert string to float").
Proof.
  unfold applicable_step, threshold_readable, parse_condition, to_float.
  destruct (dimensions !! dimension r) as [value|]; [|done].
  repeat match goal with
  | |- context [if String.prefix ?p (condition r) then _ else _] =>
      destruct (String.prefix p (condition r))
  end; try done;
  match goal with
  | |- context [py_float ?text] => destruct (py_float text); [discriminate | done]
  end.
Qed.

(** X9: when some rule names a dimension of the profile and has a
    comparator followed by a text that [float] does not read,
    [get_applicable_rules] raises [ValueError], whatever the other rules
    are. *)
Theorem unreadable_threshold_raises (self : t) (dimensions : gmap string num) :
  forallb (threshold_readable dimensions) (rules self) = false →
  get_applicable_rules self dimensions
  = Raise (ValueError "could not convert string to float").
Proof.
  unfold get_applicable_rules, get_mapping_rules.
  generalize (@nil rule). induction (rules self) as [|r rs IH]; intros applicable Hbad; simpl in *.
  - discriminate.
  - destruct (threshold_readable dimensions r) eqn:Hr; simpl in Hbad.
    + rewrite applicable_step_spec by done. simpl. by apply IH.
    + by rewrite applicable_step_unreadable.
Qed.

(** A table whose second rule has the condition [">= high"]. *)
Lemma unreadable_threshold_raises_witness :
  forallb (threshold_readable guatemala_dimensions)
          (rules {| cultural_priors := ∅; product_baselines := ∅; rules := unreadable_rules |})
  = false ∧
  get_applicable_rules {| cultural_priors := ∅; product_baselines := ∅; rules := unreadable_rules |}
                       guatemala_dimensions
  = Raise (ValueError "could not convert string to float").
Proof.
  split; [vm_compute; reflexivity|].
  apply (unreadable_threshold_raises
           {| cultural_priors := ∅; product_baselines := ∅; rules := unreadable_rules |}
           guatemala_dimensions).
  vm_compute; reflexivity.
Defined.

End UnreadableRules.

(** ** The request: overrides and variant ids *)

Section RequestProperties.
Import Models AgentOrchestrator.

Lemma overrides_in_range_intro (overrides : gmap string num) :
  (∀ k v, overrides !! k = Some v → in_range v = true) →
  overrides_in_range (Some overrides) = true.
Proof.
  intros H. unfold overrides_in_range. apply forallb_forall. intros [k v] Hin.
  apply (H k v). apply elem_of_map_to_list. by apply list_elem_of_In.
Qed.

Lemma overrides_of_lookup_gen (g : string * option float → option (string * num))
    (l : list (string * option float)) (k : string) :
  (∀ k v, g (k, Some v) = Some (k, NFloat v)) →
  (∀ k, g (k, None) = None) →
  NoDup l.*1 →
  (list_to_map (omap g l) : gmap string num) !! k
  = NFloat <$> mjoin ((list_to_map l : gmap string (option float)) !! k).
Proof.
  intros Hsome Hnone.
  induction l as [|[k' o] l IH]; intros Hnd.
  - simpl. by rewrite !lookup_empty.
  - apply NoDup_cons in Hnd as [Hk' Hnd]. specialize (IH Hnd).
    cbn [omap list_omap list_to_map foldr]. destruct o as [v|].
    + rewrite Hsome. cbn [list_to_map foldr curry fst snd uncurry].
      destruct (decide (k' = k)) as [->|Hne].
      * by rewrite !lookup_insert_eq.
      * by rewrite !lookup_insert_ne.
    + rewrite Hnone. cbn [curry fst snd uncurry].
      destruct (decide (k' = k)) as [->|Hne].
      * rewrite IH, lookup_insert_eq. simpl.
        by rewrite (not_elem_of_list_to_map_1 _ _ Hk').
      * by rewrite lookup_insert_ne.
Qed.

Lemma model_dump_keys (od : OverrideDimensions) :
  (model_dump od).*1
  = ["uncertainty_avoidance"; "collectivism"; "authority_distance";
     "context_level"; "price_sensitivity"; "trust_need"; "friction_tolerance"].
Proof. reflexivity. Qed.

Lemma overrides_of_lookup (od : OverrideDimensions) (k : string) :
  overrides_of (Some od) !! k
  = NFloat <$> mjoin ((list_to_map (model_dump od) : gmap string (option float)) !! k).
Proof.
  apply overrides_of_lookup_gen; [done..|]. rewrite model_dump_keys.
  apply (bool_decide_unpack _). by vm_compute.
Qed.

(** X11: the override map the pipeline makes of a validated
    [OverrideDimensions] has, under each of the seven dimension names, the
    value of the field when the field is set (also when it is 0) and
    nothing when it is not; it has no other key; its values lie in [0,100];
    and an object with no field set gives the same map as no object. *)
Theorem overrides_from_the_request (od : OverrideDimensions) :
  valid od = true →
  overrides_of (Some od) !! "uncertainty_avoidance" = NFloat <$> uncertainty_avoidance od ∧
  overrides_of (Some od) !! "collectivism" = NFloat <$> collectivism od ∧
  overrides_of (Some od) !! "authority_distance" = NFloat <$> authority_distance od ∧
  overrides_of (Some od) !! "context_level" = NFloat <$> context_level od ∧
  overrides_of (Some od) !! "price_sensitivity" = NFloat <$> price_sensitivity od ∧
  overrides_of (Some od) !! "trust_need" = NFloat <$> trust_need od ∧
  overrides_of (Some od) !! "friction_tolerance" = NFloat <$> friction_tolerance od ∧
  (∀ k, k ∉ dimension_names → overrides_of (Some od) !! k = None) ∧
  overrides_in_range (Some (overrides_of (Some od))) = true ∧
  overrides_of (Some no_overrides) = overrides_of None.
Proof.
  intros Hvalid.
  assert (Hother : ∀ k, k ∉ dimension_names → overrides_of (Some od) !! k = None).
  { intros k Hk. rewrite overrides_of_lookup.
    rewrite (not_elem_of_list_to_map_1 (model_dump od) k); [done|].
    rewrite model_dump_keys. intros Hin. apply Hk. unfold dimension_names.
    by apply elem_of_list_to_set. }
  split_and!; try (rewrite overrides_of_lookup; reflexivity); try done.
  apply overrides_in_range_intro. intros k v Hkv.
  destruct (decide (k ∈ dimension_names)) as [Hk|Hk]; [|by rewrite Hother in Hkv].
  unfold valid in Hvalid. simpl in Hvalid.
  repeat (apply andb_prop in Hvalid as [? Hvalid]).
  unfold dimension_names in Hk. apply elem_of_list_to_set in Hk.
  rewrite overrides_of_lookup in Hkv.
  rewrite !elem_of_cons, elem_of_nil in Hk.
  destruct Hk as [->|[->|[->|[->|[->|[->|[->|[]]]]]]]];
    match type of Hkv with
    | NFloat <$> mjoin (_ !! ?key) = _ =>
        match goal with
        | Hf : field_valid ?o = true |- _ =>
            change (NFloat <$> o = Some v) in Hkv;
            destruct o as [f|]; [injection Hkv as <-; exact Hf | discriminate]
        end
    end.
Qed.

(** An override of collectivism to 30 and of trust_need to 0. *)
Lemma overrides_from_the_request_witness :
  valid zero_trust_override = true ∧
  overrides_of (Some zero_trust_override) !! "uncertainty_avoidance"
  = NFloat <$> uncertainty_avoidance zero_trust_override ∧
  overrides_of (Some zero_trust_override) !! "collectivism"
  = NFloat <$> collectivism zero_trust_override ∧
  overrides_of (Some zero_trust_override) !! "authority_distance"
  = NFloat <$> authority_distance zero_trust_override ∧
  overrides_of (Some zero_trust_override) !! "context_level"
  = NFloat <$> context_level zero_trust_override ∧
  overrides_of (Some zero_trust_override) !! "price_sensitivity"
  = NFloat <$> price_sensitivity zero_trust_override ∧
  overrides_of (Some zero_trust_override) !! "trust_need"
  = NFloat <$> trust_need zero_trust_override ∧
  overrides_of (Some zero_trust_override) !! "friction_tolerance"
  = NFloat <$> friction_tolerance zero_trust_override ∧
  (∀ k, k ∉ dimension_names → overrides_of (Some zero_trust_override) !! k = None) ∧
  overrides_in_range (Some (overrides_of (Some zero_trust_override))) = true ∧
  overrides_of (Some no_overrides) = overrides_of None.
Proof.
  split; [vm_compute; reflexivity|].
  apply (overrides_from_the_request zero_trust_override). vm_compute; reflexivity.
Defined.

Lemma hex_digit_is_alnum (c : ascii) : is_hex_digit c = true → is_alnum c = true.
Proof. destruct c as [[] [] [] [] [] [] [] []]; try discriminate; reflexivity. Qed.

Lemma substring_chars (P : ascii → bool) (n : nat) (s : string) :
  forallb P (list_ascii_of_string s) = true →
  forallb P (list_ascii_of_string (String.substring 0 n s)) = true.
Proof.
  revert s. induction n as [|n IH]; intros [|c s] H; simpl in *; try done.
  apply andb_prop in H as [Hc Hs]. rewrite Hc. simpl. by apply IH.
Qed.

Lemma substring_length (n : nat) (s : string) :
  (n ≤ String.length s)%nat → String.length (String.substring 0 n s) = n.
Proof.
  revert s. induction n as [|n IH]; intros [|c s] H; simpl in *; try done; try lia.
  f_equal. apply IH. lia.
Qed.

(** X12: every variant id that the pipeline makes of a uuid has 16
    characters and satisfies the pattern of [AuditRequest.variant_id]. *)
Theorem generated_ids_pass_the_audit_request (hex : string) :
  is_uuid_hex hex = true →
  variant_id_valid (variant_id hex) = true ∧
  String.length (variant_id hex) = 16%nat.
Proof.
  unfold is_uuid_hex. intros H. apply andb_prop in H as [Hlen Hhex].
  apply Nat.eqb_eq in Hlen.
  assert (Hsub : String.length (take_chars 12 hex) = 12%nat).
  { apply substring_length. lia. }
  unfold variant_id_valid, variant_id.
  change (drop_chars 4 ("var_" +:+ take_chars 12 hex)) with (take_chars 12 hex).
  replace (String.prefix "var_" ("var_" +:+ take_chars 12 hex)) with true
    by (by destruct (take_chars 12 hex)).
  change (String.length ("var_" +:+ take_chars 12 hex))
    with (S (S (S (S (String.length (take_chars 12 hex)))))).
  rewrite Hsub. split; [|done]. simpl.
  apply substring_chars. apply forallb_forall. intros c Hc.
  apply hex_digit_is_alnum. by eapply forallb_forall in Hhex.
Qed.

(** A sample of 32 hexadecimal digits. *)
Lemma generated_ids_pass_the_audit_request_witness :
  is_uuid_hex "0123456789abcdef0123456789abcdef" = true ∧
  variant_id_valid (variant_id "0123456789abcdef0123456789abcdef") = true ∧
  String.length (variant_id "0123456789abcdef0123456789abcdef") = 16%nat.
Proof.
  split; [reflexivity|].
  apply (generated_ids_pass_the_audit_request "0123456789abcdef0123456789abcdef"). reflexivity.
Defined.

Lemma assoc_get_app_absent (a : list (string * value)) (k : string) (v : value) :
  assoc_get a k = None → assoc_get (a ++ [(k, v)]) k = Some v.
Proof.
  induction a as [|[k' v'] a IH]; simpl.
  - by rewrite String.eqb_refl.
  - destruct (String.eqb k' k); [done|]. apply IH.
Qed.

(** X13: for an audit result without an ["audit_score"], the variant that
    the pipeline assembles has the audit score 0, while the prediction for
    the same audit result is the one for the score 80. *)
Theorem missing_audit_score_is_read_as_0_and_as_80
    (variant_id country_code created_at : string)
    (u : list (string * value)) (copy_variants lift_prediction cultural_profile variant : value)
    (a : list (string * value)) :
  assoc_get a "audit_score" = None →
  (∃ spec,
     variant_spec variant_id country_code (VDict u) copy_variants (VDict a)
                  lift_prediction cultural_profile created_at = Ok spec ∧
     get spec "audit_score" VNone = Ok (VInt 0)) ∧
  ExperimentationAgent.calculate_heuristic_lift variant (VDict a)
  = ExperimentationAgent.calculate_heuristic_lift variant (VDict (a ++ [("audit_score", VInt 80)])).
Proof.
  intros Hnone. split.
  - unfold variant_spec. simpl. rewrite Hnone. simpl. eexists. split; reflexivity.
  - unfold ExperimentationAgent.calculate_heuristic_lift. simpl.
    by rewrite Hnone, (assoc_get_app_absent a "audit_score" (VInt 80)).
Qed.

(** The error dict of the gateway in the place of the audit result. *)
Lemma missing_audit_score_is_read_as_0_and_as_80_witness :
  assoc_get (dict_items error_reply) "audit_score" = None ∧
  (∃ spec,
     variant_spec "var_0123456789ab" "GT" (VDict (dict_items error_reply)) error_reply
                  (VDict (dict_items error_reply)) (VDict []) (VDict []) "2025-01-01T00:00:00+00:00"
     = Ok spec ∧
     get spec "audit_score" VNone = Ok (VInt 0)) ∧
  ExperimentationAgent.calculate_heuristic_lift guarantees_bundle (VDict (dict_items error_reply))
  = ExperimentationAgent.calculate_heuristic_lift guarantees_bundle
      (VDict (dict_items error_reply ++ [("audit_score", VInt 80)])).
Proof.
  split; [reflexivity|].
  apply (missing_audit_score_is_read_as_0_and_as_80 "var_0123456789ab" "GT"
           "2025-01-01T00:00:00+00:00" (dict_items error_reply) error_reply (VDict []) (VDict [])
           guarantees_bundle (dict_items error_reply)).
  reflexivity.
Defined.

End RequestProperties.

(** ** The flow of the UX fallback and the signals it sets *)

Section FlowProperties.
Import UXAdaptationAgent ExperimentationAgent AgentOrchestrator.

Lemma plain_loop (steps flow : list value) :
  forallb isinstance_dict steps = true →
  for_each steps plain_step flow = Ok (flow ++ (with_no_adaptations <$> steps)).
Proof.
  revert flow. induction steps as [|step steps IH]; intros flow Hok; simpl in *.
  - by rewrite app_nil_r.
  - apply andb_prop in Hok as [Hstep Hrest].
    destruct step as [| | | | | |d]; try discriminate.
    unfold plain_step. simpl. rewrite IH by done. by rewrite <- app_assoc.
Qed.

(** X14: when friction tolerance is not at most 40, the UX fallback returns
    every step of the baseline flow, in order, shipping and payment steps
    included, each with an empty list of adaptations. *)
Theorem high_friction_keeps_every_step (dimensions : gmap string num)
    (rules : list CulturalDataLoader.rule) (b : list (string * value)) (steps : list value)
    (price_band : string) :
  low_friction dimensions = false →
  entry b "baseline_flow" (VList []) = VList steps →
  forallb isinstance_dict steps = true →
  ∃ ux,
    rule_based_adaptation dimensions rules (VDict b) price_band = Ok ux ∧
    get ux "flow" VNone = Ok (VList (with_no_adaptations <$> steps)) ∧
    (∀ step, step ∈ steps → drivers_of (with_no_adaptations step) = []).
Proof.
  intros Hhigh Hflow Hsteps. unfold low_friction in Hhigh.
  unfold rule_based_adaptation. simpl. unfold entry in Hflow. rewrite Hflow. simpl.
  rewrite Hhigh. rewrite plain_loop by done. simpl.
  eexists. split; [reflexivity|]. split; [reflexivity|].
  intros step Hin. rewrite forallb_forall in Hsteps.
  apply list_elem_of_In, Hsteps in Hin.
  destruct step as [| | | | | |d]; try discriminate.
  unfold drivers_of, with_no_adaptations. simpl. unfold entry.
  assert (Hset : assoc_get (dict_set d "adaptations" (VList [])) "adaptations" = Some (VList [])).
  { clear. induction d as [|[k v] d IH]; simpl; [done|].
    destruct (String.eqb k "adaptations") eqn:E; simpl; rewrite E; [done|apply IH]. }
  by rewrite Hset.
Qed.

(** Japan's dimensions (friction_tolerance 72) on the sample baseline. *)
Lemma high_friction_keeps_every_step_witness :
  low_friction (CulturalDataLoader.dimensions japan_prior) = false ∧
  entry (dict_items (sample_base_spec "fashion")) "baseline_flow" (VList [])
  = VList (list_items (field_of (sample_base_spec "fashion") "baseline_flow" (VList []))) ∧
  forallb isinstance_dict (list_items (field_of (sample_base_spec "fashion") "baseline_flow" (VList [])))
  = true ∧
  ∃ ux,
    rule_based_adaptation (CulturalDataLoader.dimensions japan_prior) []
                          (VDict (dict_items (sample_base_spec "fashion"))) "mid" = Ok ux ∧
    get ux "flow" VNone
    = Ok (VList (with_no_adaptations <$>
                   list_items (field_of (sample_base_spec "fashion") "baseline_flow" (VList [])))) ∧
    (∀ step, step ∈ list_items (field_of (sample_base_spec "fashion") "baseline_flow" (VList [])) →
             drivers_of (with_no_adaptations step) = []).
Proof.
  split; [vm_compute; reflexivity|]. split; [vm_compute; reflexivity|].
  split; [vm_compute; reflexivity|].
  apply (high_friction_keeps_every_step (CulturalDataLoader.dimensions japan_prior) []
           (dict_items (sample_base_spec "fashion"))
           (list_items (field_of (sample_base_spec "fashion") "baseline_flow" (VList [])))
           "mid"); vm_compute; reflexivity.
Defined.

Lemma streamline_raises (dimensions : gmap string num) (pre post : list value)
    (d : list (string * value)) (flow : list value) :
  forallb has_step_id pre = true →
  has_key d "step_id" = false →
  for_each (pre ++ VDict d :: post) (streamline_step dimensions) flow
  = Raise (KeyError "step_id").
Proof.
  revert flow. induction pre as [|step pre IH]; intros flow Hpre Hd; simpl in *.
  - unfold streamline_step, subscript. unfold has_key in Hd.
    by destruct (assoc_get d "step_id").
  - apply andb_prop in Hpre as [Hstep Hpre].
    destruct step as [| | | | | |s]; try discriminate.
    unfold streamline_step. rewrite subscript_step_id by done. simpl.
    destruct (eq_str (entry s "step_id" VNone) "shipping"); simpl; [by apply IH|].
    destruct (eq_str (entry s "step_id" VNone) "payment"); simpl; by apply IH.
Qed.

(** X15: when friction tolerance is at most 40 and a step of the baseline
    flow has no ["step_id"], the UX fallback raises [KeyError]. *)
Theorem step_without_id_raises_under_low_friction (dimensions : gmap string num)
    (rules : list CulturalDataLoader.rule) (b : list (string * value)) (pre post : list value)
    (d : list (string * value)) (price_band : string) :
  low_friction dimensions = true →
  entry b "baseline_flow" (VList []) = VList (pre ++ VDict d :: post) →
  forallb has_step_id pre = true →
  has_key d "step_id" = false →
  rule_based_adaptation dimensions rules (VDict b) price_band = Raise (KeyError "step_id").
Proof.
  intros Hlow Hflow Hpre Hd. unfold low_friction in Hlow.
  unfold rule_based_adaptation. simpl. unfold entry in Hflow. rewrite Hflow. simpl.
  rewrite Hlow. by rewrite streamline_raises.
Qed.

(** Guatemala's dimensions and a flow whose second step has no id. *)
Lemma step_without_id_raises_under_low_friction_witness :
  low_friction guatemala_dimensions = true ∧
  entry (dict_items base_spec_without_step_id) "baseline_flow" (VList [])
  = VList ([VDict [("step_id", VStr "cart"); ("name", VStr "Cart")]]
           ++ VDict [("name", VStr "Shipping")]
              :: [VDict [("step_id", VStr "confirm"); ("name", VStr "Confirmation")]]) ∧
  forallb has_step_id [VDict [("step_id", VStr "cart"); ("name", VStr "Cart")]] = true ∧
  has_key [("name", VStr "Shipping")] "step_id" = false ∧
  rule_based_adaptation guatemala_dimensions [] (VDict (dict_items base_spec_without_step_id)) "mid"
  = Raise (KeyError "step_id").
Proof.
  split; [vm_compute; reflexivity|]. split; [reflexivity|]. split; [reflexivity|].
  split; [reflexivity|].
  apply (step_without_id_raises_under_low_friction guatemala_dimensions []
           (dict_items base_spec_without_step_id)
           [VDict [("step_id", VStr "cart"); ("name", VStr "Cart")]]
           [VDict [("step_id", VStr "confirm"); ("name", VStr "Confirmation")]]
           [("name", VStr "Shipping")] "mid");
    vm_compute; reflexivity.
Defined.

Lemma step_is_with_no_adaptations (id : string) (step : value) :
  step_is id (with_no_adaptations step) = step_is id step.
Proof.
  destruct step as [| | | | | |d]; try reflexivity.
  unfold step_is, with_no_adaptations. simpl. unfold entry.
  by rewrite assoc_get_dict_set_ne.
Qed.

Lemma eq_str_payment_not_express (v : value) :
  eq_str v "payment" = true → eq_str v "express_checkout" = false.
Proof.
  destruct v as [| | | |s| |]; try discriminate. simpl. intros H.
  apply String.eqb_eq in H. by subst.
Qed.

Lemma merged_flow_express (dimensions : gmap string num) (steps : list value) :
  existsb (step_is "express_checkout") (merged_flow dimensions steps)
  = existsb (step_is "shipping") steps || existsb (step_is "express_checkout") steps.
Proof.
  induction steps as [|step steps IH]; simpl; [done|].
  rewrite existsb_app, IH.
  destruct (step_is "shipping" step) eqn:Hship; simpl; [done|].
  destruct (step_is "payment" step) eqn:Hpay; simpl.
  - unfold step_is in *. rewrite (eq_str_payment_not_express _ Hpay). simpl.
    by destruct (existsb _ steps).
  - rewrite step_is_with_no_adaptations.
    by destruct (step_is "express_checkout" step), (existsb (step_is "shipping") steps).
Qed.

Lemma plain_flow_express (steps : list value) :
  existsb (step_is "express_checkout") (with_no_adaptations <$> steps)
  = existsb (step_is "express_checkout") steps.
Proof.
  induction steps as [|step steps IH]; [done|].
  rewrite fmap_cons. cbn [existsb]. by rewrite step_is_with_no_adaptations, IH.
Qed.

Lemma has_step_id_dict (steps : list value) :
  forallb has_step_id steps = true → forallb isinstance_dict steps = true.
Proof.
  induction steps as [|step steps IH]; simpl; [done|].
  intros H. apply andb_prop in H as [Hs Hrest]. rewrite IH by done.
  by destruct step.
Qed.

(** The flow of the UX fallback. *)
Lemma fallback_flow (dimensions : gmap string num) (rules : list CulturalDataLoader.rule)
    (b : list (string * value)) (steps : list value) (price_band : string) :
  entry b "baseline_flow" (VList []) = VList steps →
  forallb has_step_id steps = true →
  ∃ theme rationale,
    rule_based_adaptation dimensions rules (VDict b) price_band
    = Ok (VDict [("theme_emphasis", VStr theme);
                 ("rationale", VStr rationale);
                 ("flow", VList (if low_friction dimensions
                                 then merged_flow dimensions steps
                                 else with_no_adaptations <$> steps));
                 ("modules", fallback_modules dimensions)]).
Proof.
  intros Hflow Hsteps.
  unfold rule_based_adaptation, low_friction. simpl. unfold entry in Hflow. rewrite Hflow. simpl.
  destruct (num_le (dim dimensions "friction_tolerance") (NInt 40)).
  - rewrite streamline_loop by done. simpl. by eexists _, _.
  - rewrite plain_loop by (by apply has_step_id_dict). simpl. by eexists _, _.
Qed.

Lemma signals_of_length (b1 b2 b3 b4 b5 b6 : bool) :
  (SocialProofModule ∉ signals_of b1 b2 b3 b4 b1 b6) ∧
  (length (signals_of b1 b2 b3 b4 b5 b6) ≤ 5)%nat.
Proof.
  split.
  - destruct b1, b2, b3, b4, b6; intros H%list_elem_of_In; simpl in H; intuition discriminate.
  - destruct b1, b2, b3, b4, b5, b6; simpl; lia.
Qed.

Lemma plain_flow_dicts (steps : list value) :
  forallb isinstance_dict steps = true →
  forallb isinstance_dict (with_no_adaptations <$> steps) = true.
Proof.
  induction steps as [|step steps IH]; [done|].
  rewrite fmap_cons. cbn [forallb]. intros H. apply andb_prop in H as [Hs Hrest].
  rewrite IH by done. by destruct step.
Qed.

(** The bundle assembled from the UX fallback has the shape the prediction
    reads, and its signals are those of the thresholds. *)
Lemma fallback_bundle_signals (dimensions : gmap string num) (steps : list value)
    (variant_id country_code theme : value) (copy_variants cultural_profile : value) :
  forallb has_step_id steps = true →
  let bundle := VDict [("variant_id", variant_id); ("region", country_code);
                       ("theme_emphasis", theme);
                       ("flow", VList (if low_friction dimensions
                                       then merged_flow dimensions steps
                                       else with_no_adaptations <$> steps));
                       ("modules", fallback_modules dimensions);
                       ("copy", copy_variants);
                       ("cultural_profile", cultural_profile)] in
  prediction_ready bundle = true ∧
  fired_signals bundle
  = signals_of (high_collectivism dimensions) (high_trust dimensions)
               (high_uncertainty dimensions) (high_price_sensitivity dimensions)
               (high_collectivism dimensions)
               (low_friction dimensions && existsb (step_is "shipping") steps
                || existsb (step_is "express_checkout") steps).
Proof.
  intros Hsteps bundle. split.
  - unfold prediction_ready, bundle, entry. simpl.
    destruct (low_friction dimensions).
    + by rewrite merged_flow_dicts.
    + by rewrite plain_flow_dicts by (by apply has_step_id_dict).
  - subst bundle.
    unfold fired_signals, module_field, high_collectivism, high_trust, high_uncertainty,
      high_price_sensitivity. f_equal.
    all: try (unfold fallback_modules; cbv zeta;
              match goal with
              | |- eq_str _ _ = num_ge ?a ?b => by destruct (num_ge a b)
              | |- truthy _ = num_ge ?a ?b => by destruct (num_ge a b)
              end).
    change (existsb (step_is "express_checkout")
                (if low_friction dimensions
                 then merged_flow dimensions steps
                 else with_no_adaptations <$> steps)
              = low_friction dimensions && existsb (step_is "shipping") steps
                || existsb (step_is "express_checkout") steps).
    destruct (low_friction dimensions); simpl.
    + apply merged_flow_express.
    + apply plain_flow_express.
Qed.

(** X16: on the bundle assembled from the UX fallback, for every audit
    result whose score is a number that can be divided by 100, the factors
    that the prediction applies are, in this order: the social-proof
    emphasis exactly when collectivism is at least 65, the enhanced
    guarantees when trust_need is at least 75, the trust modules when
    uncertainty_avoidance is at least 70, the installment framing when
    price_sensitivity is at least 70, and the checkout reduction when the
    flow has an express-checkout step (a merged shipping step, or one of
    the baseline); the social-proof module is never among them, as it is
    enabled exactly when the emphasis applies; so at most five factors are
    applied. *)
Theorem fallback_signals_follow_thresholds (dimensions : gmap string num)
    (rules : list CulturalDataLoader.rule) (b : list (string * value)) (steps : list value)
    (price_band variant_id country_code : string) (copy_variants cultural_profile : value)
    (a : list (string * value)) (score : num) (m : float) :
  entry b "baseline_flow" (VList []) = VList steps →
  forallb has_step_id steps = true →
  as_num (entry a "audit_score" (VInt 80)) = Ok score →
  div100 score = Ok m →
  let fired :=
    signals_of (high_collectivism dimensions) (high_trust dimensions)
               (high_uncertainty dimensions) (high_price_sensitivity dimensions)
               (high_collectivism dimensions)
               (low_friction dimensions && existsb (step_is "shipping") steps
                || existsb (step_is "express_checkout") steps) in
  ∃ ux bundle report,
    rule_based_adaptation dimensions rules (VDict b) price_band = Ok ux ∧
    partial_variant variant_id country_code ux copy_variants cultural_profile = Ok bundle ∧
    calculate_heuristic_lift bundle (VDict a) = Ok report ∧
    get report "applied_factors" VNone = Ok (VList (factor_entry <$> fired)) ∧
    (SocialProofModule ∉ fired) ∧
    (length fired ≤ 5)%nat.
Proof.
  intros Hflow Hsteps Hnum Hdiv fired.
  destruct (fallback_flow dimensions rules b steps price_band Hflow Hsteps)
    as (theme & rationale & Hux).
  destruct (fallback_bundle_signals dimensions steps (VStr variant_id) (VStr country_code)
              (VStr theme) copy_variants cultural_profile Hsteps) as [Hready Hfired].
  rewrite Hux.
  eexists _, _, (heuristic_report 2.3 (state_of (fired_signals _))
                   (entry a "audit_score" (VInt 80)) score m).
  split; [reflexivity|]. split; [reflexivity|].
  split; [by apply (calculate_heuristic_lift_returns _ a score m)|].
  split.
  { rewrite report_applied_factors.
    exact (f_equal (λ l, Ok (VList (factor_entry <$> l))) Hfired). }
  apply signals_of_length.
Qed.

(** Guatemala's dimensions on the sample baseline. *)
Lemma fallback_signals_follow_thresholds_witness :
  let b := dict_items (sample_base_spec "fashion") in
  let steps := list_items (entry b "baseline_flow" (VList [])) in
  let a := dict_items (audit_with_score 90) in
  entry b "baseline_flow" (VList []) = VList steps ∧
  forallb has_step_id steps = true ∧
  as_num (entry a "audit_score" (VInt 80)) = Ok (NInt 90) ∧
  div100 (NInt 90) = Ok 0.9%float ∧
  let fired :=
    signals_of (high_collectivism guatemala_dimensions) (high_trust guatemala_dimensions)
               (high_uncertainty guatemala_dimensions)
               (high_price_sensitivity guatemala_dimensions)
               (high_collectivism guatemala_dimensions)
               (low_friction guatemala_dimensions && existsb (step_is "shipping") steps
                || existsb (step_is "express_checkout") steps) in
  ∃ ux bundle report,
    rule_based_adaptation guatemala_dimensions [] (VDict b) "mid" = Ok ux ∧
    partial_variant "var_0123456789ab" "GT" ux (VDict []) (VDict []) = Ok bundle ∧
    calculate_heuristic_lift bundle (VDict a) = Ok report ∧
    get report "applied_factors" VNone = Ok (VList (factor_entry <$> fired)) ∧
    (SocialProofModule ∉ fired) ∧
    (length fired ≤ 5)%nat.
Proof.
  cbv zeta. split; [reflexivity|]. split; [reflexivity|].
  split; [reflexivity|]. split; [vm_compute; reflexivity|].
  apply (fallback_signals_follow_thresholds guatemala_dimensions []
           (dict_items (sample_base_spec "fashion"))
           (list_items (entry (dict_items (sample_base_spec "fashion")) "baseline_flow" (VList [])))
           "mid" "var_0123456789ab" "GT" (VDict []) (VDict [])
           (dict_items (audit_with_score 90)) (NInt 90) 0.9%float);
    first [reflexivity | vm_compute; reflexivity].
Defined.

End FlowProperties.

(** ** Texts and patterns *)

Section TextProperties.

Lemma append_nil_r (s : string) : s +:+ "" = s.
Proof. induction s as [|c s IH]; [done|]. change (String c (s +:+ "") = String c s). by rewrite IH. Qed.

Lemma append_cons (c : ascii) (a b : string) : String c a +:+ b = String c (a +:+ b).
Proof. reflexivity. Qed.

Lemma append_assoc (a b c : string) : (a +:+ b) +:+ c = a +:+ (b +:+ c).
Proof. induction a as [|x a IH]; [done|]. rewrite !append_cons. by rewrite IH. Qed.

Lemma lower_app (a b : string) : lower (a +:+ b) = lower a +:+ lower b.
Proof. induction a as [|x a IH]; [done|]. rewrite append_cons. simpl. by rewrite IH. Qed.

Lemma prefix_nil (s : string) : String.prefix "" s = true.
Proof. by destruct s. Qed.

Lemma prefix_cons (x y : ascii) (p s : string) :
  String.prefix (String x p) (String y s) = Ascii.eqb x y && String.prefix p s.
Proof.
  simpl. destruct (ascii_dec x y) as [->|Hne].
  - by rewrite Ascii.eqb_refl.
  - apply Ascii.eqb_neq in Hne. by rewrite Hne.
Qed.

Lemma prefix_sep (p a b : string) (c : ascii) :
  char_in c p = false →
  String.prefix p (a +:+ String c b) = String.prefix p a.
Proof.
  revert a. induction p as [|y p IH]; intros a Hc.
  - by rewrite !prefix_nil.
  - unfold char_in in Hc. simpl in Hc. apply orb_false_elim in Hc as [Hy Hp].
    destruct a as [|x a].
    + change ("" +:+ String c b) with (String c b). rewrite prefix_cons.
      rewrite Ascii.eqb_sym, Hy. done.
    + rewrite append_cons, !prefix_cons. by rewrite IH.
Qed.

Lemma contains_unfold (p s : string) :
  contains p s = String.prefix p s || match s with
                                      | EmptyString => false
                                      | String _ s' => contains p s'
                                      end.
Proof. by destruct s. Qed.

Lemma contains_sep (p a b : string) (c : ascii) :
  char_in c p = false →
  contains p (a +:+ String c b) = contains p a || contains p b.
Proof.
  intros Hc. induction a as [|x a IH].
  - change ("" +:+ String c b) with (String c b).
    rewrite (contains_unfold p (String c b)), (contains_unfold p "").
    rewrite <- (prefix_sep p "" b c Hc). change ("" +:+ String c b) with (String c b).
    by rewrite orb_false_r.
  - rewrite append_cons.
    rewrite (contains_unfold p (String x (a +:+ String c b))), (contains_unfold p (String x a)).
    rewrite IH. rewrite <- append_cons, prefix_sep by done. by rewrite orb_assoc.
Qed.

Lemma prefix_all_chars (P : ascii → bool) (p s : string) :
  String.prefix p s = true → all_chars P s = true → all_chars P p = true.
Proof.
  revert s. induction p as [|y p IH]; intros s Hpre Hs; [done|].
  destruct s as [|x s]; [done|].
  rewrite prefix_cons in Hpre. apply andb_prop in Hpre as [Hxy Hpre].
  apply Ascii.eqb_eq in Hxy. subst.
  unfold all_chars in *. simpl in *. apply andb_prop in Hs as [Hx Hs].
  rewrite Hx. simpl. by eapply IH.
Qed.

Lemma contains_all_chars (P : ascii → bool) (p s : string) :
  all_chars P s = true → all_chars P p = false → contains p s = false.
Proof.
  intros Hs Hp. destruct (contains p s) eqn:Hc; [|done].
  exfalso. induction s as [|x s IH].
  - rewrite contains_unfold, orb_false_r in Hc.
    by rewrite (prefix_all_chars P p "" Hc Hs) in Hp.
  - rewrite contains_unfold in Hc. apply orb_prop in Hc as [Hc|Hc].
    + by rewrite (prefix_all_chars P p _ Hc Hs) in Hp.
    + apply IH; [|done]. unfold all_chars in *. simpl in Hs. by apply andb_prop in Hs as [_ ?].
Qed.

Lemma all_chars_app (P : ascii → bool) (a b : string) :
  all_chars P (a +:+ b) = all_chars P a && all_chars P b.
Proof.
  induction a as [|x a IH]; [done|]. rewrite append_cons.
  unfold all_chars in *. simpl. by rewrite IH, andb_assoc.
Qed.

Lemma all_chars_cons (P : ascii → bool) (c : ascii) (s : string) :
  all_chars P (String c s) = P c && all_chars P s.
Proof. reflexivity. Qed.

Lemma all_chars_lower (P : ascii → bool) (s : string) :
  (∀ c, P c = true → P (lower_ascii c) = true) →
  all_chars P s = true → all_chars P (lower s) = true.
Proof.
  intros HP. induction s as [|x s IH]; [done|]. simpl. rewrite !all_chars_cons.
  intros H. apply andb_prop in H as [Hx Hs]. by rewrite HP, IH.
Qed.

Lemma all_chars_substring (P : ascii → bool) (s : string) (n m : nat) :
  all_chars P s = true → all_chars P (String.substring n m s) = true.
Proof.
  revert n m. induction s as [|x s IH]; intros n m Hs.
  - by destruct n, m.
  - rewrite all_chars_cons in Hs. apply andb_prop in Hs as [Hx Hs].
    destruct n as [|n]; simpl.
    + destruct m as [|m]; [done|]. rewrite all_chars_cons, Hx. simpl. by apply IH.
    + by apply IH.
Qed.

Lemma all_chars_drop (P : ascii → bool) (s : string) (n : nat) :
  all_chars P s = true → all_chars P (drop_chars n s) = true.
Proof.
  revert s. induction n as [|n IH]; intros s Hs; [done|].
  destruct s as [|x s]; [done|]. simpl. apply IH.
  rewrite all_chars_cons in Hs. by apply andb_prop in Hs as [_ ?].
Qed.

Lemma all_chars_repeat (P : ascii → bool) (c : ascii) (n : nat) :
  P c = true → all_chars P (repeat_char c n) = true.
Proof. intros Hc. induction n as [|n IH]; [done|]. simpl. by rewrite all_chars_cons, Hc. Qed.

Lemma number_char_lower (c : ascii) : number_char c = true → number_char (lower_ascii c) = true.
Proof. destruct c as [[] [] [] [] [] [] [] []]; try discriminate; reflexivity. Qed.

Lemma string_of_uint_digits (d : Decimal.uint) :
  all_chars number_char (NilEmpty.string_of_uint d) = true.
Proof. induction d; simpl; try done. Qed.

Lemma str_of_Z_number (z : Z) : all_chars number_char (str_of_Z z) = true.
Proof.
  unfold str_of_Z, NilZero.string_of_int, NilZero.string_of_uint.
  destruct (Z.to_int z) as [d|d]; destruct d; try apply string_of_uint_digits; try done;
    rewrite all_chars_cons; simpl; apply (string_of_uint_digits (_ _)).
Qed.

Ltac number_chars :=
  repeat first
    [ reflexivity
    | apply str_of_Z_number
    | apply all_chars_substring
    | apply all_chars_drop
    | apply all_chars_repeat
    | rewrite all_chars_app; apply andb_true_intro; split
    | match goal with
      | |- all_chars _ (if ?b then _ else _) = true => destruct b
      | |- all_chars _ (match ?x with _ => _ end) = true => destruct x
      end ].

Lemma float_repr_number (f : float) : all_chars number_char (float_repr f) = true.
Proof.
  unfold float_repr. destruct (Prim2SF f) as [s|s| |s m e]; try by destruct s.
  - done.
  - cbv zeta.
    destruct (shortest _ _ _ _ _ _) as [d p]. destruct (strip_zeros d p 400) as [d' p'].
    unfold take_chars. number_chars.
Qed.

Lemma py_str_number (n : num) : all_chars number_char (py_str (value_of_num n)) = true.
Proof. destruct n as [z|f]; simpl; [apply str_of_Z_number | apply float_repr_number]. Qed.

Lemma fmt_opt_number (dimensions : gmap string num) (k : string) :
  all_chars number_char (CopyFramingAgent.fmt_opt dimensions k) = true.
Proof.
  unfold CopyFramingAgent.fmt_opt. destruct (dimensions !! k) as [n|]; simpl; [|done].
  apply py_str_number.
Qed.

(** *** Patterns *)

Lemma mentions_number (p m : string) :
  all_chars number_char (lower p) = false →
  all_chars number_char m = true →
  mentions p m = false.
Proof.
  intros Hp Hm. unfold mentions. apply (contains_all_chars number_char); [|done].
  apply all_chars_lower; [apply number_char_lower | done].
Qed.

Lemma clean_number (m : string) : all_chars number_char m = true → clean m = true.
Proof.
  intros Hm. unfold clean. apply forallb_forall. intros p Hp.
  rewrite mentions_number; [done| |done].
  simpl in Hp. repeat destruct Hp as [<-|Hp]; try done.
Qed.

Lemma clean_sep (a b : string) (c : ascii) :
  is_sep c = true → clean (a +:+ String c b) = clean a && clean b.
Proof.
  intros Hc. unfold clean, is_sep in *.
  induction ComplianceAuditorAgent.essentializing_patterns as [|p ps IH]; [done|].
  simpl in *. apply andb_prop in Hc as [Hp Hps]. rewrite IH by done.
  unfold mentions at 1. rewrite lower_app. simpl.
  rewrite contains_sep by (by apply negb_true_iff in Hp).
  fold (mentions p a) (mentions p b).
  generalize (forallb (λ p0, negb (mentions p0 a)) ps) (forallb (λ p0, negb (mentions p0 b)) ps).
  intros [] []; by destruct (mentions p a), (mentions p b).
Qed.

Lemma ends_sep_split (a : string) :
  ends_sep a = true → ∃ a' c, a = a' +:+ String c "" ∧ is_sep c = true.
Proof.
  induction a as [|x a IH]; [done|]. simpl. destruct a as [|y a].
  - intros Hx. by exists "", x.
  - intros H. destruct (IH H) as (a' & c & -> & Hc). by exists (String x a'), c.
Qed.

Lemma clean_append_sep_l (a b : string) :
  ends_sep a = true → clean (a +:+ b) = clean a && clean b.
Proof.
  intros H. destruct (ends_sep_split a H) as (a' & c & -> & Hc).
  rewrite append_assoc. change (String c "" +:+ b) with (String c b).
  rewrite !clean_sep by done. by rewrite andb_true_r.
Qed.

Lemma clean_append_sep_r (a b : string) :
  starts_sep b = true → clean (a +:+ b) = clean a && clean b.
Proof.
  destruct b as [|c b]; [done|]. simpl. intros Hc. rewrite clean_sep by done.
  f_equal. change (String c b) with ("" +:+ String c b). by rewrite clean_sep.
Qed.

Lemma clean_filter (t r : string) :
  clean t = true → clean r = true →
  List.filter (λ p, mentions p t || mentions p r) ComplianceAuditorAgent.essentializing_patterns = [].
Proof.
  unfold clean. induction ComplianceAuditorAgent.essentializing_patterns as [|p ps IH]; [done|].
  simpl. intros Ht Hr. apply andb_prop in Ht as [Hpt Ht]. apply andb_prop in Hr as [Hpr Hr].
  apply negb_true_iff in Hpt, Hpr. rewrite Hpt, Hpr. simpl. by apply IH.
Qed.

End TextProperties.

(** ** The report of the fallback audit *)

Section AuditReport.
Import ComplianceAuditorAgent.

Local Opaque essentializing_patterns dimension_tokens.

Lemma rule_based_audit_report (variant : value) (strict_mode : bool) :
  well_formed_bundle variant = true →
  rule_based_audit variant strict_mode = Ok (expected_report variant strict_mode).
Proof.
  intros Hwf.
  destruct variant as [| | | | | |d]; try discriminate.
  unfold well_formed_bundle in Hwf.
  apply andb_prop in Hwf as [Hwf Hprofile].
  apply andb_prop in Hwf as [Hwf Hflow].
  apply andb_prop in Hwf as [Hcopy Hmodules].
  pose proof (audit_state_after strict_mode (VDict d)) as [Hscore Hflags].
  unfold expected_report, positive_notes, summary_line.
  unfold expected_flags, expected_score, clamp, issues in *.
  unfold rule_based_audit. simpl in *. unfold entry in *.
  rewrite !fmap_app, !fold_left_app in Hscore, Hflags.
  destruct (default (VDict []) (assoc_get d "copy")) as [| | | | | |copy]; try discriminate.
  destruct (default (VDict []) (assoc_get d "modules")) as [| | | | | |modules];
    try discriminate.
  destruct (default (VList []) (assoc_get d "flow")) as [| | | | |steps|]; try discriminate.
  destruct (default (VDict []) (assoc_get d "cultural_profile")) as [| | | | | |profile];
    try discriminate.
  simpl in *.
  rewrite (copy_loop strict_mode) by done. simpl.
  rewrite (module_loop strict_mode) by done. simpl.
  rewrite (flow_loop strict_mode) by done. simpl.
  rewrite Hscore, Hflags. unfold entry.
  set (P := foldr Z.add 0 (issue_penalty <$>
                copy_issues copy ++ module_issues modules ++ flow_issues steps)).
  assert (Hs : Z.max 0 (Z.min 100 (if strict_mode then Z.max 0 (100 - P - 10) else 100 - P))
               = Z.max 0 (Z.min 100 (100 - P - (if strict_mode then 10 else 0))))
    by (destruct strict_mode; lia).
  rewrite Hs. unfold len. rewrite length_imap, <- !fmap_app, length_fmap.
  do 6 f_equal.
  destruct (copy_issues copy ++ module_issues modules ++ flow_issues steps); done.
Qed.

End AuditReport.

(** ** The fallback audit of the fallback output *)

Section FallbackAudit.
Import UXAdaptationAgent CopyFramingAgent ComplianceAuditorAgent AgentOrchestrator.

Local Arguments clean : simpl never.
Local Arguments references_dimension : simpl never.

Lemma clean_entries (items : list (string * value)) :
  forallb clean_entry items = true →
  copy_issues items = [] ∧ forallb copy_entry_ok items = true.
Proof.
  induction items as [|[k v] items IH]; [done|].
  cbn [forallb]. intros H. apply andb_prop in H as [Hkv Hrest].
  destruct (IH Hrest) as [Hissues Hok].
  unfold copy_issues in *. cbn [flat_map forallb]. rewrite Hissues, Hok.
  unfold clean_entry, copy_entry_ok in *. cbn [snd fst] in *.
  destruct v as [| | | | | |f]; try done.
  destruct (entry f "text" (VStr "")) as [| | | |t| |]; try discriminate.
  destruct (entry f "rationale" (VStr "")) as [| | | |r| |]; try discriminate.
  apply andb_prop in Hkv as [Ht Hr]. cbn [text_of is_str].
  by rewrite clean_filter.
Qed.

Lemma references_collectivism (x : string) : references_dimension ("Collectivism=" +:+ x) = true.
Proof.
  unfold references_dimension. apply existsb_exists. exists "collectivism".
  split; [simpl; tauto | reflexivity].
Qed.

Lemma references_trust (x : string) : references_dimension ("Trust need=" +:+ x) = true.
Proof.
  unfold references_dimension. apply existsb_exists. exists "trust".
  split; [simpl; tauto | reflexivity].
Qed.

Lemma references_ua (x : string) : references_dimension ("UA=" +:+ x) = true.
Proof.
  unfold references_dimension. apply existsb_exists. exists "ua=".
  split; [simpl; tauto|].
  rewrite lower_app, contains_unfold. change (lower "UA=") with "ua=".
  rewrite !append_cons, !prefix_cons, prefix_nil. reflexivity.
Qed.

Lemma references_price (x : string) : references_dimension ("Price sensitivity=" +:+ x) = true.
Proof.
  unfold references_dimension. apply existsb_exists. exists "price".
  split; [simpl; tauto | reflexivity].
Qed.

Lemma fallback_modules_justified (dimensions : gmap string num) :
  module_issues (dict_items (fallback_modules dimensions)) = [] ∧
  forallb module_entry_ok (dict_items (fallback_modules dimensions)) = true.
Proof.
  unfold fallback_modules. cbv zeta.
  generalize (fmt (dim dimensions "collectivism")) (fmt (dim dimensions "trust_need"))
    (fmt (dim dimensions "uncertainty_avoidance")) (fmt (dim dimensions "context_level"))
    (fmt (dim dimensions "price_sensitivity")).
  generalize (num_ge (dim dimensions "collectivism") (NInt 65))
    (num_ge (dim dimensions "trust_need") (NInt 75))
    (num_ge (dim dimensions "uncertainty_avoidance") (NInt 70))
    (num_le (dim dimensions "context_level") (NInt 35))
    (num_ge (dim dimensions "price_sensitivity") (NInt 70)).
  intros b1 b2 b3 b4 b5 f1 f2 f3 f4 f5.
  unfold module_issues, module_entry_ok, dict_items. cbn -[String.append].
  rewrite !references_collectivism, !references_trust, !references_ua, !references_price.
  by rewrite !andb_false_r.
Qed.

Lemma adaptations_reset (d : list (string * value)) :
  entry (dict_set d "adaptations" (VList [])) "adaptations" (VList []) = VList [].
Proof.
  unfold entry. induction d as [|[k v] d IH]; simpl; [done|].
  destruct (String.eqb k "adaptations") eqn:E; simpl; rewrite E; [done|apply IH].
Qed.

Lemma plain_step_justified (step : value) :
  isinstance_dict step = true →
  flow_issues [with_no_adaptations step] = [] ∧ step_ok (with_no_adaptations step) = true.
Proof.
  destruct step as [| | | | | |d]; try discriminate. intros _.
  unfold flow_issues, step_ok, with_no_adaptations. cbn [flat_map field_of].
  by rewrite adaptations_reset.
Qed.

Lemma express_checkout_justified (dimensions : gmap string num) :
  flow_issues [express_checkout dimensions] = [] ∧ step_ok (express_checkout dimensions) = true.
Proof. split; reflexivity. Qed.

Lemma flow_issues_cons (step : value) (steps : list value) :
  flow_issues (step :: steps) = flow_issues [step] ++ flow_issues steps.
Proof. unfold flow_issues. simpl. by rewrite app_nil_r. Qed.

Lemma fallback_flow_justified (dimensions : gmap string num) (steps : list value) :
  forallb has_step_id steps = true →
  flow_issues (if low_friction dimensions
               then merged_flow dimensions steps
               else with_no_adaptations <$> steps) = [] ∧
  forallb step_ok (if low_friction dimensions
                   then merged_flow dimensions steps
                   else with_no_adaptations <$> steps) = true.
Proof.
  intros Hsteps. destruct (low_friction dimensions).
  - induction steps as [|step steps IH]; [done|].
    cbn [forallb] in Hsteps. apply andb_prop in Hsteps as [Hstep Hrest].
    destruct (IH Hrest) as [Hissues Hok].
    assert (Hdict : isinstance_dict step = true) by (by destruct step).
    destruct (plain_step_justified step Hdict) as [Hp1 Hp2].
    unfold merged_flow in *. cbn [flat_map].
    destruct (step_is "shipping" step); [|destruct (step_is "payment" step)].
    + cbn [app]. rewrite flow_issues_cons, Hissues. cbn [forallb]. by rewrite Hok.
    + done.
    + cbn [app]. rewrite flow_issues_cons, Hissues, Hp1. cbn [forallb]. by rewrite Hp2, Hok.
  - induction steps as [|step steps IH]; [done|].
    cbn [forallb] in Hsteps. apply andb_prop in Hsteps as [Hstep Hrest].
    destruct (IH Hrest) as [Hissues Hok].
    assert (Hdict : isinstance_dict step = true) by (by destruct step).
    destruct (plain_step_justified step Hdict) as [Hp1 Hp2].
    rewrite fmap_cons, flow_issues_cons, Hissues, Hp1. cbn [forallb]. by rewrite Hp2, Hok.
Qed.

Ltac solve_clean :=
  repeat first [ rewrite clean_append_sep_l by reflexivity
               | rewrite clean_append_sep_r by reflexivity ];
  repeat match goal with
         | H : all_chars number_char ?m = true |- context [clean ?m] =>
             rewrite (clean_number m H)
         end;
  repeat match goal with
         | H : clean ?t = true |- context [clean ?t] => rewrite H
         end;
  vm_compute; reflexivity.

Lemma rule_based_copy_clean (dimensions : gmap string num) (c : list (string * value)) :
  baseline_texts_clean c = true →
  ∃ items,
    rule_based_copy dimensions (VDict c) = Ok (VDict items) ∧
    forallb clean_entry items = true.
Proof.
  unfold baseline_texts_clean, clean_text. intros H.
  apply andb_prop in H as [H H3]. apply andb_prop in H as [H1 H2].
  unfold rule_based_copy, get. cbv beta zeta. fold (entry c "cta_primary" (VStr "Add to Cart"))
    (entry c "value_proposition" (VStr "Quality products for you"))
    (entry c "urgency_text" (VStr "Limited availability")).
  destruct (entry c "cta_primary" (VStr "Add to Cart")) as [| | | |t1| |]; try discriminate.
  destruct (entry c "value_proposition" (VStr "Quality products for you")) as [| | | |t2| |];
    try discriminate.
  destruct (entry c "urgency_text" (VStr "Limited availability")) as [| | | |t3| |];
    try discriminate.
  pose proof (fmt_opt_number dimensions "collectivism") as N1.
  pose proof (fmt_opt_number dimensions "context_level") as N2.
  pose proof (fmt_opt_number dimensions "trust_need") as N3.
  pose proof (fmt_opt_number dimensions "uncertainty_avoidance") as N4.
  pose proof (fmt_opt_number dimensions "price_sensitivity") as N5.
  revert N1 N2 N3 N4 N5.
  generalize (fmt_opt dimensions "collectivism") (fmt_opt dimensions "context_level")
    (fmt_opt dimensions "trust_need") (fmt_opt dimensions "uncertainty_avoidance")
    (fmt_opt dimensions "price_sensitivity").
  generalize (num_ge (default (NInt 50) (dimensions !! "collectivism")) (NInt 65))
    (num_ge (default (NInt 50) (dimensions !! "uncertainty_avoidance")) (NInt 70))
    (num_ge (default (NInt 50) (dimensions !! "price_sensitivity")) (NInt 70))
    (num_le (default (NInt 50) (dimensions !! "context_level")) (NInt 35))
    (num_ge (default (NInt 50) (dimensions !! "trust_need")) (NInt 75)).
  intros b1 b2 b3 b4 b5 f1 f2 f3 f4 f5 N1 N2 N3 N4 N5.
  destruct b1, b2, b3, b4, b5; cbn -[String.append];
    (eexists; split; [reflexivity|]);
    unfold clean_entry, field, micro; cbn -[String.append];
    solve_clean.
Qed.

Lemma assembled_bundle (variant_id region theme : value) (flow : list value)
    (modules copy profile : list (string * value)) :
  let bundle := VDict [("variant_id", variant_id); ("region", region);
                       ("theme_emphasis", theme); ("flow", VList flow);
                       ("modules", VDict modules); ("copy", VDict copy);
                       ("cultural_profile", VDict profile)] in
  forallb copy_entry_ok copy = true →
  forallb module_entry_ok modules = true →
  forallb step_ok flow = true →
  well_formed_bundle bundle = true ∧
  issues bundle = copy_issues copy ++ module_issues modules ++ flow_issues flow.
Proof.
  intros bundle Hcopy Hmodules Hflow. split; [|reflexivity].
  unfold well_formed_bundle, bundle, entry. simpl.
  by rewrite Hcopy, Hmodules, Hflow.
Qed.

(** X17: for every dimensions dict, every baseline flow of steps with ids
    and every baseline copy whose three texts are free of essentializing
    patterns, the bundle assembled from the UX fallback and the copy
    fallback passes the fallback audit without a flag: the score is 100,
    and 90 under strict mode. *)
Theorem fallback_output_passes_the_audit (dimensions : gmap string num)
    (rules : list CulturalDataLoader.rule) (b c profile : list (string * value))
    (steps : list value) (price_band variant_id country_code : string) (strict_mode : bool) :
  entry b "baseline_flow" (VList []) = VList steps →
  forallb has_step_id steps = true →
  baseline_texts_clean c = true →
  ∃ ux copy bundle report,
    rule_based_adaptation dimensions rules (VDict b) price_band = Ok ux ∧
    rule_based_copy dimensions (VDict c) = Ok copy ∧
    partial_variant variant_id country_code ux copy (VDict profile) = Ok bundle ∧
    rule_based_audit bundle strict_mode = Ok report ∧
    get report "risk_flags" VNone = Ok (VList []) ∧
    get report "audit_score" VNone = Ok (VInt (if strict_mode then 90 else 100)).
Proof.
  intros Hflow Hsteps Hclean.
  destruct (fallback_flow dimensions rules b steps price_band Hflow Hsteps)
    as (theme & rationale & Hux).
  destruct (rule_based_copy_clean dimensions c Hclean) as (items & Hcopy & Hitems).
  destruct (clean_entries items Hitems) as [Hci Hcok].
  destruct (fallback_modules_justified dimensions) as [Hmi Hmok].
  destruct (fallback_flow_justified dimensions steps Hsteps) as [Hfi Hfok].
  rewrite Hux, Hcopy.
  eexists _, _, _, _. split; [reflexivity|]. split; [reflexivity|].
  split; [reflexivity|].
  match goal with
  | |- rule_based_audit ?bundle _ = _ ∧ _ =>
      destruct (assembled_bundle (VStr variant_id) (VStr country_code) (VStr theme)
                  (if low_friction dimensions
                   then merged_flow dimensions steps
                   else with_no_adaptations <$> steps)
                  (dict_items (fallback_modules dimensions)) items profile
                  Hcok Hmok Hfok) as [Hwf Hissues]
  end.
  split; [apply (rule_based_audit_report _ strict_mode Hwf)|].
  unfold expected_report, expected_flags, expected_score.
  rewrite Hissues, Hci, Hmi, Hfi.
  split; [reflexivity|]. by destruct strict_mode.
Qed.

(** Guatemala's dimensions, the sample baseline, strict mode. *)
Lemma fallback_output_passes_the_audit_witness :
  let b := dict_items (sample_base_spec "fashion") in
  let steps := list_items (entry b "baseline_flow" (VList [])) in
  entry b "baseline_flow" (VList []) = VList steps ∧
  forallb has_step_id steps = true ∧
  baseline_texts_clean unused_baseline_copy = true ∧
  ∃ ux copy bundle report,
    rule_based_adaptation guatemala_dimensions [] (VDict b) "mid" = Ok ux ∧
    rule_based_copy guatemala_dimensions (VDict unused_baseline_copy) = Ok copy ∧
    partial_variant "var_0123456789ab" "GT" ux copy (VDict []) = Ok bundle ∧
    rule_based_audit bundle true = Ok report ∧
    get report "risk_flags" VNone = Ok (VList []) ∧
    get report "audit_score" VNone = Ok (VInt (if true then 90 else 100)).
Proof.
  cbv zeta. split; [reflexivity|]. split; [reflexivity|]. split; [vm_compute; reflexivity|].
  apply (fallback_output_passes_the_audit guatemala_dimensions []
           (dict_items (sample_base_spec "fashion")) unused_baseline_copy []
           (list_items (entry (dict_items (sample_base_spec "fashion")) "baseline_flow" (VList [])))
           "mid" "var_0123456789ab" "GT" true); [reflexivity | reflexivity | vm_compute; reflexivity].
Defined.

End FallbackAudit.

(** ** The copy fallback; notes, strict mode and errors of the audit *)

Section CopyProperties.
Import CopyFramingAgent.

(** X18: when no threshold of the copy fallback is met, the primary CTA,
    the value proposition and the urgency text are the baseline's (or their
    defaults), the secondary CTA and the social-proof text are the fixed
    texts of the fallback, and the microcopy is the shipping note alone. *)
Theorem baseline_copy_passes_through (dimensions : gmap string num) (c : list (string * value)) :
  high_collectivism dimensions = false →
  low_context dimensions = false →
  high_uncertainty dimensions = false →
  high_price_sensitivity dimensions = false →
  high_trust dimensions = false →
  ∃ copy note,
    rule_based_copy dimensions (VDict c) = Ok copy ∧
    copy_text copy "cta_primary" = entry c "cta_primary" (VStr "Add to Cart") ∧
    copy_text copy "value_proposition"
    = entry c "value_proposition" (VStr "Quality products for you") ∧
    copy_text copy "urgency_text" = entry c "urgency_text" (VStr "Limited availability") ∧
    copy_text copy "cta_secondary" = VStr "Save to your wishlist" ∧
    copy_text copy "social_proof_text" = VStr "Independently reviewed and rated 4.8/5 stars" ∧
    get copy "microcopy" VNone = Ok (VList [note]) ∧
    field_of note "location" VNone = VStr "shipping_note".
Proof.
  unfold high_collectivism, low_context, high_uncertainty, high_price_sensitivity, high_trust,
    UXAdaptationAgent.dim.
  intros H1 H2 H3 H4 H5. unfold rule_based_copy. cbv beta zeta.
  rewrite H1, H2, H3, H4, H5. cbn -[String.append].
  eexists _, _. split; [reflexivity|]. by split_and!.
Qed.

(** The neutral profile. *)
Lemma baseline_copy_passes_through_witness :
  high_collectivism CulturalIntelligenceAgent.neutral_dimensions = false ∧
  low_context CulturalIntelligenceAgent.neutral_dimensions = false ∧
  high_uncertainty CulturalIntelligenceAgent.neutral_dimensions = false ∧
  high_price_sensitivity CulturalIntelligenceAgent.neutral_dimensions = false ∧
  high_trust CulturalIntelligenceAgent.neutral_dimensions = false ∧
  ∃ copy note,
    rule_based_copy CulturalIntelligenceAgent.neutral_dimensions (VDict unused_baseline_copy)
    = Ok copy ∧
    copy_text copy "cta_primary" = entry unused_baseline_copy "cta_primary" (VStr "Add to Cart") ∧
    copy_text copy "value_proposition"
    = entry unused_baseline_copy "value_proposition" (VStr "Quality products for you") ∧
    copy_text copy "urgency_text"
    = entry unused_baseline_copy "urgency_text" (VStr "Limited availability") ∧
    copy_text copy "cta_secondary" = VStr "Save to your wishlist" ∧
    copy_text copy "social_proof_text" = VStr "Independently reviewed and rated 4.8/5 stars" ∧
    get copy "microcopy" VNone = Ok (VList [note]) ∧
    field_of note "location" VNone = VStr "shipping_note".
Proof.
  split; [vm_compute; reflexivity|]. split; [vm_compute; reflexivity|].
  split; [vm_compute; reflexivity|]. split; [vm_compute; reflexivity|].
  split; [vm_compute; reflexivity|].
  apply (baseline_copy_passes_through CulturalIntelligenceAgent.neutral_dimensions
           unused_baseline_copy); vm_compute; reflexivity.
Defined.

(** X19: the copy fallback depends on the baseline copy through the three
    texts [cta_primary], [value_proposition] and [urgency_text] only: two
    baseline copies that agree on them give the same copy, errors
    included. *)
Theorem copy_fallback_reads_three_baseline_texts (dimensions : gmap string num)
    (c c' : list (string * value)) :
  assoc_get c "cta_primary" = assoc_get c' "cta_primary" →
  assoc_get c "value_proposition" = assoc_get c' "value_proposition" →
  assoc_get c "urgency_text" = assoc_get c' "urgency_text" →
  rule_based_copy dimensions (VDict c) = rule_based_copy dimensions (VDict c').
Proof.
  intros H1 H2 H3. unfold rule_based_copy, get. by rewrite H1, H2, H3.
Qed.

(** A baseline with a secondary CTA and a social-proof text, and one
    without. *)
Lemma copy_fallback_reads_three_baseline_texts_witness :
  assoc_get unused_baseline_copy "cta_primary"
  = assoc_get [("urgency_text", VStr "While stocks last")] "cta_primary" ∧
  assoc_get unused_baseline_copy "value_proposition"
  = assoc_get [("urgency_text", VStr "While stocks last")] "value_proposition" ∧
  assoc_get unused_baseline_copy "urgency_text"
  = assoc_get [("urgency_text", VStr "While stocks last")] "urgency_text" ∧
  rule_based_copy guatemala_dimensions (VDict unused_baseline_copy)
  = rule_based_copy guatemala_dimensions (VDict [("urgency_text", VStr "While stocks last")]).
Proof.
  split; [reflexivity|]. split; [reflexivity|]. split; [reflexivity|].
  apply (copy_fallback_reads_three_baseline_texts guatemala_dimensions unused_baseline_copy
           [("urgency_text", VStr "While stocks last")]); reflexivity.
Defined.

End CopyProperties.

Section AuditReportNotes.
Import ComplianceAuditorAgent.

Lemma penalties_nonnegative (l : list issue) : 0 ≤ foldr Z.add 0 (issue_penalty <$> l).
Proof.
  induction l as [|i l IH]; [done|]. rewrite fmap_cons. cbn [foldr].
  destruct i; simpl; lia.
Qed.

(** X20: on a bundle of the shape the audit reads, the report's summary
    quotes the score and the number of flags, the recommended changes are
    empty, the positive notes are those of the bundle, and the note that all
    adaptations are justified is among them exactly when there is no
    flag. *)
Theorem audit_report_notes (variant : value) (strict_mode : bool) :
  well_formed_bundle variant = true →
  ∃ report,
    rule_based_audit variant strict_mode = Ok report ∧
    get report "summary" VNone
    = Ok (VStr (summary_line (expected_score variant strict_mode) (length (issues variant)))) ∧
    get report "positive_notes" VNone = Ok (VList (VStr <$> positive_notes variant)) ∧
    get report "recommended_changes" VNone = Ok (VList []) ∧
    ("All adaptations include dimension-based justification" ∈ positive_notes variant
     ↔ get report "risk_flags" VNone = Ok (VList [])).
Proof.
  intros Hwf. exists (expected_report variant strict_mode).
  split; [by apply rule_based_audit_report|].
  split_and!; try reflexivity.
  unfold expected_report, get, expected_flags, positive_notes. simpl.
  destruct (issues variant) as [|i l]; simpl.
  - split; [done|]. intros _. by left.
  - split; [|discriminate]. intros Hin.
    repeat match type of Hin with
    | context [if ?b then _ else _] => destruct b
    end; simpl in Hin; apply list_elem_of_In in Hin; simpl in Hin; intuition discriminate.
Qed.

(** X21: on a bundle of the shape the audit reads, the audit under strict
    mode raises as many flags as the audit without it, and its score is the
    other score less 10, and 0 when that is negative; both scores lie in
    [0,100]. *)
Theorem strict_mode_costs_ten_points (variant : value) :
  well_formed_bundle variant = true →
  ∃ score flags strict_flags,
    (report ← rule_based_audit variant false; get report "audit_score" VNone) = Ok (VInt score) ∧
    (report ← rule_based_audit variant true; get report "audit_score" VNone)
    = Ok (VInt (Z.max 0 (score - 10))) ∧
    (report ← rule_based_audit variant false; get report "risk_flags" VNone) = Ok (VList flags) ∧
    (report ← rule_based_audit variant true; get report "risk_flags" VNone)
    = Ok (VList strict_flags) ∧
    length strict_flags = length flags ∧
    0 ≤ score ≤ 100.
Proof.
  intros Hwf. rewrite !rule_based_audit_report by done.
  exists (expected_score variant false), (expected_flags variant false),
    (expected_flags variant true).
  pose proof (penalties_nonnegative (issues variant)) as Hpos.
  assert (Hlen : length (expected_flags variant true) = length (expected_flags variant false)).
  { unfold expected_flags. by rewrite !length_imap, !length_fmap. }
  unfold expected_report, expected_score, clamp.
  revert Hpos. generalize (foldr Z.add 0 (issue_penalty <$> issues variant)). intros P Hpos.
  simpl. split_and!; try reflexivity; try lia; try done.
  all: do 2 f_equal; lia.
Qed.

(** The bundle with one issue of each kind. *)
Lemma audit_report_notes_witness :
  well_formed_bundle flawed_bundle = true ∧
  ∃ report,
    rule_based_audit flawed_bundle true = Ok report ∧
    get report "summary" VNone
    = Ok (VStr (summary_line (expected_score flawed_bundle true) (length (issues flawed_bundle)))) ∧
    get report "positive_notes" VNone = Ok (VList (VStr <$> positive_notes flawed_bundle)) ∧
    get report "recommended_changes" VNone = Ok (VList []) ∧
    ("All adaptations include dimension-based justification" ∈ positive_notes flawed_bundle
     ↔ get report "risk_flags" VNone = Ok (VList [])).
Proof.
  split; [vm_compute; reflexivity|].
  apply (audit_report_notes flawed_bundle true). vm_compute; reflexivity.
Defined.

(** The bundle with one issue of each kind. *)
Lemma strict_mode_costs_ten_points_witness :
  well_formed_bundle flawed_bundle = true ∧
  ∃ score flags strict_flags,
    (report ← rule_based_audit flawed_bundle false; get report "audit_score" VNone)
    = Ok (VInt score) ∧
    (report ← rule_based_audit flawed_bundle true; get report "audit_score" VNone)
    = Ok (VInt (Z.max 0 (score - 10))) ∧
    (report ← rule_based_audit flawed_bundle false; get report "risk_flags" VNone)
    = Ok (VList flags) ∧
    (report ← rule_based_audit flawed_bundle true; get report "risk_flags" VNone)
    = Ok (VList strict_flags) ∧
    length strict_flags = length flags ∧
    0 ≤ score ≤ 100.
Proof.
  split; [vm_compute; reflexivity|].
  apply (strict_mode_costs_ten_points flawed_bundle). vm_compute; reflexivity.
Defined.

Lemma for_each_app {A S : Type} (xs ys : list A) (body : S → A → res S) (st : S) :
  for_each (xs ++ ys) body st = (st' ← for_each xs body st; for_each ys body st').
Proof.
  revert st. induction xs as [|x xs IH]; intros st; simpl; [done|].
  destruct (body st x) as [st'|e]; simpl; [apply IH | done].
Qed.

Lemma audit_copy_item_raises (strict_mode : bool) (st : audit_state) (key : string)
    (f : list (string * value)) :
  is_str (entry f "text" (VStr "")) = false →
  audit_copy_item strict_mode st (key, VDict f) = Raise (AttributeError "lower").
Proof.
  unfold audit_copy_item, entry. simpl.
  by destruct (default (VStr "") (assoc_get f "text")).
Qed.

(** X22: when a field of the copy has a text that is no string, the
    fallback audit raises [AttributeError]. *)
Theorem non_string_copy_text_raises (d : list (string * value))
    (pre rest : list (string * value)) (key : string) (f : list (string * value))
    (strict_mode : bool) :
  entry d "copy" (VDict []) = VDict (pre ++ (key, VDict f) :: rest) →
  forallb copy_entry_ok pre = true →
  is_str (entry f "text" (VStr "")) = false →
  rule_based_audit (VDict d) strict_mode = Raise (AttributeError "lower").
Proof.
  intros Hcopy Hpre Htext. unfold rule_based_audit. simpl. unfold entry in Hcopy.
  rewrite Hcopy. simpl. rewrite for_each_app, (copy_loop strict_mode) by done.
  cbn [mbind res_mbind res_bind for_each]. by rewrite audit_copy_item_raises.
Qed.

(** A copy whose only field has the text 5. *)
Lemma non_string_copy_text_raises_witness :
  entry (dict_items bundle_with_numeric_text) "copy" (VDict [])
  = VDict ([] ++ ("cta_primary", VDict [("text", VInt 5); ("rationale", VStr "")]) :: []) ∧
  forallb copy_entry_ok [] = true ∧
  is_str (entry [("text", VInt 5); ("rationale", VStr "")] "text" (VStr "")) = false ∧
  rule_based_audit (VDict (dict_items bundle_with_numeric_text)) false
  = Raise (AttributeError "lower").
Proof.
  split; [reflexivity|]. split; [reflexivity|]. split; [reflexivity|].
  apply (non_string_copy_text_raises (dict_items bundle_with_numeric_text) [] []
           "cta_primary" [("text", VInt 5); ("rationale", VStr "")] false);
    reflexivity.
Defined.

End AuditReportNotes.

(** ** The prediction: what the gateway can change, range, confidence *)

Section PredictionRange.
Import ExperimentationAgent.

Lemma heuristic_shape (variant audit_result heuristic : value) :
  calculate_heuristic_lift variant audit_result = Ok heuristic →
  ∃ st audit_score score audit_multiplier,
    heuristic = heuristic_report 2.3 st audit_score score audit_multiplier.
Proof.
  unfold calculate_heuristic_lift. intros H.
  repeat match type of H with
  | (?m ≫= _) = Ok _ => destruct m; simpl in H; [|discriminate]
  end.
  injection H as <-. by eexists _, _, _, _.
Qed.

(** X23: whatever the gateway replies, a prediction that is returned has
    the metric ["conversion_rate"] and the baseline, the predicted rate and
    the lift of the heuristic. *)
Theorem gateway_cannot_change_the_numbers (llm : LLMClient.t)
    (variant audit_result report : value) :
  predict llm variant audit_result = Ok report →
  ∃ heuristic,
    calculate_heuristic_lift variant audit_result = Ok heuristic ∧
    get report "metric" VNone = Ok (VStr "conversion_rate") ∧
    get report "baseline" VNone = get heuristic "baseline" VNone ∧
    get report "predicted" VNone = get heuristic "predicted" VNone ∧
    get report "lift_percentage" VNone = get heuristic "lift_percentage" VNone.
Proof.
  unfold predict. intros H.
  destruct (calculate_heuristic_lift variant audit_result) as [heuristic|e] eqn:Hh;
    [|discriminate].
  exists heuristic. split; [done|].
  destruct (heuristic_shape _ _ _ Hh) as (st & audit_score & score & mult & ->).
  simpl in H.
  repeat match type of H with
  | (?m ≫= _) = Ok _ => destruct m; simpl in H; [|discriminate]
  | (if ?b then _ else _) = Ok _ => destruct b
  end;
  injection H as <-; by split_and!.
Qed.

(** A reply with numbers of its own. *)
Lemma gateway_cannot_change_the_numbers_witness :
  ∃ report,
    predict optimistic_reply guarantees_bundle (audit_with_score 100) = Ok report ∧
    ∃ heuristic,
      calculate_heuristic_lift guarantees_bundle (audit_with_score 100) = Ok heuristic ∧
      get report "metric" VNone = Ok (VStr "conversion_rate") ∧
      get report "baseline" VNone = get heuristic "baseline" VNone ∧
      get report "predicted" VNone = get heuristic "predicted" VNone ∧
      get report "lift_percentage" VNone = get heuristic "lift_percentage" VNone.
Proof.
  eexists. split; [vm_compute; reflexivity|].
  apply (gateway_cannot_change_the_numbers optimistic_reply guarantees_bundle
           (audit_with_score 100)).
  vm_compute; reflexivity.
Defined.

Lemma ascending_within_lookup (lo hi : float) (l : list float) (i j : nat) (x y : float) :
  ascending_within lo hi l = true →
  (i ≤ j)%nat → l !! i = Some x → l !! j = Some y →
  (lo <=? x)%float = true ∧ (x <=? y)%float = true ∧ (y <=? hi)%float = true.
Proof.
  revert i j x y. induction l as [|z l IH]; intros i j x y Hasc Hij Hi Hj; [done|].
  cbn [ascending_within] in Hasc.
  apply andb_prop in Hasc as [Hasc Hrest]. apply andb_prop in Hasc as [Hasc Hall].
  apply andb_prop in Hasc as [Hlo Hhi].
  destruct i as [|i].
  - injection Hi as <-. split_and!; [done| |].
    + rewrite forallb_forall in Hall. apply Hall.
      apply list_elem_of_In. by eapply list_elem_of_lookup_2.
    + destruct j as [|j]; [by injection Hj as <-|].
      simpl in Hj. by destruct (IH j j y y Hrest (le_n _) Hj Hj) as (_ & _ & ?).
  - destruct j as [|j]; [lia|]. simpl in Hi, Hj. by apply (IH i j); [|lia| |].
Qed.

Lemma Z_upto_lookup (lo : Z) (n : nat) (i : nat) :
  (i < n)%nat → Z_upto lo n !! i = Some (lo + Z.of_nat i).
Proof.
  revert lo i. induction n as [|n IH]; intros lo i Hi; [lia|].
  destruct i as [|i]; simpl.
  - f_equal. lia.
  - rewrite IH by lia. f_equal. lia.
Qed.

Lemma lifts_by_score_lookup (fired : list signal) (s : Z) :
  0 ≤ s ≤ 100 → lifts_by_score fired !! Z.to_nat s = Some (expected_lift 2.3 fired s).
Proof.
  intros Hs. unfold lifts_by_score.
  change (map ?f ?l) with (f <$> l). rewrite list_lookup_fmap, Z_upto_lookup by lia.
  simpl. do 2 f_equal. lia.
Qed.

(** Checked for each of the 64 sets of conditions. *)
Lemma lifts_enumerated (b1 b2 b3 b4 b5 b6 : bool) :
  ascending_within 0 31.3 (lifts_by_score (signals_of b1 b2 b3 b4 b5 b6)) = true ∧
  (expected_lift 2.3 (signals_of b1 b2 b3 b4 b5 b6) 0 =? 0)%float = true.
Proof. destruct b1, b2, b3, b4, b5, b6; split; vm_compute; reflexivity. Qed.

Lemma report_lift (fired : list signal) (s : Z) :
  get (heuristic_report 2.3 (state_of fired) (VInt s) (NInt s) (audit_fraction s))
      "lift_percentage" VNone
  = Ok (VFloat (expected_lift 2.3 fired s)).
Proof.
  destruct (state_of_spec fired) as [Hc _].
  unfold heuristic_report, get. simpl. by rewrite Hc.
Qed.

(** X24: on a bundle of the shape the prediction reads, for audit scores
    [s <= s'] between 0 and 100, the lift for [s] is at least 0 and at most
    the lift for [s'], which is at most 31.3; the lift for the score 0 is
    0. *)
Theorem lift_is_bounded_and_monotone (variant : value) (a a' : list (string * value))
    (s s' : Z) :
  prediction_ready variant = true →
  entry a "audit_score" (VInt 80) = VInt s →
  entry a' "audit_score" (VInt 80) = VInt s' →
  0 ≤ s → s ≤ s' → s' ≤ 100 →
  ∃ lift lift',
    (report ← calculate_heuristic_lift variant (VDict a); get report "lift_percentage" VNone)
    = Ok (VFloat lift) ∧
    (report ← calculate_heuristic_lift variant (VDict a'); get report "lift_percentage" VNone)
    = Ok (VFloat lift') ∧
    (0 <=? lift)%float = true ∧
    (lift <=? lift')%float = true ∧
    (lift' <=? 31.3)%float = true ∧
    (s = 0 → (lift =? 0)%float = true).
Proof.
  intros Hready Ha Ha' H0 Hss H100.
  rewrite (calculate_heuristic_lift_ready variant a s Hready Ha) by lia.
  rewrite (calculate_heuristic_lift_ready variant a' s' Hready Ha') by lia.
  cbn [mbind res_mbind res_bind]. rewrite !report_lift.
  destruct (fired_signals_of variant) as (b1 & b2 & b3 & b4 & b5 & b6 & ->).
  destruct (lifts_enumerated b1 b2 b3 b4 b5 b6) as [Hasc Hzero].
  eexists _, _. split; [reflexivity|]. split; [reflexivity|].
  destruct (ascending_within_lookup _ _ _ (Z.to_nat s) (Z.to_nat s')
              (expected_lift 2.3 (signals_of b1 b2 b3 b4 b5 b6) s)
              (expected_lift 2.3 (signals_of b1 b2 b3 b4 b5 b6) s') Hasc)
    as (Hlo & Hle & Hhi); [lia | apply lifts_by_score_lookup; lia
                          | apply lifts_by_score_lookup; lia |].
  split_and!; try done. by intros ->.
Qed.

(** Prominent guarantees, the scores 60 and 100. *)
Lemma lift_is_bounded_and_monotone_witness :
  prediction_ready guarantees_bundle = true ∧
  entry (dict_items (audit_with_score 60)) "audit_score" (VInt 80) = VInt 60 ∧
  entry (dict_items (audit_with_score 100)) "audit_score" (VInt 80) = VInt 100 ∧
  0 ≤ 60 ∧ 60 ≤ 100 ∧ 100 ≤ 100 ∧
  ∃ lift lift',
    (report ← calculate_heuristic_lift guarantees_bundle (VDict (dict_items (audit_with_score 60)));
     get report "lift_percentage" VNone) = Ok (VFloat lift) ∧
    (report ← calculate_heuristic_lift guarantees_bundle (VDict (dict_items (audit_with_score 100)));
     get report "lift_percentage" VNone) = Ok (VFloat lift') ∧
    (0 <=? lift)%float = true ∧
    (lift <=? lift')%float = true ∧
    (lift' <=? 31.3)%float = true ∧
    (60 = 0 → (lift =? 0)%float = true).
Proof.
  split; [reflexivity|]. split; [reflexivity|]. split; [reflexivity|].
  split; [lia|]. split; [lia|]. split; [lia|].
  apply (lift_is_bounded_and_monotone guarantees_bundle (dict_items (audit_with_score 60))
           (dict_items (audit_with_score 100)) 60 100); first [reflexivity | lia].
Defined.

Lemma state_of_length (fired : list signal) :
  length (applied_factors (state_of fired)) = length fired.
Proof.
  destruct (fold_apply_factor fired {| compound_factor := 1.0; applied_factors := [] |})
    as [_ Ha].
  unfold state_of. rewrite Ha. simpl. by rewrite length_map.
Qed.

(** X25: on a bundle of the shape the prediction reads and an integer
    audit score from 0 to 100, the confidence is "high" with at least four
    fired signals and a score of at least 80, "medium" with at least two and
    at least 60, and "low" otherwise; at most five signals fire. *)
Theorem confidence_level_spec (variant : value) (a : list (string * value)) (s : Z) :
  prediction_ready variant = true →
  entry a "audit_score" (VInt 80) = VInt s →
  0 ≤ s ≤ 100 →
  (report ← calculate_heuristic_lift variant (VDict a); get report "confidence_level" VNone)
  = Ok (VStr (expected_confidence (length (fired_signals variant)) s)) ∧
  (length (fired_signals variant) ≤ 5)%nat.
Proof.
  intros Hready Ha Hs.
  rewrite (calculate_heuristic_lift_ready variant a s Hready Ha Hs).
  split.
  - unfold heuristic_report, expected_confidence. cbn [mbind res_mbind res_bind].
    rewrite state_of_length. reflexivity.
  - destruct (fired_signals_of variant) as (b1 & b2 & b3 & b4 & b5 & b6 & ->).
    apply signals_of_length.
Qed.

(** Prominent guarantees and a perfect audit. *)
Lemma confidence_level_spec_witness :
  prediction_ready guarantees_bundle = true ∧
  entry (dict_items (audit_with_score 100)) "audit_score" (VInt 80) = VInt 100 ∧
  0 ≤ 100 ≤ 100 ∧
  (report ← calculate_heuristic_lift guarantees_bundle (VDict (dict_items (audit_with_score 100)));
   get report "confidence_level" VNone)
  = Ok (VStr (expected_confidence (length (fired_signals guarantees_bundle)) 100)) ∧
  (length (fired_signals guarantees_bundle) ≤ 5)%nat.
Proof.
  split; [reflexivity|]. split; [reflexivity|]. split; [lia|].
  apply (confidence_level_spec guarantees_bundle (dict_items (audit_with_score 100)) 100);
    first [reflexivity | lia].
Defined.

End PredictionRange.

(** ** Credentials and the reply of the gateway *)

Section CredentialsProperties.
Import LLMClient CulturalDataLoader CulturalIntelligenceAgent.

(** X26: when the endpoint or the key is not set, no reply is ever used:
    the gateway answers with its fallback response; the UX stage and the
    audit stage return what their rule-based fallbacks return, errors
    included; and so does the copy stage, on the baseline copy of the base
    spec, given UX adaptations that are a dict and a baseline copy that is a
    dict or absent. *)
Theorem missing_credentials_mean_fallback (azure_openai_endpoint azure_openai_api_key : string)
    (reply : outcome) (data : CulturalDataLoader.t) (dimensions : gmap string num)
    (base_spec : option value) (price_band audience : string)
    (u c : list (string * value)) (variant : value) (strict_mode : bool) :
  azure_openai_endpoint = "" ∨ azure_openai_api_key = "" →
  get (match base_spec with
       | Some b => if truthy b then b else VDict []
       | None => VDict []
       end) "baseline_copy" (VDict []) = Ok (VDict c) →
  let llm := init azure_openai_endpoint azure_openai_api_key reply in
  generate_structured llm = fallback_response ∧
  UXAdaptationAgent.adapt data llm dimensions base_spec price_band audience
  = (rules ← get_applicable_rules data dimensions;
     UXAdaptationAgent.rule_based_adaptation dimensions rules
       (match base_spec with
        | Some b => if truthy b then b else UXAdaptationAgent.default_base_spec
        | None => UXAdaptationAgent.default_base_spec
        end) price_band) ∧
  CopyFramingAgent.generate llm dimensions (VDict u) base_spec
  = CopyFramingAgent.rule_based_copy dimensions (VDict c) ∧
  ComplianceAuditorAgent.audit llm variant strict_mode
  = ComplianceAuditorAgent.rule_based_audit variant strict_mode.
Proof.
  intros Hcred Hcopy llm.
  assert (Hllm : llm = None).
  { unfold llm, init. destruct Hcred as [->| ->]; [done|]. by rewrite andb_false_r. }
  rewrite Hllm. split_and!.
  - reflexivity.
  - apply adapt_not_configured.
  - by apply (generate_not_configured dimensions (VDict u) base_spec (VDict c)).
  - apply audit_not_configured.
Qed.

(** An endpoint without a key, and a base spec with a baseline copy. *)
Lemma missing_credentials_mean_fallback_witness :
  let base_spec := VDict [("product_category", VStr "fashion");
                          ("baseline_copy", VDict unused_baseline_copy)] in
  ("https://example.openai.azure.com" = "" ∨ "" = "") ∧
  get (if truthy base_spec then base_spec else VDict []) "baseline_copy" (VDict [])
  = Ok (VDict unused_baseline_copy) ∧
  let llm := init "https://example.openai.azure.com" ""
                  (JsonContent (VDict [("audit_score", VInt 100)])) in
  generate_structured llm = fallback_response ∧
  UXAdaptationAgent.adapt sample_data llm guatemala_dimensions (Some base_spec) "mid" "family"
  = (rules ← get_applicable_rules sample_data guatemala_dimensions;
     UXAdaptationAgent.rule_based_adaptation guatemala_dimensions rules
       (if truthy base_spec then base_spec else UXAdaptationAgent.default_base_spec) "mid") ∧
  CopyFramingAgent.generate llm guatemala_dimensions (VDict []) (Some base_spec)
  = CopyFramingAgent.rule_based_copy guatemala_dimensions (VDict unused_baseline_copy) ∧
  ComplianceAuditorAgent.audit llm flawed_bundle true
  = ComplianceAuditorAgent.rule_based_audit flawed_bundle true.
Proof.
  cbv zeta. split; [by right|]. split; [reflexivity|].
  apply (missing_credentials_mean_fallback "https://example.openai.azure.com" ""
           (JsonContent (VDict [("audit_score", VInt 100)])) sample_data guatemala_dimensions
           (Some (VDict [("product_category", VStr "fashion");
                         ("baseline_copy", VDict unused_baseline_copy)]))
           "mid" "family" [] unused_baseline_copy flawed_bundle true);
    [by right | reflexivity].
Defined.

(** X27: when the gateway's reply has a ["dimensions"] entry and no true
    ["fallback"] entry, [analyze] returns that entry as the dimensions of
    the profile, unchecked, in the place of the stored dimensions with the
    overrides, which are written into the loader all the same; the country
    code is the one asked for, and evidence and notes are the reply's, or
    the prior's when the reply has none. *)
Theorem gateway_dimensions_replace_the_overrides (data : CulturalDataLoader.t)
    (r : list (string * value)) (dims : value) (country_code product_category : string)
    (overrides : gmap string num) (p : prior) :
  cultural_priors data !! country_code = Some p →
  assoc_get r "dimensions" = Some dims →
  truthy (entry r "fallback" VNone) = false →
  (analyze data (Some (JsonContent (VDict r))) country_code product_category (Some overrides)).1
  = (get_cultural_prior_with_overrides data country_code overrides).1 ∧
  ∃ profile,
    (analyze data (Some (JsonContent (VDict r))) country_code product_category (Some overrides)).2
    = Ok profile ∧
    CulturalIntelligenceAgent.country_code profile = country_code ∧
    p_dimensions profile = FromGateway dims ∧
    p_evidence profile = entry r "evidence" (evidence p) ∧
    p_notes profile
    = entry r "notes" (VStr (if decide (overrides = ∅) then notes p
                             else notes p +:+ " [Manual overrides applied to some dimensions]")) ∧
    p_rationale profile = entry r "rationale" (VStr "") ∧
    p_dimension_rationales profile = entry r "dimension_rationales" (VDict []).
Proof.
  intros Hp Hdims Hfb.
  unfold analyze, get_cultural_prior_with_overrides, get_cultural_prior. rewrite Hp.
  unfold entry in *. change (default ∅ (Some overrides)) with overrides.
  case_decide; simpl; unfold has_key; rewrite Hdims; simpl; rewrite Hfb; simpl;
    (split; [reflexivity|]); eexists; (split; [reflexivity|]); by split_and!.
Qed.

(** A reply with a collectivism of 150, against an override of 30. *)
Lemma gateway_dimensions_replace_the_overrides_witness :
  cultural_priors sample_data !! "JP" = Some japan_prior ∧
  assoc_get enriched_reply "dimensions"
  = Some (VDict [("collectivism", VInt 150); ("mood", VStr "calm")]) ∧
  truthy (entry enriched_reply "fallback" VNone) = false ∧
  (analyze sample_data (Some (JsonContent (VDict enriched_reply))) "JP" "fashion"
     (Some collectivism_override)).1
  = (get_cultural_prior_with_overrides sample_data "JP" collectivism_override).1 ∧
  ∃ profile,
    (analyze sample_data (Some (JsonContent (VDict enriched_reply))) "JP" "fashion"
       (Some collectivism_override)).2 = Ok profile ∧
    CulturalIntelligenceAgent.country_code profile = "JP" ∧
    p_dimensions profile = FromGateway (VDict [("collectivism", VInt 150); ("mood", VStr "calm")]) ∧
    p_evidence profile = entry enriched_reply "evidence" (evidence japan_prior) ∧
    p_notes profile
    = entry enriched_reply "notes"
        (VStr (if decide (collectivism_override = ∅) then notes japan_prior
               else notes japan_prior +:+ " [Manual overrides applied to some dimensions]")) ∧
    p_rationale profile = entry enriched_reply "rationale" (VStr "") ∧
    p_dimension_rationales profile = entry enriched_reply "dimension_rationales" (VDict []).
Proof.
  split; [reflexivity|]. split; [reflexivity|]. split; [reflexivity|].
  apply (gateway_dimensions_replace_the_overrides sample_data enriched_reply
           (VDict [("collectivism", VInt 150); ("mood", VStr "calm")]) "JP" "fashion"
           collectivism_override japan_prior); reflexivity.
Defined.

End CredentialsProperties.
